(** * alpaca_smart_trade: the React front end and the analysis core it talks to

    The repository ships the browser side of the application
    (App.js, TradingPanel.js, AnalysisResults.js, StockSelector.js,
    AccountSummary.js):
    it is embedded here function by function over a small model of
    JavaScript values.  The Python analysis core (regime classifier,
    walk-forward optimizer, risk manager, decision engine) is not part
    of the sources at hand; the definitions of [Module Core] follow its
    written specification and say so. *)

From Stdlib Require Import ZArith QArith Qround Qabs Qminmax Lia Lqa Bool.
From Stdlib Require Import String Ascii List DecimalString DecimalPos DecimalN.
From stdpp Require Import base option list strings gmap.
Import ListNotations.

Local Open Scope string_scope.
Local Open Scope list_scope.
Local Open Scope Z_scope.

Set Warnings "-register-all".

(* ===================================================================== *)
(** * JavaScript values and the built-ins the components call *)
(* ===================================================================== *)

Module JS.

(** A Number.  Finite numbers are kept as exact rationals: the
    rounding to binary64 is not modelled. *)
Inductive number : Type :=
| NaN
| Inf (negative : bool)
| Fin (q : Q).

(** What JSON.parse can produce, plus [undefined]. *)
Inductive value : Type :=
| VUndefined
| VNull
| VBool (b : bool)
| VNum (n : number)
| VStr (s : string)
| VArr (xs : list value)
| VObj (fields : list (string * value)).

Inductive exn : Type :=
| TypeError (msg : string).

Definition result (A : Type) : Type := (exn + A)%type.
Definition Ok {A} (a : A) : result A := inr a.
Definition Throw {A} (e : exn) : result A := inl e.

Definition rbind {A B} (m : result A) (f : A -> result B) : result B :=
  match m with
  | inl e => inl e
  | inr a => f a
  end.

Notation "x <-! m ; k" := (rbind m (fun x => k))
  (at level 20, m at level 100, k at level 200, only parsing).

Definition num (z : Z) : value := VNum (Fin (inject_Z z)).

(** ToBoolean. *)
Definition truthy (v : value) : bool :=
  match v with
  | VUndefined | VNull => false
  | VBool b => b
  | VNum NaN => false
  | VNum (Inf _) => true
  | VNum (Fin q) => negb (Qeq_bool q 0)
  | VStr s => negb (String.eqb s EmptyString)
  | VArr _ | VObj _ => true
  end.

(** [a || b] *)
Definition or_else (a b : value) : value := if truthy a then a else b.

Definition nullish (v : value) : bool :=
  match v with
  | VUndefined | VNull => true
  | _ => false
  end.

Fixpoint assoc (k : string) (fields : list (string * value)) : value :=
  match fields with
  | [] => VUndefined
  | (k', v) :: rest => if String.eqb k k' then v else assoc k rest
  end.

(** [v.k] on a value that is neither null nor undefined, for the
    names the components read: the fields of an object, and the
    [length] of an array or a string. *)
Definition prop (v : value) (k : string) : value :=
  match v with
  | VObj fields => assoc k fields
  | VArr xs => if String.eqb k "length" then num (Z.of_nat (length xs)) else VUndefined
  | VStr s => if String.eqb k "length" then num (Z.of_nat (String.length s)) else VUndefined
  | _ => VUndefined
  end.

(** [k in v] for an object literal: the field was written. *)
Definition has_own (v : value) (k : string) : bool :=
  match v with
  | VObj fields => existsb (fun kv => String.eqb k (fst kv)) fields
  | _ => false
  end.

(** [v.k]: reading a property of null or undefined throws. *)
Definition get (v : value) (k : string) : result value :=
  if nullish v
  then Throw (TypeError (String.append "Cannot read properties of null or undefined: " k))
  else Ok (prop v k).

(** [v?.k] *)
Definition get_opt (v : value) (k : string) : value :=
  if nullish v then VUndefined else prop v k.

(** [v === s] for a string [s]. *)
Definition strict_eq_str (v : value) (s : string) : bool :=
  match v with
  | VStr s' => String.eqb s' s
  | _ => false
  end.

Definition chars (s : string) : list value :=
  map (fun c => VStr (String c EmptyString)) (list_ascii_of_string s).

(** [...v] inside an array literal: arrays and strings are iterable,
    nothing else that JSON can carry is. *)
Definition spread (v : value) : result (list value) :=
  match v with
  | VArr xs => Ok xs
  | VStr s => Ok (chars s)
  | _ => Throw (TypeError "value is not iterable")
  end.

(** [xs.find(p)] for a predicate that may throw. *)
Fixpoint find (p : value -> result bool) (xs : list value) : result value :=
  match xs with
  | [] => Ok VUndefined
  | x :: rest =>
      b <-! p x;
      if b then Ok x else find p rest
  end.

(** ** parseInt and parseFloat *)

(** White space and line terminators, in the ASCII range. *)
Definition is_white (c : ascii) : bool :=
  let n := N_of_ascii c in
  ((n =? 9) || (n =? 10) || (n =? 11) || (n =? 12) || (n =? 13) || (n =? 32))%N.

Fixpoint trim_start (s : list ascii) : list ascii :=
  match s with
  | c :: rest => if is_white c then trim_start rest else s
  | [] => []
  end.

Definition digit (radix : Z) (c : ascii) : option Z :=
  let n := Z.of_N (N_of_ascii c) in
  let d := if (48 <=? n) && (n <=? 57) then Some (n - 48)
           else if (97 <=? n) && (n <=? 122) then Some (n - 87)
           else if (65 <=? n) && (n <=? 90) then Some (n - 55)
           else None in
  match d with
  | Some v => if v <? radix then Some v else None
  | None => None
  end.

(** The longest run of radix-[radix] digits at the front of [s]:
    how many there are, their value, and what follows. *)
Fixpoint digits (radix : Z) (acc : Z) (len : nat) (s : list ascii)
  : Z * nat * list ascii :=
  match s with
  | c :: rest =>
      match digit radix c with
      | Some d => digits radix (acc * radix + d) (S len) rest
      | None => (acc, len, s)
      end
  | [] => (acc, len, [])
  end.

Definition take_sign (s : list ascii) : bool * list ascii :=
  match s with
  | "-"%char :: rest => (true, rest)
  | "+"%char :: rest => (false, rest)
  | _ => (false, s)
  end.

Definition signed (negative : bool) (q : Q) : Q :=
  if negative then Qopp q else q.

(** [parseInt(s)] with no radix argument. *)
Definition parseInt_chars (s : list ascii) : number :=
  let '(negative, s1) := take_sign (trim_start s) in
  let '(radix, s2) :=
    match s1 with
    | "0"%char :: "x"%char :: rest => (16, rest)
    | "0"%char :: "X"%char :: rest => (16, rest)
    | _ => (10, s1)
    end in
  let '(v, len, _) := digits radix 0 0%nat s2 in
  match len with
  | O => NaN
  | S _ => Fin (signed negative (inject_Z v))
  end.

Definition parseInt_string (s : string) : number :=
  parseInt_chars (list_ascii_of_string s).

Definition pow10 (e : Z) : Q :=
  if 0 <=? e then inject_Z (10 ^ e) else Qmake 1 (Z.to_pos (10 ^ (- e))).

Definition exponent_part (s : list ascii) : Z * list ascii :=
  match s with
  | c :: rest =>
      if Ascii.eqb c "e" || Ascii.eqb c "E" then
        let '(negative, s1) := take_sign rest in
        let '(e, len, s2) := digits 10 0 0%nat s1 in
        match len with
        | O => (0, s)
        | S _ => (if negative then - e else e, s2)
        end
      else (0, s)
  | [] => (0, s)
  end.

Definition starts_with (p s : list ascii) : bool :=
  match decide (take (length p) s = p) with
  | left _ => true
  | right _ => false
  end.

(** The longest prefix of [s] that is a StrDecimalLiteral, with its
    value and what follows it. *)
Definition decimal_literal (s : list ascii) : option (number * list ascii) :=
  let '(negative, s1) := take_sign s in
  let infinity := list_ascii_of_string "Infinity" in
  if starts_with infinity s1 then Some (Inf negative, drop (length infinity) s1)
  else
    let '(ip, ilen, s2) := digits 10 0 0%nat s1 in
    let '(fp, flen, s3) :=
      match s2 with
      | "."%char :: rest =>
          let '(m, n, s3) := digits 10 ip 0%nat rest in
          match ilen, n with
          | O, O => (ip, 0%nat, s2)
          | _, _ => (m, n, s3)
          end
      | _ => (ip, 0%nat, s2)
      end in
    match ilen, flen with
    | O, O => None
    | _, _ =>
        let '(e, s4) := exponent_part s3 in
        Some (Fin (signed negative (inject_Z fp * pow10 (e - Z.of_nat flen))), s4)
    end.

(** [parseFloat(s)] *)
Definition parseFloat (s : string) : number :=
  match decimal_literal (trim_start (list_ascii_of_string s)) with
  | Some (n, _) => n
  | None => NaN
  end.

Definition whole_digits (radix : Z) (s : list ascii) : number :=
  match digits radix 0 0%nat s with
  | (v, S _, []) => Fin (inject_Z v)
  | _ => NaN
  end.

(** StringToNumber: the whole trimmed string must be a numeric
    literal; the empty string is 0. *)
Definition StringToNumber (s : string) : number :=
  let t := rev (trim_start (rev (trim_start (list_ascii_of_string s)))) in
  match t with
  | [] => Fin 0
  | "0"%char :: "x"%char :: rest | "0"%char :: "X"%char :: rest => whole_digits 16 rest
  | "0"%char :: "o"%char :: rest | "0"%char :: "O"%char :: rest => whole_digits 8 rest
  | "0"%char :: "b"%char :: rest | "0"%char :: "B"%char :: rest => whole_digits 2 rest
  | _ =>
      match decimal_literal t with
      | Some (n, []) => n
      | _ => NaN
      end
  end.

(** ToNumber.  An array is converted through its string, the
    elements joined by commas. *)
Fixpoint to_number (v : value) : number :=
  match v with
  | VUndefined => NaN
  | VNull => Fin 0
  | VBool b => Fin (if b then 1 else 0)
  | VNum n => n
  | VStr s => StringToNumber s
  | VArr [] => Fin 0
  | VArr [x] =>
      match x with
      | VUndefined | VNull => Fin 0
      | VBool _ | VObj _ => NaN
      | _ => to_number x
      end
  | VArr _ => NaN
  | VObj _ => NaN
  end.

Definition number_mul (a b : number) : number :=
  match a, b with
  | NaN, _ | _, NaN => NaN
  | Fin x, Fin y => Fin (x * y)
  | Inf s, Inf t => Inf (xorb s t)
  | Inf s, Fin y | Fin y, Inf s =>
      if Qeq_bool y 0 then NaN else Inf (xorb s (negb (Qle_bool 0 y)))
  end.

(** [a * b] *)
Definition times (a b : value) : number :=
  number_mul (to_number a) (to_number b).

(** [a === b] on primitives.  Objects and arrays are compared by
    identity in JavaScript; identities are not tracked here and two
    of them never compare equal. *)
Definition strict_eq (a b : value) : bool :=
  match a, b with
  | VUndefined, VUndefined | VNull, VNull => true
  | VBool x, VBool y => Bool.eqb x y
  | VNum (Fin x), VNum (Fin y) => Qeq_bool x y
  | VNum (Inf s), VNum (Inf t) => Bool.eqb s t
  | VStr x, VStr y => String.eqb x y
  | _, _ => false
  end.

(** The most significant decimal digit of a positive rational. *)
Fixpoint lead_up (fuel : nat) (n : Z) : Z :=
  match fuel with
  | O => n
  | S f => if n <? 10 then n else lead_up f (n / 10)
  end.

Fixpoint lead_down (fuel : nat) (q : Q) : Z :=
  match fuel with
  | O => Qfloor q
  | S f => if Qle_bool 1 q then Qfloor q else lead_down f (q * 10)
  end.

Definition leading_digit (q : Q) : Z :=
  if Qle_bool 1 q
  then let n := Qfloor q in lead_up (S (Z.to_nat (Z.log2 n))) n
  else lead_down (Pos.to_nat (Qden q)) q.

(** [parseInt(x)] for a Number [x], that is parseInt of
    Number::toString(x).  Between 1e-6 and 1e21 the string is a plain
    decimal, whose digits before the point are the truncation of [x];
    outside that range it is in exponent notation, d.ddde±n, of which
    parseInt reads the first digit only. *)
Definition parseInt_number (n : number) : number :=
  match n with
  | NaN | Inf _ => NaN
  | Fin q =>
      let a := Qabs q in
      if Qeq_bool q 0 then Fin 0
      else if Qle_bool (pow10 (-6)) a && negb (Qle_bool (pow10 21) a)
      then Fin (inject_Z (Z.quot (Qnum q) (Zpos (Qden q))))
      else Fin (signed (negb (Qle_bool 0 q)) (inject_Z (leading_digit a)))
  end.

(** [parseInt(v)]: ToString, then parse.  An array prints as its
    elements joined by commas, so parseInt sees its first element;
    undefined, null, booleans and plain objects print as words. *)
Fixpoint parseInt (v : value) : number :=
  match v with
  | VStr s => parseInt_string s
  | VNum n => parseInt_number n
  | VArr (x :: _) =>
      match x with
      | VUndefined | VNull => NaN
      | _ => parseInt x
      end
  | _ => NaN
  end.

End JS.

Import JS.

(* ===================================================================== *)
(** * Asynchronous handlers: the requests a handler performs *)
(* ===================================================================== *)

Module Http.

Inductive method : Type := GET | POST.

Record request : Type := Request {
  req_method : method;
  req_url : string;
  req_body : value
}.

(** How an axios promise settles: with [response.data], or with the
    error that is thrown at the [await]. *)
Inductive response : Type :=
| Resolved (data : value)
| Rejected (err : value).

(** An async function, as the tree of the requests it awaits. *)
Inductive Prog (A : Type) : Type :=
| Ret (a : A)
| Await (r : request) (k : response -> Prog A).
Arguments Ret {A} a.
Arguments Await {A} r k.

Fixpoint bind {A B} (m : Prog A) (f : A -> Prog B) : Prog B :=
  match m with
  | Ret a => f a
  | Await r k => Await r (fun resp => bind (k resp) f)
  end.

Notation "x <-~ m ; k" := (bind m (fun x => k))
  (at level 20, m at level 100, k at level 200, only parsing).

(** [emits p r]: some way for the server to answer makes [p]
    perform the request [r]. *)
Inductive emits {A} : Prog A -> request -> Prop :=
| emits_now r k : emits (Await r k) r
| emits_later r k resp r' : emits (k resp) r' -> emits (Await r k) r'.

(** [returns p a]: some way for the server to answer makes [p]
    finish with [a]. *)
Inductive returns {A} : Prog A -> A -> Prop :=
| returns_ret a : returns (Ret a) a
| returns_await r k resp a : returns (k resp) a -> returns (Await r k) a.

(** Running a handler against the answers of a scripted server; an
    exhausted script answers with a network error. *)
Fixpoint run {A} (p : Prog A) (script : list response) : A * list request :=
  match p with
  | Ret a => (a, [])
  | Await r k =>
      let resp := match script with
                  | x :: _ => x
                  | [] => Rejected (VObj [])
                  end in
      let '(a, rs) := run (k resp) (tail script) in
      (a, r :: rs)
  end.

End Http.

Import Http.

(* ===================================================================== *)
(** * App.js *)
(* ===================================================================== *)

Module App.

(** [telegramStatus] is one of the strings '', 'sending', 'success'
    and `error:${detail}`. *)
Inductive telegram_status : Type :=
| Idle
| Sending
| Success
| Error (detail : value).

Record state : Type := State {
  account : value;
  positions : value;
  riskSummary : value;
  selectedSymbols : list string;
  analysisResults : value;
  loading : bool;
  error : value;
  config : value;
  telegramStatus : telegram_status
}.

Definition initial : state :=
  {| account := VNull; positions := VArr []; riskSummary := VNull;
     selectedSymbols := ["NVDA"; "MSFT"; "AMZN"; "GOOGL"; "TSLA";
                         "UNH"; "CRWD"; "V"; "ASML"; "PLTR"];
     analysisResults := VNull; loading := false; error := VNull;
     config := VNull; telegramStatus := Idle |}.

Definition setAccountData (a p r : value) (s : state) : state :=
  {| account := a; positions := p; riskSummary := r;
     selectedSymbols := selectedSymbols s; analysisResults := analysisResults s;
     loading := loading s; error := error s; config := config s;
     telegramStatus := telegramStatus s |}.

Definition setError (e : value) (s : state) : state :=
  {| account := account s; positions := positions s; riskSummary := riskSummary s;
     selectedSymbols := selectedSymbols s; analysisResults := analysisResults s;
     loading := loading s; error := e; config := config s;
     telegramStatus := telegramStatus s |}.

Definition setConfig (c : value) (s : state) : state :=
  {| account := account s; positions := positions s; riskSummary := riskSummary s;
     selectedSymbols := selectedSymbols s; analysisResults := analysisResults s;
     loading := loading s; error := error s; config := c;
     telegramStatus := telegramStatus s |}.

Definition setLoading (b : bool) (s : state) : state :=
  {| account := account s; positions := positions s; riskSummary := riskSummary s;
     selectedSymbols := selectedSymbols s; analysisResults := analysisResults s;
     loading := b; error := error s; config := config s;
     telegramStatus := telegramStatus s |}.

Definition setTelegramStatus (t : telegram_status) (s : state) : state :=
  {| account := account s; positions := positions s; riskSummary := riskSummary s;
     selectedSymbols := selectedSymbols s; analysisResults := analysisResults s;
     loading := loading s; error := error s; config := config s;
     telegramStatus := t |}.

Definition setSelectedSymbols (l : list string) (s : state) : state :=
  {| account := account s; positions := positions s; riskSummary := riskSummary s;
     selectedSymbols := l; analysisResults := analysisResults s;
     loading := loading s; error := error s; config := config s;
     telegramStatus := telegramStatus s |}.

(** setAnalysisResults, setAccount and setRiskSummary of runAnalysis. *)
Definition setAnalysis (data : value) (s : state) : state :=
  {| account := prop data "account"; positions := positions s;
     riskSummary := prop data "risk_summary";
     selectedSymbols := selectedSymbols s; analysisResults := data;
     loading := loading s; error := error s; config := config s;
     telegramStatus := telegramStatus s |}.

(** [err.response?.data?.error] *)
Definition response_error (err : value) : value :=
  get_opt (get_opt (get_opt err "response") "data") "error".

Section Handlers.

(** [process.env.REACT_APP_API_URL || '/api'] *)
Variable API_BASE_URL : string.

Definition endpoint (path : string) : string := String.append API_BASE_URL path.

Definition loadAccountData (s : state) : Prog state :=
  Await (Request GET (endpoint "/account") VUndefined) (fun resp =>
    let failed :=
      setError (VStr "Failed to load account data. Please check your Alpaca API credentials.") s in
    match resp with
    | Resolved data =>
        match get data "success" with
        | inr ok =>
            if truthy ok
            then Ret (setAccountData (prop data "account") (prop data "positions")
                                     (prop data "risk_summary") s)
            else Ret s
        | inl _ => Ret failed
        end
    | Rejected _ => Ret failed
    end).

Definition loadConfig (s : state) : Prog state :=
  Await (Request GET (endpoint "/config") VUndefined) (fun resp =>
    match resp with
    | Resolved data =>
        match get data "success" with
        | inr ok => if truthy ok then Ret (setConfig (prop data "config") s) else Ret s
        | inl _ => Ret s
        end
    | Rejected _ => Ret s
    end).

(** The body of the POST to /analyze. *)
Definition analyze_body (s : state) : value :=
  VObj [("symbols", VArr (map VStr (selectedSymbols s)));
        ("lookback_days", or_else (get_opt (config s) "lookback_days") (num 60))].

Definition runAnalysis (s : state) : Prog state :=
  let s1 := setTelegramStatus Idle (setError VNull (setLoading true s)) in
  let failed (err : value) :=
    setError (or_else (response_error err)
                      (VStr "Failed to run analysis. Please try again.")) s1 in
  Await (Request POST (endpoint "/analyze") (analyze_body s)) (fun resp =>
    let s2 :=
      match resp with
      | Resolved data =>
          match get data "success" with
          | inr ok =>
              if truthy ok
              then setAnalysis data s1
              else setError (or_else (prop data "error") (VStr "Analysis failed")) s1
          | inl _ => failed (VObj [])
          end
      | Rejected err => failed err
      end in
    Ret (setLoading false s2)).

Definition sendToTelegram (s : state) : Prog state :=
  if negb (truthy (analysisResults s))
  then Ret (setTelegramStatus (Error (VStr "No analysis results to send")) s)
  else
    let s1 := setTelegramStatus Sending s in
    let failed (err : value) :=
      setTelegramStatus
        (Error (or_else (response_error err) (VStr "Failed to send to Telegram"))) s1 in
    Await (Request POST (endpoint "/send-telegram")
             (VObj [("analysis", prop (analysisResults s) "analysis")])) (fun resp =>
      match resp with
      | Resolved data =>
          match get data "success" with
          | inr ok =>
              if truthy ok
              then Ret (setTelegramStatus Success s1)
              else Ret (setTelegramStatus (Error (prop data "error")) s1)
          | inl _ => Ret (failed (VObj []))
          end
      | Rejected err => Ret (failed err)
      end).

Definition trade_failed (e : value) : value :=
  VObj [("success", VBool false); ("error", e)].

Definition executeTrade (tradeDetails : value) (s : state) : Prog (state * value) :=
  Await (Request POST (endpoint "/execute-trade") tradeDetails) (fun resp =>
    let failed (err : value) :=
      trade_failed (or_else (response_error err) (VStr "Failed to execute trade")) in
    match resp with
    | Resolved data =>
        match get data "success" with
        | inr ok =>
            if truthy ok
            then s' <-~ loadAccountData s;
                 Ret (s', VObj [("success", VBool true); ("order", prop data "order")])
            else Ret (s, trade_failed (prop data "error"))
        | inl _ => Ret (s, failed (VObj []))
        end
    | Rejected err => Ret (s, failed err)
    end).

(** The Run Analysis button: [disabled={loading || selectedSymbols.length === 0}] *)
Definition run_analysis_disabled (s : state) : bool :=
  loading s || (length (selectedSymbols s) =? 0)%nat.

(** The Telegram button is rendered when [analysisResults] is truthy, with
    [disabled={!config?.telegram_configured || telegramStatus === 'sending'}]. *)
Definition telegram_enabled (s : state) : bool :=
  truthy (analysisResults s)
  && truthy (get_opt (config s) "telegram_configured")
  && match telegramStatus s with Sending => false | _ => true end.

(** [{!loading && analysisResults && (<AnalysisResults/> <TradingPanel/>)}] *)
Definition shows_results (s : state) : bool :=
  negb (loading s) && truthy (analysisResults s).

End Handlers.

End App.

(* ===================================================================== *)
(** * components/TradingPanel.js *)
(* ===================================================================== *)

Module TradingPanel.

Record state : Type := State {
  selectedStock : value;
  orderType : string;
  limitPrice : string;
  customQuantity : string;
  executing : bool;
  tradeResult : value
}.

(** The useState initial values. *)
Definition initial : state :=
  {| selectedStock := VNull; orderType := "market"; limitPrice := EmptyString;
     customQuantity := EmptyString; executing := false; tradeResult := VNull |}.

(** [const { buy_recommendations, sell_recommendations } = results.analysis;
     const tradableRecommendations = [...buy_recommendations, ...sell_recommendations];] *)
Definition tradableRecommendations (analysis : value) : result (list value) :=
  buys <-! spread (prop analysis "buy_recommendations");
  sells <-! spread (prop analysis "sell_recommendations");
  Ok (buys ++ sells).

(** [orderType === 'limit'] *)
Definition is_limit (s : state) : bool := String.eqb (orderType s) "limit".

(** The object [handleExecute] hands to [onExecuteTrade]. *)
Definition tradeDetails (s : state) : value :=
  let quantity := or_else (VStr (customQuantity s)) (prop (selectedStock s) "position_size") in
  VObj ([("symbol", prop (selectedStock s) "symbol");
         ("action", prop (selectedStock s) "action");
         ("quantity", VNum (parseInt quantity));
         ("order_type", VStr (orderType s))]
        ++ (if is_limit s
            then [("limit_price", VNum (parseFloat (limitPrice s)))]
            else [])).

Definition setExecuted (r : value) (s : state) : state :=
  {| selectedStock := selectedStock s; orderType := orderType s;
     limitPrice := limitPrice s; customQuantity := customQuantity s;
     executing := false; tradeResult := r |}.

(** [handleExecute], over the state [A] of whoever owns the
    [onExecuteTrade] callback.  The second component of the result
    tells whether the 3-second timer was armed. *)
Definition handleExecute {A} (onExecuteTrade : value -> A -> Prog (A * value))
    (a : A) (s : state) : Prog (A * state * bool) :=
  if negb (truthy (selectedStock s)) then Ret (a, s, false)
  else
    r <-~ onExecuteTrade (tradeDetails s) a;
    Ret (fst r, setExecuted (snd r) s, truthy (prop (snd r) "success")).

(** The select's onChange, with [e.target.value = v].  An exception
    in the handler leaves the state as it was. *)
Definition selectStock (analysis : value) (v : string) (s : state) : state :=
  let found :=
    tr <-! tradableRecommendations analysis;
    find (fun r => sym <-! get r "symbol"; Ok (strict_eq_str sym v)) tr in
  match found with
  | inr stock =>
      {| selectedStock := stock; orderType := orderType s; limitPrice := EmptyString;
         customQuantity := EmptyString; executing := executing s; tradeResult := VNull |}
  | inl _ => s
  end.

Definition setOrderType (v : string) (s : state) : state :=
  {| selectedStock := selectedStock s; orderType := v; limitPrice := limitPrice s;
     customQuantity := customQuantity s; executing := executing s;
     tradeResult := tradeResult s |}.

Definition setLimitPrice (v : string) (s : state) : state :=
  {| selectedStock := selectedStock s; orderType := orderType s; limitPrice := v;
     customQuantity := customQuantity s; executing := executing s;
     tradeResult := tradeResult s |}.

Definition setCustomQuantity (v : string) (s : state) : state :=
  {| selectedStock := selectedStock s; orderType := orderType s;
     limitPrice := limitPrice s; customQuantity := v; executing := executing s;
     tradeResult := tradeResult s |}.

(** Cancel, and the first two lines of the timer callback:
    [setSelectedStock(null); setTradeResult(null);] *)
Definition clearSelection (s : state) : state :=
  {| selectedStock := VNull; orderType := orderType s; limitPrice := limitPrice s;
     customQuantity := customQuantity s; executing := executing s;
     tradeResult := VNull |}.

(** ** What the panel shows *)

(** One [<option>] of the select. *)
Record option_view : Type := Option {
  opt_value : value;           (* value={rec.symbol} *)
  opt_action : value;          (* {rec.action} *)
  opt_confidence : number;     (* rec.confidence * 100 *)
  opt_rec : value
}.

(** The trade-details block, rendered for a truthy [selectedStock]. *)
Record details_view : Type := Details {
  det_symbol : value;
  det_action : string;
  det_quantity : value;
  execute_disabled : bool;
  cancel_disabled : bool
}.

Inductive view : Type :=
| Nothing                                   (* return null *)
| NoTrades                                  (* "No tradable recommendations at this time" *)
| Controls (options : list option_view) (details : option details_view).

Definition render_option (rec : value) : result option_view :=
  sym <-! get rec "symbol";
  Ok {| opt_value := sym; opt_action := prop rec "action";
        opt_confidence := times (prop rec "confidence") (num 100);
        opt_rec := rec |}.

Fixpoint render_options (recs : list value) : result (list option_view) :=
  match recs with
  | [] => Ok []
  | r :: rest =>
      o <-! render_option r;
      os <-! render_options rest;
      Ok (o :: os)
  end.

(** [disabled={executing || (orderType === 'limit' && !limitPrice)}] *)
Definition executeDisabled (s : state) : bool :=
  executing s || (is_limit s && negb (truthy (VStr (limitPrice s)))).

(** [selectedStock.action.toLowerCase()] needs a string. *)
Definition render_details (s : state) : result (option details_view) :=
  if truthy (selectedStock s) then
    match prop (selectedStock s) "action" with
    | VStr a =>
        Ok (Some {| det_symbol := prop (selectedStock s) "symbol";
                    det_action := a;
                    det_quantity := prop (selectedStock s) "position_size";
                    execute_disabled := executeDisabled s;
                    cancel_disabled := executing s |})
    | _ => Throw (TypeError "selectedStock.action.toLowerCase is not a function")
    end
  else Ok None.

Definition render (results : value) (s : state) : result view :=
  if negb (truthy results) || negb (truthy (prop results "analysis"))
  then Ok Nothing
  else
    tr <-! tradableRecommendations (prop results "analysis");
    match tr with
    | [] => Ok NoTrades
    | _ :: _ =>
        os <-! render_options tr;
        d <-! render_details s;
        Ok (Controls os d)
    end.

(** The Execute button is on the page and can be pressed. *)
Definition execute_enabled (results : value) (s : state) : bool :=
  match render results s with
  | inr (Controls _ (Some d)) => negb (execute_disabled d)
  | _ => false
  end.

Definition cancel_enabled (results : value) (s : state) : bool :=
  match render results s with
  | inr (Controls _ (Some d)) => negb (cancel_disabled d)
  | _ => false
  end.

(** The select and the inputs are on the page. *)
Definition shows_controls (results : value) (s : state) : bool :=
  match render results s with
  | inr (Controls _ _) => true
  | _ => false
  end.

End TradingPanel.

(* ===================================================================== *)
(** * components/AnalysisResults.js *)
(* ===================================================================== *)

Module AnalysisResults.

Record state : Type := State {
  selectedTab : string;
  expandedStock : value
}.

Definition initial : state :=
  {| selectedTab := "recommendations"; expandedStock := VNull |}.

Definition getActionColor (action : value) : string :=
  if strict_eq_str action "BUY" then "#10b981"
  else if strict_eq_str action "SELL" then "#ef4444"
  else "#6b7280".

Inductive breakdown_item : Type :=
| RegimeAnalysis (regime : value) (confidence_pct : number)
| WalkForward (expected_return_pct : number) (sharpe : number).

(** The "Analysis Breakdown" section of an expanded card. *)
Definition render_breakdown (rec : value) : result (list breakdown_item) :=
  let ab := prop rec "analysis_breakdown" in
  if truthy ab then
    let rs := prop ab "regime_switching" in
    let wf := prop ab "walk_forward" in
    let regime_part :=
      if truthy rs
      then [RegimeAnalysis (prop rs "regime") (times (prop rs "confidence") (num 100))]
      else [] in
    if truthy wf then
      match prop wf "sharpe_ratio" with
      | VNum sharpe =>
          Ok (regime_part ++ [WalkForward (times (prop wf "expected_return") (num 100)) sharpe])
      | _ => Throw (TypeError "sharpe_ratio.toFixed is not a function")
      end
    else Ok regime_part
  else Ok [].

(** [x > 0] *)
Definition positive (v : value) : bool :=
  match to_number v with
  | Fin q => negb (Qle_bool q 0)
  | Inf negative => negb negative
  | NaN => false
  end.

(** [xs && xs.length > 0 && xs.map(...)]: the paragraphs shown. *)
Definition render_lines (xs : value) : result (list value) :=
  match xs with
  | VArr l => Ok l
  | VStr s => if truthy xs then Throw (TypeError "map is not a function") else Ok []
  | VObj _ => if positive (prop xs "length")
              then Throw (TypeError "map is not a function") else Ok []
  | _ => Ok []
  end.

Record details_view : Type := Details {
  shown_quantity : option value;
  breakdown : list breakdown_item;
  reasoning : list value;
  warnings : list value
}.

Definition render_details (rec : value) : result details_view :=
  q <-! (if strict_eq_str (prop rec "action") "BUY" then
           if nullish (prop rec "position_value")
           then Throw (TypeError "position_value.toLocaleString")
           else Ok (Some (prop rec "position_size"))
         else if strict_eq_str (prop rec "action") "SELL" && positive (prop rec "position_size")
         then Ok (Some (prop rec "position_size"))
         else Ok None);
  b <-! render_breakdown rec;
  r <-! render_lines (prop rec "reasoning");
  w <-! render_lines (prop rec "warnings");
  Ok {| shown_quantity := q; breakdown := b; reasoning := r; warnings := w |}.

Record card : Type := Card {
  card_symbol : value;
  card_action : value;
  card_color : string;
  bar_width : number;            (* width: `${rec.confidence * 100}%` *)
  confidence_text : number;      (* (rec.confidence * 100).toFixed(0) *)
  card_details : option details_view
}.

Definition renderRecommendationCard (s : state) (rec : value) : result card :=
  sym <-! get rec "symbol";
  let isExpanded := strict_eq (expandedStock s) sym in
  d <-! (if isExpanded
         then d <-! render_details rec; Ok (Some d)
         else Ok None);
  Ok {| card_symbol := sym; card_action := prop rec "action";
        card_color := getActionColor (prop rec "action");
        bar_width := times (prop rec "confidence") (num 100);
        confidence_text := times (prop rec "confidence") (num 100);
        card_details := d |}.

Fixpoint render_cards (s : state) (recs : list value) : result (list card) :=
  match recs with
  | [] => Ok []
  | r :: rest =>
      c <-! renderRecommendationCard s r;
      cs <-! render_cards s rest;
      Ok (c :: cs)
  end.

(** [xs.length] and [xs.map(...)] of the tab labels and tab bodies need an array. *)
Definition as_array (v : value) : result (list value) :=
  match v with
  | VArr xs => Ok xs
  | _ => Throw (TypeError "not an array")
  end.

Inductive view : Type :=
| Nothing
| Results (summary : value * value * value) (cards : list card).

Definition render (results : value) (s : state) : result view :=
  if negb (truthy results) || negb (truthy (prop results "analysis"))
  then Ok Nothing
  else
    let analysis := prop results "analysis" in
    let buy_recommendations := prop analysis "buy_recommendations" in
    let sell_recommendations := prop analysis "sell_recommendations" in
    let hold_recommendations := prop analysis "hold_recommendations" in
    let summary := prop analysis "summary" in
    b <-! get summary "buy_signals";
    sl <-! get summary "sell_signals";
    h <-! get summary "hold_signals";
    _ <-! (if nullish buy_recommendations || nullish sell_recommendations
           then Throw (TypeError "Cannot read properties of undefined: length")
           else Ok tt);
    cs <-! (if String.eqb (selectedTab s) "recommendations" then
              bs <-! spread buy_recommendations;
              ss <-! spread sell_recommendations;
              hs <-! spread hold_recommendations;
              render_cards s (bs ++ ss ++ hs)
            else if String.eqb (selectedTab s) "buy" then
              if positive (prop buy_recommendations "length")
              then bs <-! as_array buy_recommendations; render_cards s bs
              else Ok []
            else if String.eqb (selectedTab s) "sell" then
              if positive (prop sell_recommendations "length")
              then ss <-! as_array sell_recommendations; render_cards s ss
              else Ok []
            else Ok []);
    Ok (Results (b, sl, h) cs).

(** Clicking a card header: [setExpandedStock(isExpanded ? null : rec.symbol)] *)
Definition toggleExpanded (sym : value) (s : state) : state :=
  {| selectedTab := selectedTab s;
     expandedStock := if strict_eq (expandedStock s) sym then VNull else sym |}.

Definition setSelectedTab (t : string) (s : state) : state :=
  {| selectedTab := t; expandedStock := expandedStock s |}.

End AnalysisResults.

(* ===================================================================== *)
(** * The page as a whole: every handler the user or a timer can start *)
(* ===================================================================== *)

Module UI.

(** [panel_instance] counts the mounts of TradingPanel and
    AnalysisResults: App renders them under [!loading && analysisResults],
    so an analysis run unmounts them and the next render starts new
    instances from their initial state.  [trade_timers] holds, oldest
    first, the instance that armed each pending 3-second timer. *)
Record state : Type := State {
  app : App.state;
  panel : TradingPanel.state;
  results : AnalysisResults.state;
  panel_instance : nat;
  trade_timers : list nat;
  telegram_timers : nat
}.

Definition initial : state :=
  {| app := App.initial; panel := TradingPanel.initial;
     results := AnalysisResults.initial; panel_instance := 0;
     trade_timers := []; telegram_timers := 0 |}.

Inductive event : Type :=
| Mount                            (* useEffect(() => { loadAccountData(); loadConfig(); }, []) *)
| ClickRunAnalysis                 (* onClick={runAnalysis} *)
| ClickSendToTelegram              (* onClick={sendToTelegram} *)
| TelegramTimer                    (* setTimeout(() => setTelegramStatus(''), 3000) *)
| DismissError                     (* onClick={() => setError(null)} *)
| SymbolsChange (l : list string)  (* onSymbolsChange={setSelectedSymbols} *)
| SelectTab (t : string)
| ClickCard (sym : value)
| SelectStock (v : string)
| ChooseOrderType (v : string)
| TypeLimitPrice (v : string)
| TypeQuantity (v : string)
| ClickExecute                     (* onClick={handleExecute} *)
| ClickCancel
| TradeTimer.                      (* the timer armed by a successful trade *)

Definition with_app (a : App.state) (s : state) : state :=
  {| app := a; panel := panel s; results := results s;
     panel_instance := panel_instance s; trade_timers := trade_timers s;
     telegram_timers := telegram_timers s |}.

Definition with_panel (p : TradingPanel.state) (s : state) : state :=
  {| app := app s; panel := p; results := results s;
     panel_instance := panel_instance s; trade_timers := trade_timers s;
     telegram_timers := telegram_timers s |}.

Definition with_results (r : AnalysisResults.state) (s : state) : state :=
  {| app := app s; panel := panel s; results := r;
     panel_instance := panel_instance s; trade_timers := trade_timers s;
     telegram_timers := telegram_timers s |}.

(** The results view and the trading panel are on the page: App
    renders them, and neither of the two throws while rendering.  (An
    error thrown by any component takes the whole page down; the other
    components are not followed that far.) *)
Definition page_rendered (s : state) : bool :=
  App.shows_results (app s)
  && match AnalysisResults.render (App.analysisResults (app s)) (results s) with
     | inr _ => true
     | inl _ => false
     end
  && match TradingPanel.render (App.analysisResults (app s)) (panel s) with
     | inr _ => true
     | inl _ => false
     end.

(** The trading panel shows its select. *)
Definition panel_controls (s : state) : bool :=
  page_rendered s
  && TradingPanel.shows_controls (App.analysisResults (app s)) (panel s).

Definition panel_details (s : state) : bool :=
  panel_controls s && truthy (TradingPanel.selectedStock (panel s)).

(** The Execute button is on the page and enabled. *)
Definition execute_enabled (s : state) : bool :=
  page_rendered s
  && TradingPanel.execute_enabled (App.analysisResults (app s)) (panel s).

Definition cancel_enabled (s : state) : bool :=
  page_rendered s
  && TradingPanel.cancel_enabled (App.analysisResults (app s)) (panel s).

Section Dispatch.

Variable API_BASE_URL : string.

Definition dispatch (e : event) (s : state) : Prog state :=
  match e with
  | Mount =>
      a1 <-~ App.loadAccountData API_BASE_URL (app s);
      a2 <-~ App.loadConfig API_BASE_URL a1;
      Ret (with_app a2 s)
  | ClickRunAnalysis =>
      if App.run_analysis_disabled (app s) then Ret s
      else
        a <-~ App.runAnalysis API_BASE_URL (app s);
        Ret {| app := a; panel := TradingPanel.initial;
               results := AnalysisResults.initial;
               panel_instance := S (panel_instance s);
               trade_timers := trade_timers s;
               telegram_timers := telegram_timers s |}
  | ClickSendToTelegram =>
      if App.telegram_enabled (app s) then
        a <-~ App.sendToTelegram API_BASE_URL (app s);
        Ret {| app := a; panel := panel s; results := results s;
               panel_instance := panel_instance s; trade_timers := trade_timers s;
               telegram_timers :=
                 match App.telegramStatus a with
                 | App.Success => S (telegram_timers s)
                 | _ => telegram_timers s
                 end |}
      else Ret s
  | TelegramTimer =>
      match telegram_timers s with
      | O => Ret s
      | S n =>
          Ret {| app := App.setTelegramStatus App.Idle (app s); panel := panel s;
                 results := results s; panel_instance := panel_instance s;
                 trade_timers := trade_timers s; telegram_timers := n |}
      end
  | DismissError => Ret (with_app (App.setError VNull (app s)) s)
  | SymbolsChange l => Ret (with_app (App.setSelectedSymbols l (app s)) s)
  | SelectTab t =>
      if App.shows_results (app s)
      then Ret (with_results (AnalysisResults.setSelectedTab t (results s)) s)
      else Ret s
  | ClickCard sym =>
      if App.shows_results (app s)
      then Ret (with_results (AnalysisResults.toggleExpanded sym (results s)) s)
      else Ret s
  | SelectStock v =>
      if panel_controls s
      then Ret (with_panel
                  (TradingPanel.selectStock
                     (prop (App.analysisResults (app s)) "analysis") v (panel s)) s)
      else Ret s
  | ChooseOrderType v =>
      if panel_details s
      then Ret (with_panel (TradingPanel.setOrderType v (panel s)) s) else Ret s
  | TypeLimitPrice v =>
      if panel_details s && TradingPanel.is_limit (panel s)
      then Ret (with_panel (TradingPanel.setLimitPrice v (panel s)) s) else Ret s
  | TypeQuantity v =>
      if panel_details s
      then Ret (with_panel (TradingPanel.setCustomQuantity v (panel s)) s) else Ret s
  | ClickExecute =>
      if execute_enabled s then
        r <-~ TradingPanel.handleExecute (App.executeTrade API_BASE_URL) (app s) (panel s);
        let '(a, p, armed) := r in
        Ret {| app := a; panel := p; results := results s;
               panel_instance := panel_instance s;
               trade_timers :=
                 if armed then trade_timers s ++ [panel_instance s] else trade_timers s;
               telegram_timers := telegram_timers s |}
      else Ret s
  | ClickCancel =>
      if cancel_enabled s
      then Ret (with_panel (TradingPanel.clearSelection (panel s)) s) else Ret s
  | TradeTimer =>
      match trade_timers s with
      | [] => Ret s
      | i :: rest =>
          a <-~ App.loadAccountData API_BASE_URL (app s);
          Ret {| app := a;
                 panel := if (i =? panel_instance s)%nat
                          then TradingPanel.clearSelection (panel s) else panel s;
                 results := results s; panel_instance := panel_instance s;
                 trade_timers := rest; telegram_timers := telegram_timers s |}
      end
  end.

(** A session: the events in order, each handler run to its end
    against its share of the server's answers. *)
Fixpoint session (es : list (event * list response)) (s : state)
  : state * list (event * list request) :=
  match es with
  | [] => (s, [])
  | (e, script) :: rest =>
      let '(s1, rs) := run (dispatch e s) script in
      let '(s2, log) := session rest s1 in
      (s2, (e, rs) :: log)
  end.

Definition is_execute_trade (r : request) : bool :=
  String.eqb (req_url r) (App.endpoint API_BASE_URL "/execute-trade").

(** The states the page can be in. *)
Inductive reachable : state -> Prop :=
| reachable_initial : reachable initial
| reachable_step e s s' :
    reachable s -> returns (dispatch e s) s' -> reachable s'.

(** The selected stock is nothing, or one of the tradable
    recommendations of the analysis on display. *)
Definition selection_ok (s : state) : Prop :=
  nullish (TradingPanel.selectedStock (panel s)) = true
  \/ exists tr,
       TradingPanel.tradableRecommendations
         (prop (App.analysisResults (app s)) "analysis") = Ok tr
       /\ In (TradingPanel.selectedStock (panel s)) tr.

End Dispatch.

End UI.

(* ===================================================================== *)
(** * The analysis core, from its specification *)
(* ===================================================================== *)

(** The four components below are Python modules of the back end
    (regime_switching.py, walk_forward.py, risk_manager.py,
    decision_engine.py).  None of them is among the sources at hand, so
    each definition of this module is modelled from the specification
    and carries that remark.  Money and ratios are exact rationals. *)

Module Core.

Local Open Scope Q_scope.

Record PriceBar : Type := {
  timestamp : Z;
  open : Q; high : Q; low : Q; close : Q;
  volume : Q
}.

Definition PriceSeries : Type := list PriceBar.

Inductive Regime : Type := Bullish | Bearish | Sideways.
Inductive Vote : Type := bullish | bearish | neutral.
Inductive Indicator : Type := SMA (period : nat) | RSI | MACD | ADX | Bollinger | Stochastic.
Inductive Action : Type := BUY | SELL | HOLD.

Record RegimeState : Type := {
  regime : Regime;
  regime_confidence : Q;
  indicator_snapshot : list (Indicator * Vote)
}.

Record WindowResult : Type := {
  train_range : nat * nat;       (* first index, one past the last *)
  test_range : nat * nat;
  realized_return : Q;
  trade_count : nat
}.

Record WalkForwardResult : Type := {
  sharpe_ratio : Q;
  win_rate : Q;
  expected_return : Q;
  max_drawdown : Q;
  windows : list WindowResult
}.

Record Position : Type := { quantity : Z; market_value : Q }.

Record AccountSnapshot : Type := {
  equity : Q;
  cash : Q;
  buying_power : Q;
  day_trade_count : Z;
  positions : gmap string Position
}.

Record RiskAssessment : Type := {
  risk_position_size : Z;
  risk_position_value : Q;
  risk_warnings : list string;
  blocked : bool
}.

Record Recommendation : Type := {
  symbol : string;
  action : Action;
  confidence : Q;
  position_size : Z;
  position_value : Q;
  analysis_breakdown : RegimeState * WalkForwardResult;
  reasoning : list string;
  warnings : list string
}.

Record Config : Type := {
  max_position_fraction : Q;
  min_account_balance : Q;
  pdt_protection_enabled : bool;
  regime_periods : list nat;
  walk_forward_train_days : nat;
  walk_forward_test_days : nat
}.

(** Section 6 of the specification. *)
Definition default_config : Config :=
  {| max_position_fraction := 1 # 10; min_account_balance := 1000;
     pdt_protection_enabled := true; regime_periods := [20; 50; 200]%nat;
     walk_forward_train_days := 30; walk_forward_test_days := 5 |}.

(** What the specification names without fixing: the indicator
    rules, the strategy that is fitted and replayed, the spread and
    drawdown statistics, and the constants of the fusion and
    concentration rules. *)
Class Choices : Type := {
  StrategyParams : Type;
  indicator_votes : list nat -> PriceSeries -> list (Indicator * Vote);
  indicator_warmup : nat;
  select_params : PriceSeries -> StrategyParams;
  apply_params : StrategyParams -> PriceSeries -> Q * nat;
  stdev : list Q -> Q;
  annualizing_factor : nat -> Q;
  drawdown : list Q -> Q;
  regime_weight : Q;
  walk_forward_weight : Q;
  materiality_threshold : Q;
  concentration_tolerance : Q
}.

(** The weights of a weighted average. *)
Definition weights_ok (ch : Choices) : Prop :=
  0 <= regime_weight /\ 0 <= walk_forward_weight
  /\ 0 < regime_weight + walk_forward_weight.

Inductive Failure : Type :=
| InsufficientDataError
| InsufficientWindowsError
| DataFetchError
| ConfigurationError.

Definition ratio (k n : nat) : Q :=
  inject_Z (Z.of_nat k) / inject_Z (Z.of_nat n).

Definition unit_interval (x : Q) : Prop := 0 <= x /\ x <= 1.

(** ** RegimeClassifier *)
Module RegimeClassifier.
Section RegimeClassifier.
Context {ch : Choices}.

Definition vote_eqb (a b : Vote) : bool :=
  match a, b with
  | bullish, bullish | bearish, bearish | neutral, neutral => true
  | _, _ => false
  end.

Definition votes_for (v : Vote) (table : list (Indicator * Vote)) : nat :=
  length (List.filter (fun p => vote_eqb (snd p) v) table).

Definition no_trend (table : list (Indicator * Vote)) : bool :=
  existsb (fun p => match p with (ADX, neutral) => true | _ => false end) table.

Definition vote_of (r : Regime) : Vote :=
  match r with
  | Bullish => bullish
  | Bearish => bearish
  | Sideways => neutral
  end.

(** Modelled from the spec: the reduction of the vote table (the
    aggregation function of RegimeClassifier).  "ADX<20 neutral/no-trend
    vote dominates regardless of other votes.  Final regime = majority
    vote [...] Ties resolve to Sideways." *)
Definition majority (table : list (Indicator * Vote)) : Regime :=
  let b := votes_for bullish table in
  let r := votes_for bearish table in
  let n := votes_for neutral table in
  if no_trend table then Sideways
  else if (r <? b)%nat && (n <? b)%nat then Bullish
  else if (b <? r)%nat && (n <? r)%nat then Bearish
  else Sideways.

(** Modelled from the spec: "confidence = (votes agreeing with
    majority) / (total votes cast)". *)
Definition aggregate (table : list (Indicator * Vote)) : RegimeState :=
  let r := majority table in
  {| regime := r;
     regime_confidence := ratio (votes_for (vote_of r) table) (length table);
     indicator_snapshot := table |}.

(** Modelled from the spec: RegimeClassifier.classify.  "series must
    contain at least max(periods) + indicator_warmup bars; otherwise
    fails with InsufficientDataError". *)
Definition classify (series : PriceSeries) (periods : list nat)
  : Failure + RegimeState :=
  if (length series <? list_max periods + indicator_warmup)%nat
  then inl InsufficientDataError
  else inr (aggregate (indicator_votes periods series)).

End RegimeClassifier.
End RegimeClassifier.

(** ** WalkForwardOptimizer *)
Module WalkForwardOptimizer.
Section WalkForwardOptimizer.
Context {ch : Choices}.

(** A window descriptor: index ranges into the series. *)
Record Window : Type := {
  train_start : nat; train_end : nat;
  test_start : nat; test_end : nat
}.

(** Modelled from the spec: the partition of WalkForwardOptimizer.
    "[train_days | test_days] windows starting from the earliest bar
    [...] Windows advance by exactly test_days; a final partial window
    shorter than test_days is dropped."  [fuel] bounds the number of
    windows. *)
Fixpoint windows_from (fuel start bars train_days test_days : nat) : list Window :=
  match fuel with
  | O => []
  | S fuel' =>
      if (start + train_days + test_days <=? bars)%nat
      then {| train_start := start; train_end := start + train_days;
              test_start := start + train_days;
              test_end := start + train_days + test_days |}
           :: windows_from fuel' (start + test_days) bars train_days test_days
      else []
  end.

Definition partition (bars train_days test_days : nat) : list Window :=
  windows_from bars 0 bars train_days test_days.

Definition slice (series : PriceSeries) (first past : nat) : PriceSeries :=
  take (past - first) (drop first series).

(** Modelled from the spec: one window of the protocol.  The parameters
    are chosen from the train segment alone and replayed on the test
    segment. *)
Definition run_window (series : PriceSeries) (w : Window) : WindowResult :=
  let params := select_params (slice series (train_start w) (train_end w)) in
  let '(ret, trades) := apply_params params (slice series (test_start w) (test_end w)) in
  {| train_range := (train_start w, train_end w);
     test_range := (test_start w, test_end w);
     realized_return := ret; trade_count := trades |}.

Definition mean (xs : list Q) : Q :=
  fold_right Qplus 0 xs / inject_Z (Z.of_nat (length xs)).

(** Modelled from the spec: the aggregation of WalkForwardOptimizer. *)
Definition summarize (test_days : nat) (ws : list WindowResult) : WalkForwardResult :=
  let rets := map realized_return ws in
  {| sharpe_ratio := mean rets / stdev rets * annualizing_factor test_days;
     win_rate := ratio (length (List.filter (fun r => negb (Qle_bool r 0)) rets)) (length rets);
     expected_return := mean rets;
     max_drawdown := drawdown rets;
     windows := ws |}.

(** Modelled from the spec: WalkForwardOptimizer.evaluate.  "If fewer
    than 2 complete windows result from the supplied series, fails with
    InsufficientWindowsError." *)
Definition evaluate (series : PriceSeries) (train_days test_days : nat)
  : Failure + WalkForwardResult :=
  let ws := partition (length series) train_days test_days in
  if (length ws <? 2)%nat
  then inl InsufficientWindowsError
  else inr (summarize test_days (map (run_window series) ws)).

End WalkForwardOptimizer.
End WalkForwardOptimizer.

(** ** RiskManager *)
Module RiskManager.
Section RiskManager.
Context {ch : Choices}.

Definition start : RiskAssessment :=
  {| risk_position_size := 0; risk_position_value := 0;
     risk_warnings := []; blocked := false |}.

Definition warn (msg : string) (a : RiskAssessment) : RiskAssessment :=
  {| risk_position_size := risk_position_size a;
     risk_position_value := risk_position_value a;
     risk_warnings := risk_warnings a ++ [msg]; blocked := blocked a |}.

Definition block (msg : string) (a : RiskAssessment) : RiskAssessment :=
  {| risk_position_size := risk_position_size a;
     risk_position_value := risk_position_value a;
     risk_warnings := risk_warnings a ++ [msg]; blocked := true |}.

Definition size (n : Z) (last_price : Q) (a : RiskAssessment) : RiskAssessment :=
  {| risk_position_size := n; risk_position_value := inject_Z n * last_price;
     risk_warnings := risk_warnings a; blocked := blocked a |}.

Definition lt (a b : Q) : bool := negb (Qle_bool b a).

(** Modelled from the spec: check 1 of RiskManager.assess.  "if
    account.equity < min_account_balance, block." *)
Definition balance_check (account : AccountSnapshot) (min_account_balance : Q)
    (a : RiskAssessment) : RiskAssessment :=
  if lt (equity account) min_account_balance
  then block "account equity below minimum balance" a
  else a.

(** Modelled from the spec: check 2 of RiskManager.assess.  "for BUY,
    position_size = floor(min(max_position_fraction × account.equity,
    account.buying_power) / last_price); if this yields 0, block with
    'insufficient buying power' warning.  For SELL, position_size =
    min(proposed_quantity, account.positions[symbol].quantity); if symbol
    not held, block." *)
Definition sizing (account : AccountSnapshot) (sym : string) (act : Action)
    (proposed_quantity : Z) (last_price max_position_fraction : Q)
    (a : RiskAssessment) : RiskAssessment :=
  match act with
  | BUY =>
      let n := Qfloor (Qmin (max_position_fraction * equity account)
                            (buying_power account) / last_price) in
      if (n =? 0)%Z
      then block "insufficient buying power" (size 0 last_price a)
      else size n last_price a
  | SELL =>
      match positions account !! sym with
      | Some p => size (Z.min proposed_quantity (quantity p)) last_price a
      | None => block "symbol not held" (size 0 last_price a)
      end
  | HOLD => size 0 last_price a
  end.

Definition held_value (account : AccountSnapshot) (sym : string) : Q :=
  match positions account !! sym with
  | Some p => market_value p
  | None => 0
  end.

(** Modelled from the spec: check 3 of RiskManager.assess.  "recompute
    post-trade position_value as fraction of projected equity; if it would
    exceed max_position_fraction by more than a configured tolerance,
    reduce position_size to the largest quantity that satisfies the limit
    rather than blocking outright, unless already at the floor, then
    block." *)
Definition concentration (account : AccountSnapshot) (sym : string) (act : Action)
    (last_price max_position_fraction : Q) (a : RiskAssessment) : RiskAssessment :=
  match act with
  | BUY =>
      let post := held_value account sym + risk_position_value a in
      if lt (max_position_fraction + concentration_tolerance) (post / equity account)
      then
        let room := max_position_fraction * equity account - held_value account sym in
        let n := Z.max 0 (Qfloor (room / last_price)) in
        if (n =? 0)%Z
        then block "position concentration limit reached" (size 0 last_price a)
        else warn "position size reduced to the concentration limit" (size n last_price a)
      else a
  | _ => a
  end.

(** Modelled from the spec: check 4 of RiskManager.assess.  "if
    pdt_protection_enabled and account.equity < 25000 and executing this
    trade would make account.day_trade_count exceed 3 [...], block with a
    PDT warning." *)
Definition pdt_check (account : AccountSnapshot) (pdt_protection_enabled : bool)
    (a : RiskAssessment) : RiskAssessment :=
  if pdt_protection_enabled && lt (equity account) 25000
     && (3 <? day_trade_count account + 1)%Z
  then block "pattern day trading limit" a
  else a.

(** Modelled from the spec: RiskManager.assess, its four checks
    "applied in order, each appending a warning and potentially setting
    blocked=true". *)
Definition assess (account : AccountSnapshot) (sym : string) (act : Action)
    (proposed_quantity : Z) (last_price max_position_fraction min_account_balance : Q)
    (pdt_protection_enabled : bool) : RiskAssessment :=
  pdt_check account pdt_protection_enabled
    (concentration account sym act last_price max_position_fraction
       (sizing account sym act proposed_quantity last_price max_position_fraction
          (balance_check account min_account_balance start))).

End RiskManager.
End RiskManager.

(** ** DecisionEngine *)
Module DecisionEngine.
Section DecisionEngine.
Context {ch : Choices}.

Definition direction (r : Regime) : Z :=
  match r with
  | Bullish => 1
  | Bearish => -1
  | Sideways => 0
  end%Z.

(** Modelled from the spec: "wf direction = sign(expected_return) if
    |expected_return| exceeds a minimum materiality threshold, else 0". *)
Definition wf_direction (wf : WalkForwardResult) : Z :=
  if RiskManager.lt materiality_threshold (Qabs (expected_return wf))
  then Z.sgn (Qnum (expected_return wf))
  else 0%Z.

Definition clip01 (x : Q) : Q := Qmax 0 (Qmin 1 x).

(** Modelled from the spec: "a normalized score derived from
    sharpe_ratio and win_rate (both clipped to [0,1] before averaging)". *)
Definition walk_forward_score (wf : WalkForwardResult) : Q :=
  (clip01 (sharpe_ratio wf) + clip01 (win_rate wf)) / 2.

Definition weighted_average (a b : Q) : Q :=
  (regime_weight * a + walk_forward_weight * b)
  / (regime_weight + walk_forward_weight).

(** Modelled from the spec: the fusion rule of DecisionEngine. *)
Definition fuse (held : bool) (rs : RegimeState) (wf : WalkForwardResult)
  : Action * Q * list string :=
  let d := direction (regime rs) in
  let score := walk_forward_score wf in
  let factors := ["regime and its confidence"; "expected return and sharpe ratio"] in
  if (d =? wf_direction wf)%Z && negb (d =? 0)%Z && ((d =? 1)%Z || held)
  then (if (d =? 1)%Z then BUY else SELL,
        weighted_average (regime_confidence rs) score, factors)
  else (HOLD, Qmin (regime_confidence rs) score,
        factors ++ ["signals disagree or are immaterial: confidence down-weighted"]).

Definition no_regime : RegimeState :=
  {| regime := Sideways; regime_confidence := 0; indicator_snapshot := [] |}.

Definition no_walk_forward : WalkForwardResult :=
  {| sharpe_ratio := 0; win_rate := 0; expected_return := 0;
     max_drawdown := 0; windows := [] |}.

Definition last_close (series : PriceSeries) : Q :=
  match last series with
  | Some bar => close bar
  | None => 0
  end.

Definition held_quantity (account : AccountSnapshot) (sym : string) : Z :=
  match positions account !! sym with
  | Some p => quantity p
  | None => 0
  end.

(** Modelled from the spec: the per-symbol pipeline of DecisionEngine,
Classifying, Optimizing, Fusing, RiskChecking, Assembled.  A series
too short for either analysis "defaults to HOLD, confidence 0, with
a warning"; "a blocked=true assessment downgrades action to HOLD and
position_size to 0 but preserves the original analysis_breakdown and
appends the risk warnings". *)
Definition analyze_symbol (account : AccountSnapshot) (config : Config)
    (sym : string) (series : PriceSeries) : Recommendation :=
  match RegimeClassifier.classify series (regime_periods config),
        WalkForwardOptimizer.evaluate series (walk_forward_train_days config)
                                      (walk_forward_test_days config) with
  | inr rs, inr wf =>
      let held := bool_decide (is_Some (positions account !! sym)) in
      let '(act, conf, why) := fuse held rs wf in
      let risk := RiskManager.assess account sym act (held_quantity account sym)
                    (last_close series) (max_position_fraction config)
                    (min_account_balance config) (pdt_protection_enabled config) in
      match act with
      | HOLD =>
          {| symbol := sym; action := HOLD; confidence := conf;
             position_size := 0; position_value := 0;
             analysis_breakdown := (rs, wf); reasoning := why; warnings := [] |}
      | _ =>
          if blocked risk
          then {| symbol := sym; action := HOLD; confidence := conf;
                  position_size := 0; position_value := 0;
                  analysis_breakdown := (rs, wf); reasoning := why;
                  warnings := risk_warnings risk |}
          else {| symbol := sym; action := act; confidence := conf;
                  position_size := risk_position_size risk;
                  position_value := risk_position_value risk;
                  analysis_breakdown := (rs, wf); reasoning := why;
                  warnings := risk_warnings risk |}
      end
  | _, _ =>
      {| symbol := sym; action := HOLD; confidence := 0;
         position_size := 0; position_value := 0;
         analysis_breakdown := (no_regime, no_walk_forward); reasoning := [];
         warnings := ["insufficient data"] |}
  end.

Record Summary : Type := { buy_signals : nat; sell_signals : nat; hold_signals : nat }.

Record Analysis : Type := {
  recommendations : gmap string Recommendation;
  summary : Summary;
  failures : gmap string Failure
}.

Definition action_eqb (a b : Action) : bool :=
  match a, b with
  | BUY, BUY | SELL, SELL | HOLD, HOLD => true
  | _, _ => false
  end.

Definition count_action (a : Action) (m : gmap string Recommendation) : nat :=
  length (List.filter (fun kv => action_eqb (action (snd kv)) a) (map_to_list m)).

Definition config_ok (config : Config) : bool :=
  (0 <? walk_forward_test_days config)%nat
  && (walk_forward_test_days config <? walk_forward_train_days config)%nat
  && RiskManager.lt 0 (max_position_fraction config).

(** Modelled from the spec: DecisionEngine.analyze.  "analyze(symbols,
    series_by_symbol, account, config) → {recommendations: mapping
    symbol → Recommendation, summary}"; a symbol without a series is
    reported in [failures]; an invalid configuration aborts the batch. *)
Definition analyze (symbols : list string) (series_by_symbol : gmap string PriceSeries)
    (account : AccountSnapshot) (config : Config) : Failure + Analysis :=
  if config_ok config then
    let step (acc : gmap string Recommendation * gmap string Failure) (sym : string) :=
      match series_by_symbol !! sym with
      | Some series =>
          (<[sym := analyze_symbol account config sym series]> (fst acc), snd acc)
      | None => (fst acc, <[sym := DataFetchError]> (snd acc))
      end in
    let '(recs, failed) := fold_left step symbols (∅, ∅) in
    inr {| recommendations := recs;
           summary := {| buy_signals := count_action BUY recs;
                         sell_signals := count_action SELL recs;
                         hold_signals := count_action HOLD recs |};
           failures := failed |}
  else inl ConfigurationError.

End DecisionEngine.
End DecisionEngine.

(** ** The records as JSON *)
Module Wire.

Definition q (x : Q) : value := VNum (Fin x).
Definition strings (l : list string) : value := VArr (map VStr l).

Definition regime_name (r : Regime) : string :=
  match r with
  | Bullish => "Bullish"
  | Bearish => "Bearish"
  | Sideways => "Sideways"
  end.

Definition action_name (a : Action) : string :=
  match a with
  | BUY => "BUY"
  | SELL => "SELL"
  | HOLD => "HOLD"
  end.

(** Modelled from the spec: RegimeState, with the field names of the
    data model.  The indicator snapshot is left out. *)
Definition regime_state (rs : RegimeState) : value :=
  VObj [("regime", VStr (regime_name (regime rs)));
        ("confidence", q (regime_confidence rs))].

(** Modelled from the spec: WalkForwardResult, with the field names of
    the data model.  The window list is left out. *)
Definition walk_forward_result (wf : WalkForwardResult) : value :=
  VObj [("sharpe_ratio", q (sharpe_ratio wf)); ("win_rate", q (win_rate wf));
        ("expected_return", q (expected_return wf));
        ("max_drawdown", q (max_drawdown wf))].

(** Modelled from the spec: Recommendation as the data model lays it
    out, "analysis_breakdown: {regime: RegimeState, walk_forward:
    WalkForwardResult}". *)
Definition recommendation (r : Recommendation) : value :=
  VObj [("symbol", VStr (symbol r));
        ("action", VStr (action_name (action r)));
        ("confidence", q (confidence r));
        ("position_size", num (position_size r));
        ("position_value", q (position_value r));
        ("analysis_breakdown",
          VObj [("regime", regime_state (fst (analysis_breakdown r)));
                ("walk_forward", walk_forward_result (snd (analysis_breakdown r)))]);
        ("reasoning", strings (reasoning r));
        ("warnings", strings (warnings r))].

Definition summary (s : DecisionEngine.Summary) : value :=
  VObj [("buy_signals", num (Z.of_nat (DecisionEngine.buy_signals s)));
        ("sell_signals", num (Z.of_nat (DecisionEngine.sell_signals s)));
        ("hold_signals", num (Z.of_nat (DecisionEngine.hold_signals s)))].

(** Modelled from the spec: the result of analyze as its contract
    states it, "{recommendations: mapping symbol → Recommendation,
    summary}". *)
Definition analysis (a : DecisionEngine.Analysis) : value :=
  VObj [("recommendations",
          VObj (map (fun kv => (fst kv, recommendation (snd kv)))
                    (map_to_list (DecisionEngine.recommendations a))));
        ("summary", summary (DecisionEngine.summary a))].

(** The body of the answer to POST /analyze that carries it, as App.js
    and the two components read it: [success] and [analysis]. *)
Definition analyze_response (a : DecisionEngine.Analysis) : value :=
  VObj [("success", VBool true); ("analysis", analysis a)].

End Wire.

End Core.


(* ===================================================================== *)
(** * Sample data *)
(* ===================================================================== *)

Module Sample.

Definition base : string := "/api".

(** A recommendation as the components read it. *)
Definition nvda : value :=
  VObj [("symbol", VStr "NVDA"); ("action", VStr "BUY");
        ("confidence", VNum (Fin (3 # 4))); ("position_size", num 10);
        ("position_value", num 1000)].

Definition results : value :=
  VObj [("success", VBool true);
        ("analysis",
          VObj [("buy_recommendations", VArr [nvda]);
                ("sell_recommendations", VArr []);
                ("hold_recommendations", VArr []);
                ("summary", VObj [("buy_signals", num 1); ("sell_signals", num 0);
                                  ("hold_signals", num 0)])])].

(** The page after an analysis, NVDA selected, a limit order at 12.50. *)
Definition limit_order : TradingPanel.state :=
  {| TradingPanel.selectedStock := nvda; TradingPanel.orderType := "limit";
     TradingPanel.limitPrice := "12.50"; TradingPanel.customQuantity := EmptyString;
     TradingPanel.executing := false; TradingPanel.tradeResult := VNull |}.

Definition page : UI.state :=
  {| UI.app := App.setAnalysis results App.initial; UI.panel := limit_order;
     UI.results := AnalysisResults.initial; UI.panel_instance := 1;
     UI.trade_timers := []; UI.telegram_timers := 0 |}.

(** The same order on a recommendation that differs in the fields the
    request does not read. *)
Definition limit_order_again : TradingPanel.state :=
  {| TradingPanel.selectedStock :=
       VObj [("symbol", VStr "NVDA"); ("action", VStr "BUY");
             ("confidence", VNum (Fin (1 # 4))); ("position_size", num 10);
             ("position_value", num 990); ("warnings", VArr [VStr "thin volume"])];
     TradingPanel.orderType := "limit";
     TradingPanel.limitPrice := "12.50"; TradingPanel.customQuantity := EmptyString;
     TradingPanel.executing := false; TradingPanel.tradeResult := VNull |}.

(** The configuration endpoint answered with [lookback_days: 0]. *)
Definition zero_lookback : App.state :=
  App.setConfig (VObj [("lookback_days", num 0)]) App.initial.

(** One way to settle what the specification of the core leaves open. *)
Definition choices : Core.Choices :=
  {| Core.StrategyParams := unit;
     Core.indicator_votes := fun _ _ =>
       [(Core.SMA 20, Core.bullish); (Core.RSI, Core.bullish); (Core.MACD, Core.bearish)];
     Core.indicator_warmup := 0;
     Core.select_params := fun _ => tt;
     Core.apply_params := fun _ _ => ((1 # 100)%Q, 1%nat);
     Core.stdev := fun _ => 1%Q;
     Core.annualizing_factor := fun _ => 1%Q;
     Core.drawdown := fun _ => 0%Q;
     Core.regime_weight := (1 # 2)%Q;
     Core.walk_forward_weight := (1 # 2)%Q;
     Core.materiality_threshold := (1 # 1000)%Q;
     Core.concentration_tolerance := 0%Q |}.

Definition bar : Core.PriceBar :=
  {| Core.timestamp := 0; Core.open := 100%Q; Core.high := 100%Q; Core.low := 100%Q;
     Core.close := 100%Q; Core.volume := 1%Q |}.

Definition series (bars : nat) : Core.PriceSeries := repeat bar bars.

(** The account of the sizing scenario: 10,000 of equity, all of it cash. *)
Definition account : Core.AccountSnapshot :=
  {| Core.equity := 10000%Q; Core.cash := 10000%Q; Core.buying_power := 10000%Q;
     Core.day_trade_count := 0; Core.positions := ∅ |}.

Definition recommendation : Core.Recommendation :=
  {| Core.symbol := "NVDA"; Core.action := Core.BUY; Core.confidence := (3 # 4)%Q;
     Core.position_size := 10; Core.position_value := 1000%Q;
     Core.analysis_breakdown :=
       ({| Core.regime := Core.Bullish; Core.regime_confidence := (2 # 3)%Q;
           Core.indicator_snapshot := [] |},
        {| Core.sharpe_ratio := (3 # 2)%Q; Core.win_rate := (4 # 7)%Q;
           Core.expected_return := (1 # 100)%Q; Core.max_drawdown := 0%Q;
           Core.windows := [] |});
     Core.reasoning := ["Bullish regime"]; Core.warnings := [] |}.

(** The result of analyze for that one recommendation. *)
Definition analysis : Core.DecisionEngine.Analysis :=
  {| Core.DecisionEngine.recommendations := {[ "NVDA" := recommendation ]};
     Core.DecisionEngine.summary :=
       {| Core.DecisionEngine.buy_signals := 1; Core.DecisionEngine.sell_signals := 0;
          Core.DecisionEngine.hold_signals := 0 |};
     Core.DecisionEngine.failures := ∅ |}.

(** The same recommendation with its breakdown under the keys the
    card reads. *)
Definition nvda_card : value :=
  VObj [("symbol", VStr "NVDA"); ("action", VStr "BUY");
        ("confidence", VNum (Fin (3 # 4)));
        ("analysis_breakdown",
          VObj [("regime_switching",
                  VObj [("regime", VStr "Bullish"); ("confidence", VNum (Fin (2 # 3)))]);
                ("walk_forward",
                  VObj [("sharpe_ratio", VNum (Fin (3 # 2)));
                        ("expected_return", VNum (Fin (1 # 100)))])])].

End Sample.

(* ===================================================================== *)
(** * components/StockSelector.js *)
(* ===================================================================== *)

Module StockSelector.

Definition DEFAULT_STOCKS : list string :=
  ["NVDA"; "MSFT"; "AMZN"; "GOOGL"; "TSLA"; "UNH"; "CRWD"; "V"; "ASML"; "PLTR"].

(** [const [customSymbol, setCustomSymbol] = useState('')] *)
Record state : Type := State { customSymbol : string }.

Definition initial : state := {| customSymbol := EmptyString |}.

(** [selectedSymbols.includes(symbol)] *)
Definition includes (selectedSymbols : list string) (symbol : string) : bool :=
  existsb (String.eqb symbol) selectedSymbols.

(** The argument [toggleSymbol] passes to [onSymbolsChange]. *)
Definition toggleSymbol (selectedSymbols : list string) (symbol : string) : list string :=
  if includes selectedSymbols symbol
  then List.filter (fun s => negb (String.eqb s symbol)) selectedSymbols
  else selectedSymbols ++ [symbol].

(** The text of the input is taken in the ASCII range, where
    toUpperCase maps a-z to A-Z and trim removes the white space of
    [is_white] at both ends. *)
Definition ascii_only (s : string) : Prop :=
  Forall (fun c => (N_of_ascii c < 128)%N) (list_ascii_of_string s).

Definition upper (c : ascii) : ascii :=
  let n := N_of_ascii c in
  if ((97 <=? n) && (n <=? 122))%N then ascii_of_N (n - 32) else c.

Definition toUpperCase (s : string) : string :=
  string_of_list_ascii (map upper (list_ascii_of_string s)).

Definition trim (s : string) : string :=
  string_of_list_ascii (rev (trim_start (rev (trim_start (list_ascii_of_string s))))).

(** [addCustomSymbol]: the new selection, when [onSymbolsChange] is
    called, and the state of the input. *)
Definition addCustomSymbol (selectedSymbols : list string) (s : state)
  : option (list string) * state :=
  let symbol := toUpperCase (trim (customSymbol s)) in
  if truthy (VStr symbol) && negb (includes selectedSymbols symbol)
  then (Some (selectedSymbols ++ [symbol]), {| customSymbol := EmptyString |})
  else (None, s).

Definition selectAll : list string := DEFAULT_STOCKS.

Definition clearAll : list string := [].

Inductive event : Type :=
| ClickChip (symbol : string)        (* onClick={() => toggleSymbol(symbol)} *)
| TypeSymbol (text : string)         (* onChange={(e) => setCustomSymbol(e.target.value)} *)
| PressEnter                         (* onKeyPress: e.key === 'Enter' && addCustomSymbol() *)
| ClickAdd                           (* onClick={addCustomSymbol} *)
| ClickSelectAll
| ClickClearAll.

(** One event of the selector: the selection its parent holds, and
    its own state.  There is a chip for each of the default stocks and
    for nothing else. *)
Definition step (e : event) (x : list string * state) : list string * state :=
  let '(selectedSymbols, s) := x in
  match e with
  | ClickChip symbol =>
      if includes DEFAULT_STOCKS symbol
      then (toggleSymbol selectedSymbols symbol, s)
      else x
  | TypeSymbol text => (selectedSymbols, {| customSymbol := text |})
  | PressEnter | ClickAdd =>
      match addCustomSymbol selectedSymbols s with
      | (Some l, s') => (l, s')
      | (None, s') => (selectedSymbols, s')
      end
  | ClickSelectAll => (selectAll, s)
  | ClickClearAll => (clearAll, s)
  end.

Definition steps (es : list event) (x : list string * state) : list string * state :=
  fold_left (fun x e => step e x) es x.

(** A chip of the grid, and the summary line. *)
Definition chip_selected (selectedSymbols : list string) (symbol : string) : bool :=
  includes selectedSymbols symbol.

Definition summary (selectedSymbols : list string) : nat * string :=
  (length selectedSymbols,
   if (length selectedSymbols =? 1)%nat then "stock selected" else "stocks selected").

End StockSelector.

(* ===================================================================== *)
(** * components/AccountSummary.js *)
(* ===================================================================== *)

Module AccountSummary.

(** [x?.toLocaleString(...)] finds the method on every string,
    number and boolean; on an object it is Object.prototype's, which
    calls [toString], unless the object has a field of either name, and
    a field read from JSON is not a function; an array asks each of its
    elements that is not null or undefined. *)
Fixpoint localizable (v : value) : bool :=
  match v with
  | VObj fields =>
      negb (has_own v "toLocaleString") && negb (has_own v "toString")
  | VArr xs => forallb (fun x => nullish x || localizable x) xs
  | _ => true
  end.

(** What an amount shows: the formatted value, or the text that
    stands in for it.  The digits the locale produces are not modelled. *)
Inductive amount : Type :=
| Formatted (v : value)
| Missing
| Literal (s : string).

(** [${x?.toLocaleString(undefined, {...})}] *)
Definition money (x : value) : result amount :=
  if nullish x then Ok Missing
  else if localizable x then Ok (Formatted x)
  else Throw (TypeError "toLocaleString is not a function").

(** The values whose formatted text is empty: the empty string, and
    an array of at most one element that is null, undefined or of
    empty text itself. *)
Fixpoint empty_text (v : value) : bool :=
  match v with
  | VStr s => String.eqb s EmptyString
  | VArr [] => true
  | VArr [x] => nullish x || empty_text x
  | _ => false
  end.

(** [${x?.toLocaleString(undefined, {...}) || '0.00'}] *)
Definition money_or_zero (x : value) : result amount :=
  if nullish x then Ok (Literal "0.00")
  else if localizable x then
    if empty_text x then Ok (Literal "0.00") else Ok (Formatted x)
  else Throw (TypeError "toLocaleString is not a function").

(** [a >= 0] *)
Definition non_negative (v : value) : bool :=
  match to_number v with
  | Fin q => Qle_bool 0 q
  | Inf negative => negb negative
  | NaN => false
  end.

Record summary_view : Type := Summary {
  equity : amount;
  cash : amount;
  buying_power : amount;
  positions_count : value;          (* {positions?.length || 0} *)
  pl_class : string;                (* 'positive' or 'negative' *)
  total_pl : amount;
  pl_pct : option (bool * value);   (* a '+' for a positive value, then {pct}% *)
  invested : amount;
  invested_pct : option value;
  day_trades : value;               (* {pdt.daytrade_count || 0} of "/3" *)
  pdt_restricted : bool;            (* the PDT RESTRICTED badge *)
  warnings : list value
}.

Inductive view : Type :=
| Loading                           (* "Loading account data..." *)
| Account (v : summary_view).

(** [x !== undefined && (<> ... </>)] *)
Definition when_defined {A} (x : value) (a : A) : option A :=
  match x with
  | VUndefined => None
  | _ => Some a
  end.

(** [riskSummary?.k || {}] *)
Definition section_of (riskSummary : value) (k : string) : value :=
  or_else (get_opt riskSummary k) (VObj []).

Definition render (account positions riskSummary : value) : result view :=
  if negb (truthy account) then Ok Loading
  else
    let portfolio := section_of riskSummary "portfolio" in
    let pdt := section_of riskSummary "pdt" in
    e <-! money (prop account "equity");
    c <-! money (prop account "cash");
    b <-! money (prop account "buying_power");
    pl <-! money_or_zero (prop portfolio "total_unrealized_pl");
    i <-! money_or_zero (get_opt (get_opt riskSummary "account") "invested");
    w <-! AnalysisResults.render_lines (get_opt riskSummary "warnings");
    Ok (Account
          {| equity := e; cash := c; buying_power := b;
             positions_count := or_else (get_opt positions "length") (num 0);
             pl_class := if non_negative (prop portfolio "total_unrealized_pl")
                         then "positive" else "negative";
             total_pl := pl;
             pl_pct :=
               (let pct := prop portfolio "total_unrealized_pl_pct" in
                when_defined pct (AnalysisResults.positive pct, pct));
             invested := i;
             invested_pct :=
               (let pct := get_opt (get_opt riskSummary "account") "invested_percentage" in
                when_defined pct pct);
             day_trades := or_else (prop pdt "daytrade_count") (num 0);
             pdt_restricted := truthy (prop pdt "pdt_restricted");
             warnings := w |}).

End AccountSummary.

(* ===================================================================== *)
(** * Answers of the server *)
(* ===================================================================== *)

Module Answer.

(** The test every handler makes on an answer: the promise resolved
    and [response.data.success] is truthy. *)
Definition accepted (resp : response) : bool :=
  match resp with
  | Resolved data =>
      match get data "success" with
      | inr ok => truthy ok
      | inl _ => false
      end
  | Rejected _ => false
  end.

(** The answer a scripted server gives first. *)
Definition first (script : list response) : response :=
  match script with
  | x :: _ => x
  | [] => Rejected (VObj [])
  end.

Definition data_of (resp : response) : value :=
  match resp with
  | Resolved data => data
  | Rejected _ => VUndefined
  end.


End Answer.

(** The callback of the select's [find]: [r => r.symbol === v]. *)
Definition has_symbol (v : string) (r : value) : result bool :=
  rbind (get r "symbol") (fun sym => Ok (strict_eq_str sym v)).

(* ===================================================================== *)
(** * Requests of the handlers *)
(* ===================================================================== *)

Lemma emits_Ret_inv {A} (a : A) r : emits (Ret a) r -> False.
Proof. inversion 1. Qed.

Lemma emits_Await_inv {A} q (k : response -> Prog A) r :
  emits (Await q k) r -> r = q \/ exists resp, emits (k resp) r.
Proof. inversion 1; subst; eauto. Qed.

Lemma emits_bind_inv {A B} (m : Prog A) (f : A -> Prog B) r :
  emits (bind m f) r -> emits m r \/ exists a, returns m a /\ emits (f a) r.
Proof.
  induction m as [a | q k IH]; simpl; intros H.
  - right. exists a. split; [constructor | assumption].
  - apply emits_Await_inv in H as [-> | [resp H]].
    + left. constructor.
    + destruct (IH resp H) as [H1 | (a & H1 & H2)].
      * left. econstructor 2. eassumption.
      * right. exists a. split; [econstructor; eassumption | assumption].
Qed.

Lemma returns_Ret_inv {A} (a b : A) : returns (Ret a) b -> b = a.
Proof. inversion 1; reflexivity. Qed.

Lemma returns_Await_inv {A} q (k : response -> Prog A) a :
  returns (Await q k) a -> exists resp, returns (k resp) a.
Proof. inversion 1; subst; eauto. Qed.

Lemma returns_bind_inv {A B} (m : Prog A) (f : A -> Prog B) b :
  returns (bind m f) b -> exists a, returns m a /\ returns (f a) b.
Proof.
  induction m as [a | q k IH]; simpl; intros H.
  - exists a. split; [constructor | assumption].
  - apply returns_Await_inv in H as [resp H].
    destruct (IH resp H) as (a & H1 & H2).
    exists a. split; [econstructor; eassumption | assumption].
Qed.

Lemma run_emits {A} (p : Prog A) script r :
  In r (snd (run p script)) -> emits p r.
Proof.
  revert script. induction p as [a | q k IH]; simpl; intros script H.
  - destruct H.
  - destruct (run (k _) (tail script)) as [a rs] eqn:E. simpl in H.
    destruct H as [<- | H]; [constructor |].
    econstructor 2. eapply IH. rewrite E. exact H.
Qed.

Lemma run_returns {A} (p : Prog A) script : returns p (fst (run p script)).
Proof.
  revert script. induction p as [a | q k IH]; simpl; intros script.
  - constructor.
  - specialize (IH (match script with x :: _ => x | [] => Rejected (VObj []) end) (tail script)).
    destruct (run (k _) (tail script)) as [a rs]. simpl in *.
    econstructor. exact IH.
Qed.

Lemma append_inj_l (p a b : string) : String.append p a = String.append p b -> a = b.
Proof. induction p; simpl; intros H; [assumption | injection H; auto]. Qed.

Lemma endpoint_inj base a b : App.endpoint base a = App.endpoint base b -> a = b.
Proof. apply append_inj_l. Qed.

(** Splits the answer of the server, and the test of [data.success],
    until every branch is a finished handler. *)
Ltac settle :=
  repeat match goal with
  | H : emits (Ret _) _ |- _ => destruct (emits_Ret_inv _ _ H)
  | H : returns (Ret _) _ |- _ => apply returns_Ret_inv in H; subst
  | H : context [match ?x with Resolved _ => _ | Rejected _ => _ end] |- _ => destruct x
  | H : context [match get ?d ?k with inl _ => _ | inr _ => _ end] |- _ =>
      destruct (get d k) eqn:?
  | H : context [if truthy ?v then _ else _] |- _ => destruct (truthy v) eqn:?
  end.

Lemma loadAccountData_emits base s r :
  emits (App.loadAccountData base s) r ->
  r = Request GET (App.endpoint base "/account") VUndefined.
Proof.
  unfold App.loadAccountData. intros H.
  apply emits_Await_inv in H as [-> | [resp H]]; [reflexivity |]. settle.
Qed.

Lemma loadConfig_emits base s r :
  emits (App.loadConfig base s) r ->
  r = Request GET (App.endpoint base "/config") VUndefined.
Proof.
  unfold App.loadConfig. intros H.
  apply emits_Await_inv in H as [-> | [resp H]]; [reflexivity |]. settle.
Qed.

Lemma runAnalysis_emits base s r :
  emits (App.runAnalysis base s) r ->
  r = Request POST (App.endpoint base "/analyze") (App.analyze_body s).
Proof.
  unfold App.runAnalysis. intros H.
  apply emits_Await_inv in H as [-> | [resp H]]; [reflexivity |]. settle.
Qed.

Lemma sendToTelegram_emits base s r :
  emits (App.sendToTelegram base s) r ->
  req_url r = App.endpoint base "/send-telegram".
Proof.
  unfold App.sendToTelegram. intros H.
  destruct (truthy (App.analysisResults s)); cbn [negb] in H; [| settle].
  apply emits_Await_inv in H as [-> | [resp H]]; [reflexivity |]. settle.
Qed.

Lemma executeTrade_emits base td s r :
  emits (App.executeTrade base td s) r ->
  r = Request POST (App.endpoint base "/execute-trade") td
  \/ r = Request GET (App.endpoint base "/account") VUndefined.
Proof.
  unfold App.executeTrade. intros H.
  apply emits_Await_inv in H as [-> | [resp H]]; [left; reflexivity |].
  destruct resp as [data | err]; [| settle].
  destruct (get data "success") as [e | ok]; [settle |].
  destruct (truthy ok); [| settle].
  apply emits_bind_inv in H as [H | (a & _ & H)]; [| settle].
  right. eapply loadAccountData_emits, H.
Qed.

Lemma handleExecute_emits base a p r :
  emits (TradingPanel.handleExecute (App.executeTrade base) a p) r ->
  truthy (TradingPanel.selectedStock p) = true
  /\ (r = Request POST (App.endpoint base "/execute-trade") (TradingPanel.tradeDetails p)
      \/ r = Request GET (App.endpoint base "/account") VUndefined).
Proof.
  unfold TradingPanel.handleExecute. intros H.
  destruct (truthy (TradingPanel.selectedStock p)); cbn [negb] in H; [| settle].
  split; [reflexivity |].
  apply emits_bind_inv in H as [H | (x & _ & H)]; [| settle].
  eapply executeTrade_emits, H.
Qed.

Lemma is_execute_trade_account base :
  UI.is_execute_trade base (Request GET (App.endpoint base "/account") VUndefined) = false.
Proof.
  unfold UI.is_execute_trade. simpl. apply String.eqb_neq.
  intros H. apply endpoint_inj in H. discriminate.
Qed.

Lemma is_execute_trade_url base r path :
  req_url r = App.endpoint base path -> path <> "/execute-trade" ->
  UI.is_execute_trade base r = false.
Proof.
  intros E N. unfold UI.is_execute_trade. rewrite E. apply String.eqb_neq.
  intros H. apply endpoint_inj in H. contradiction.
Qed.

(** Every request of every handler: which event starts it, and what
    is sent to /execute-trade. *)
Lemma dispatch_execute_trade base e s r :
  emits (UI.dispatch base e s) r ->
  UI.is_execute_trade base r = true ->
  e = UI.ClickExecute
  /\ UI.execute_enabled s = true
  /\ r = Request POST (App.endpoint base "/execute-trade")
                 (TradingPanel.tradeDetails (UI.panel s)).
Proof.
  intros H X.
  assert (NA : forall r', r' = Request GET (App.endpoint base "/account") VUndefined ->
                          UI.is_execute_trade base r' = true -> False).
  { intros r' -> E. rewrite is_execute_trade_account in E. discriminate. }
  assert (NU : forall path, req_url r = App.endpoint base path ->
                            path <> "/execute-trade" -> False).
  { intros path E N. rewrite (is_execute_trade_url _ _ _ E N) in X. discriminate. }
  destruct e; unfold UI.dispatch in H; cbv beta iota in H;
    repeat match goal with
    | H : emits (if ?b then _ else _) _ |- _ => destruct b eqn:?
    | H : emits (match ?n with O => _ | S _ => _ end) _ |- _ => destruct n
    | H : emits (match ?l with [] => _ | _ :: _ => _ end) _ |- _ => destruct l
    | H : emits (Ret _) _ |- _ => destruct (emits_Ret_inv _ _ H)
    end.
  - (* Mount *)
    apply emits_bind_inv in H as [H | (a & _ & H)].
    + exfalso. eapply NA; [eapply loadAccountData_emits, H | exact X].
    + apply emits_bind_inv in H as [H | (a' & _ & H)]; [| settle].
      apply loadConfig_emits in H. subst r. exfalso. eapply (NU "/config"); [reflexivity | discriminate].
  - (* ClickRunAnalysis *)
    apply emits_bind_inv in H as [H | (a & _ & H)]; [| settle].
    apply runAnalysis_emits in H. subst r. exfalso.
    eapply (NU "/analyze"); [reflexivity | discriminate].
  - (* ClickSendToTelegram *)
    apply emits_bind_inv in H as [H | (a & _ & H)]; [| settle].
    apply sendToTelegram_emits in H. exfalso.
    eapply (NU "/send-telegram"); [exact H | discriminate].
  - (* ClickExecute *)
    apply emits_bind_inv in H as [H | (x & _ & H)].
    + apply handleExecute_emits in H as [_ [-> | ->]]; [auto |].
      exfalso. eapply NA; [reflexivity | exact X].
    + destruct x as [[a p] armed]. settle.
  - (* TradeTimer *)
    apply emits_bind_inv in H as [H | (a & _ & H)]; [| settle].
    exfalso. eapply NA; [eapply loadAccountData_emits, H | exact X].
Qed.

Lemma emits_bind_l {A B} (m : Prog A) (f : A -> Prog B) r :
  emits m r -> emits (bind m f) r.
Proof.
  induction 1 as [q k | q k resp r' _ IH]; simpl.
  - constructor.
  - econstructor 2. exact IH.
Qed.

Lemma session_log base es s e rs :
  In (e, rs) (snd (UI.session base es s)) ->
  exists s' script, rs = snd (run (UI.dispatch base e s') script).
Proof.
  revert s. induction es as [| [e0 script] es IH]; simpl; intros s H.
  - destruct H.
  - destruct (run (UI.dispatch base e0 s) script) as [s1 rs0] eqn:E1.
    destruct (UI.session base es s1) as [s2 log] eqn:E2. simpl in H.
    destruct H as [H | H].
    + injection H as <- <-. exists s, script. rewrite E1. reflexivity.
    + apply (IH s1). rewrite E2. exact H.
Qed.

(** What the panel must show for the Execute button to be pressed. *)
Lemma execute_enabled_inv results p :
  TradingPanel.execute_enabled results p = true ->
  TradingPanel.executeDisabled p = false
  /\ truthy (TradingPanel.selectedStock p) = true
  /\ exists tr, TradingPanel.tradableRecommendations (prop results "analysis") = Ok tr
                /\ tr <> [].
Proof.
  unfold TradingPanel.execute_enabled, TradingPanel.render.
  destruct (negb (truthy results) || negb (truthy (prop results "analysis"))); [discriminate |].
  destruct (TradingPanel.tradableRecommendations (prop results "analysis")) as [e | tr];
    [discriminate |].
  destruct tr as [| x tr]; [discriminate |]. cbn [rbind].
  destruct (TradingPanel.render_options (x :: tr)) as [e | os]; [discriminate |]. cbn [rbind].
  unfold TradingPanel.render_details.
  destruct (truthy (TradingPanel.selectedStock p)); [| discriminate].
  destruct (prop (TradingPanel.selectedStock p) "action"); try discriminate.
  cbn. intros H. apply negb_true_iff in H.
  repeat split; [exact H |]. exists (x :: tr). split; [reflexivity | discriminate].
Qed.

(** C3. Trade execution is never started by an analysis: runAnalysis
    performs the POST to /analyze and nothing else; of all the handlers
    of the page, only the one of the enabled Execute button performs a
    request to /execute-trade, in one step or along a whole session. *)
Theorem analysis_never_executes_a_trade :
  forall base,
    (forall s r, emits (App.runAnalysis base s) r ->
       r = Request POST (App.endpoint base "/analyze") (App.analyze_body s)
       /\ UI.is_execute_trade base r = false)
    /\ (forall e s r, emits (UI.dispatch base e s) r ->
          UI.is_execute_trade base r = true ->
          e = UI.ClickExecute /\ UI.execute_enabled s = true)
    /\ (forall es s e rs r,
          In (e, rs) (snd (UI.session base es s)) -> In r rs ->
          UI.is_execute_trade base r = true -> e = UI.ClickExecute).
Proof.
  intros base. split; [| split].
  - intros s r H. apply runAnalysis_emits in H. subst r. split; [reflexivity |].
    apply (is_execute_trade_url base _ "/analyze"); [reflexivity | discriminate].
  - intros e s r H X. destruct (dispatch_execute_trade base e s r H X) as (E & En & _).
    split; assumption.
  - intros es s e rs r Hlog Hr X.
    destruct (session_log base es s e rs Hlog) as (s' & script & ->).
    apply run_emits in Hr.
    destruct (dispatch_execute_trade base e s' r Hr X) as (E & _). exact E.
Qed.

Lemma analysis_never_executes_a_trade_witness :
  emits (UI.dispatch Sample.base UI.ClickExecute Sample.page)
        (Request POST "/api/execute-trade" (TradingPanel.tradeDetails Sample.limit_order))
  /\ UI.ClickExecute = UI.ClickExecute /\ UI.execute_enabled Sample.page = true.
Proof.
  assert (E : emits (UI.dispatch Sample.base UI.ClickExecute Sample.page)
                (Request POST "/api/execute-trade"
                   (TradingPanel.tradeDetails Sample.limit_order))).
  { apply emits_now. }
  split; [exact E |].
  exact (proj1 (proj2 (analysis_never_executes_a_trade Sample.base))
           UI.ClickExecute Sample.page _ E eq_refl).
Defined.

(** C8, as the claim states it, fails when the configuration carries
    [lookback_days: 0]: a value is configured, and the request asks for 60. *)
Lemma configured_zero_lookback_is_replaced :
  get_opt (App.config Sample.zero_lookback) "lookback_days" = num 0
  /\ prop (App.analyze_body Sample.zero_lookback) "lookback_days" = num 60
  /\ num 60 <> num 0.
Proof. repeat split. discriminate. Qed.

(** C8, amended. Every analyze request carries a [lookback_days]
    field: the configured value when that value is truthy, and 60 when
    the configuration is not loaded, has no such field, or holds a
    falsy one (0, null, false, the empty string). *)
Theorem analyze_request_lookback_days base s :
  emits (App.runAnalysis base s)
        (Request POST (App.endpoint base "/analyze") (App.analyze_body s))
  /\ forall r, emits (App.runAnalysis base s) r ->
       has_own (req_body r) "lookback_days" = true
       /\ prop (req_body r) "lookback_days"
          = (if truthy (get_opt (App.config s) "lookback_days")
             then get_opt (App.config s) "lookback_days" else num 60).
Proof.
  split; [apply emits_now |].
  intros r H. apply runAnalysis_emits in H. subst r. split; reflexivity.
Qed.

Lemma analyze_request_lookback_days_witness :
  emits (App.runAnalysis Sample.base App.initial)
        (Request POST "/api/analyze" (App.analyze_body App.initial))
  /\ prop (App.analyze_body App.initial) "lookback_days" = num 60.
Proof.
  split; [apply emits_now |].
  exact (proj2 (proj2 (analyze_request_lookback_days Sample.base App.initial)
                  _ (emits_now _ _))).
Defined.

(* ===================================================================== *)
(** * The trade request *)
(* ===================================================================== *)

Lemma pow10_minus_6 : pow10 (-6) = (1 # 1000000)%Q.
Proof. reflexivity. Qed.

Lemma pow10_21 : pow10 21 = inject_Z (10 ^ 21).
Proof. reflexivity. Qed.

(** parseInt of an integer Number below 1e21 is that integer. *)
Lemma parseInt_integer z : Z.abs z < 10 ^ 21 -> parseInt (num z) = Fin (inject_Z z).
Proof.
  intros Hz. unfold num. cbn [parseInt]. unfold parseInt_number.
  destruct (Qeq_bool (inject_Z z) 0) eqn:E0.
  - apply Qeq_bool_iff in E0. unfold Qeq in E0. cbn in E0.
    assert (z = 0) by lia. subst. reflexivity.
  - assert (Hnz : z <> 0).
    { intros ->. discriminate. }
    assert (H1 : Qle_bool (pow10 (-6)) (Qabs (inject_Z z)) = true).
    { rewrite pow10_minus_6. apply Qle_bool_iff. unfold Qle. cbn. lia. }
    assert (H2 : Qle_bool (pow10 21) (Qabs (inject_Z z)) = false).
    { rewrite pow10_21. apply not_true_is_false. intros H.
      apply Qle_bool_iff in H. unfold Qle in H. cbn [Qabs inject_Z Qnum Qden] in H. lia. }
    rewrite H1, H2. cbn [andb negb inject_Z Qnum Qden].
    rewrite Z.quot_1_r. reflexivity.
Qed.

Lemma tradeDetails_fields p :
  prop (TradingPanel.tradeDetails p) "symbol" = prop (TradingPanel.selectedStock p) "symbol"
  /\ prop (TradingPanel.tradeDetails p) "action" = prop (TradingPanel.selectedStock p) "action"
  /\ prop (TradingPanel.tradeDetails p) "quantity"
     = VNum (parseInt (or_else (VStr (TradingPanel.customQuantity p))
                               (prop (TradingPanel.selectedStock p) "position_size")))
  /\ prop (TradingPanel.tradeDetails p) "order_type" = VStr (TradingPanel.orderType p).
Proof. repeat split. Qed.

Lemma tradeDetails_limit_price p :
  has_own (TradingPanel.tradeDetails p) "limit_price" = TradingPanel.is_limit p
  /\ prop (TradingPanel.tradeDetails p) "limit_price"
     = (if TradingPanel.is_limit p
        then VNum (parseFloat (TradingPanel.limitPrice p)) else VUndefined).
Proof.
  unfold TradingPanel.tradeDetails. destruct (TradingPanel.is_limit p); split; reflexivity.
Qed.

Lemma handleExecute_request base a p :
  truthy (TradingPanel.selectedStock p) = true ->
  emits (TradingPanel.handleExecute (App.executeTrade base) a p)
        (Request POST (App.endpoint base "/execute-trade") (TradingPanel.tradeDetails p)).
Proof.
  intros T. unfold TradingPanel.handleExecute. rewrite T. cbn [negb].
  apply emits_bind_l. apply emits_now.
Qed.

(** C2. The request that executes a trade is built from the symbol,
    the action and the position size of the selected recommendation and
    from what the user entered (order type, limit price, quantity), the
    position size being the quantity when none was entered; two
    recommendations that agree on these three fields give the same
    requests under the same entries. *)
Theorem trade_request_reads_symbol_action_size base a (p1 p2 : TradingPanel.state) :
  truthy (TradingPanel.selectedStock p1) = true ->
  truthy (TradingPanel.selectedStock p2) = true ->
  prop (TradingPanel.selectedStock p1) "symbol" = prop (TradingPanel.selectedStock p2) "symbol" ->
  prop (TradingPanel.selectedStock p1) "action" = prop (TradingPanel.selectedStock p2) "action" ->
  prop (TradingPanel.selectedStock p1) "position_size"
    = prop (TradingPanel.selectedStock p2) "position_size" ->
  TradingPanel.orderType p1 = TradingPanel.orderType p2 ->
  TradingPanel.limitPrice p1 = TradingPanel.limitPrice p2 ->
  TradingPanel.customQuantity p1 = TradingPanel.customQuantity p2 ->
  TradingPanel.tradeDetails p1 = TradingPanel.tradeDetails p2
  /\ emits (TradingPanel.handleExecute (App.executeTrade base) a p1)
           (Request POST (App.endpoint base "/execute-trade") (TradingPanel.tradeDetails p1))
  /\ (forall r, UI.is_execute_trade base r = true ->
        (emits (TradingPanel.handleExecute (App.executeTrade base) a p1) r
         <-> emits (TradingPanel.handleExecute (App.executeTrade base) a p2) r))
  /\ prop (TradingPanel.tradeDetails p1) "symbol" = prop (TradingPanel.selectedStock p1) "symbol"
  /\ prop (TradingPanel.tradeDetails p1) "action" = prop (TradingPanel.selectedStock p1) "action"
  /\ prop (TradingPanel.tradeDetails p1) "order_type" = VStr (TradingPanel.orderType p1)
  /\ (TradingPanel.customQuantity p1 = EmptyString ->
      prop (TradingPanel.tradeDetails p1) "quantity"
        = VNum (parseInt (prop (TradingPanel.selectedStock p1) "position_size"))
      /\ forall z, prop (TradingPanel.selectedStock p1) "position_size" = num z ->
                   Z.abs z < 10 ^ 21 ->
                   prop (TradingPanel.tradeDetails p1) "quantity" = num z).
Proof.
  intros T1 T2 Hs Ha Hp Ho Hl Hq.
  assert (E : TradingPanel.tradeDetails p1 = TradingPanel.tradeDetails p2).
  { unfold TradingPanel.tradeDetails, TradingPanel.is_limit.
    rewrite Hs, Ha, Hp, Ho, Hl, Hq. reflexivity. }
  split; [exact E |]. split; [apply handleExecute_request, T1 |].
  split; [| repeat split].
  - intros r X. split; intros H.
    + apply handleExecute_emits in H as [_ [-> | ->]].
      * rewrite E. apply handleExecute_request, T2.
      * rewrite is_execute_trade_account in X. discriminate.
    + apply handleExecute_emits in H as [_ [-> | ->]].
      * rewrite <- E. apply handleExecute_request, T1.
      * rewrite is_execute_trade_account in X. discriminate.
  - destruct (tradeDetails_fields p1) as (_ & _ & Q & _). rewrite Q, H. reflexivity.
  - intros z Hz Hr. destruct (tradeDetails_fields p1) as (_ & _ & Q & _).
    rewrite Q, H. unfold or_else. cbn [truthy String.eqb negb].
    rewrite Hz, (parseInt_integer z Hr). reflexivity.
Qed.

Lemma trade_request_reads_symbol_action_size_witness :
  TradingPanel.selectedStock Sample.limit_order
    <> TradingPanel.selectedStock Sample.limit_order_again
  /\ TradingPanel.tradeDetails Sample.limit_order
     = TradingPanel.tradeDetails Sample.limit_order_again
  /\ prop (TradingPanel.tradeDetails Sample.limit_order) "quantity" = num 10.
Proof.
  pose proof (trade_request_reads_symbol_action_size Sample.base App.initial
                Sample.limit_order Sample.limit_order_again
                eq_refl eq_refl eq_refl eq_refl eq_refl eq_refl eq_refl eq_refl) as H.
  split; [discriminate |]. split; [exact (proj1 H) |].
  destruct H as (_ & _ & _ & _ & _ & _ & H).
  refine (proj2 (H eq_refl) 10 eq_refl _). vm_compute. reflexivity.
Defined.

(** C9. A trade request has a [limit_price] field exactly when the
    order type is 'limit', and the field is then the parsed limit price;
    the Execute button is disabled for a limit order with an empty
    price, so the request of a limit order always comes with a price
    that was entered, and the request of any other order has none. *)
Theorem limit_price_iff_limit_order base :
  (forall p,
     has_own (TradingPanel.tradeDetails p) "limit_price" = TradingPanel.is_limit p
     /\ prop (TradingPanel.tradeDetails p) "limit_price"
        = (if TradingPanel.is_limit p
           then VNum (parseFloat (TradingPanel.limitPrice p)) else VUndefined)
     /\ (TradingPanel.is_limit p = true -> TradingPanel.limitPrice p = EmptyString ->
         TradingPanel.executeDisabled p = true))
  /\ (forall e s r,
        emits (UI.dispatch base e s) r -> UI.is_execute_trade base r = true ->
        req_body r = TradingPanel.tradeDetails (UI.panel s)
        /\ (TradingPanel.is_limit (UI.panel s) = true ->
            TradingPanel.limitPrice (UI.panel s) <> EmptyString
            /\ prop (req_body r) "limit_price"
               = VNum (parseFloat (TradingPanel.limitPrice (UI.panel s))))
        /\ (TradingPanel.is_limit (UI.panel s) = false ->
            has_own (req_body r) "limit_price" = false)).
Proof.
  split.
  - intros p. destruct (tradeDetails_limit_price p) as [H1 H2].
    repeat split; [exact H1 | exact H2 |].
    intros L E. unfold TradingPanel.executeDisabled. rewrite L, E.
    apply orb_true_r.
  - intros e s r H X.
    destruct (dispatch_execute_trade base e s r H X) as (_ & En & ->).
    cbn [req_body]. destruct (tradeDetails_limit_price (UI.panel s)) as [H1 H2].
    split; [reflexivity |]. split.
    + intros L. rewrite H2, L. split; [| reflexivity].
      unfold UI.execute_enabled in En. apply andb_true_iff in En as [_ En].
      apply execute_enabled_inv in En as (D & _).
      unfold TradingPanel.executeDisabled in D. rewrite L in D.
      apply orb_false_iff in D as [_ D]. cbn [andb] in D.
      intros E. rewrite E in D. discriminate.
    + intros L. rewrite H1. exact L.
Qed.

Lemma limit_price_iff_limit_order_witness :
  prop (TradingPanel.tradeDetails Sample.limit_order) "limit_price" = VNum (Fin (1250 # 100))
  /\ TradingPanel.limitPrice Sample.limit_order <> EmptyString.
Proof.
  pose proof (proj2 (limit_price_iff_limit_order Sample.base)
                UI.ClickExecute Sample.page _ (emits_now _ _) eq_refl) as (_ & H & _).
  destruct (H eq_refl) as [N P]. split; [exact P | exact N].
Defined.

(* ===================================================================== *)
(** * What can be selected for execution *)
(* ===================================================================== *)

Lemma tradableRecommendations_inv analysis tr :
  TradingPanel.tradableRecommendations analysis = Ok tr ->
  exists buys sells,
    spread (prop analysis "buy_recommendations") = Ok buys
    /\ spread (prop analysis "sell_recommendations") = Ok sells
    /\ tr = buys ++ sells.
Proof.
  unfold TradingPanel.tradableRecommendations.
  destruct (spread (prop analysis "buy_recommendations")) as [e | buys]; [discriminate |].
  destruct (spread (prop analysis "sell_recommendations")) as [e | sells]; [discriminate |].
  cbn. intros H. injection H as <-. eauto.
Qed.

Lemma render_options_recs recs : forall os,
  TradingPanel.render_options recs = Ok os -> map TradingPanel.opt_rec os = recs.
Proof.
  induction recs as [| x recs IH]; cbn [TradingPanel.render_options]; intros os H.
  - injection H as <-. reflexivity.
  - unfold TradingPanel.render_option in H.
    destruct (get x "symbol") as [e | sym]; [discriminate |]. cbn [rbind] in H.
    destruct (TradingPanel.render_options recs) as [e | os']; [discriminate |].
    cbn in H. injection H as <-. cbn. rewrite (IH os' eq_refl). reflexivity.
Qed.

Lemma render_Controls results p os d :
  TradingPanel.render results p = Ok (TradingPanel.Controls os d) ->
  exists tr, TradingPanel.tradableRecommendations (prop results "analysis") = Ok tr
             /\ tr <> [] /\ map TradingPanel.opt_rec os = tr.
Proof.
  unfold TradingPanel.render.
  destruct (negb (truthy results) || negb (truthy (prop results "analysis"))); [discriminate |].
  destruct (TradingPanel.tradableRecommendations (prop results "analysis")) as [e | tr];
    [discriminate |].
  destruct tr as [| x tr]; [discriminate |]. cbn [rbind].
  destruct (TradingPanel.render_options (x :: tr)) as [e | os'] eqn:E; [discriminate |].
  cbn [rbind]. destruct (TradingPanel.render_details p) as [e | d']; [discriminate |].
  cbn. intros H. injection H as <- <-.
  exists (x :: tr). repeat split; [discriminate | apply render_options_recs, E].
Qed.

Lemma find_In p xs v : find p xs = Ok v -> v = VUndefined \/ In v xs.
Proof.
  induction xs as [| x xs IH]; cbn [find]; intros H.
  - injection H as <-. left. reflexivity.
  - destruct (p x) as [e | b]; [discriminate |]. cbn [rbind] in H.
    destruct b.
    + injection H as <-. right. left. reflexivity.
    + destruct (IH H) as [-> | I]; [left; reflexivity | right; right; exact I].
Qed.

Lemma nullish_not_truthy v : nullish v = true -> truthy v = false.
Proof. destruct v; cbn; congruence. Qed.

Lemma loadAccountData_keeps base s s' :
  returns (App.loadAccountData base s) s' -> App.analysisResults s' = App.analysisResults s.
Proof.
  unfold App.loadAccountData. intros H.
  apply returns_Await_inv in H as [resp H]. settle; reflexivity.
Qed.

Lemma loadConfig_keeps base s s' :
  returns (App.loadConfig base s) s' -> App.analysisResults s' = App.analysisResults s.
Proof.
  unfold App.loadConfig. intros H.
  apply returns_Await_inv in H as [resp H]. settle; reflexivity.
Qed.

Lemma sendToTelegram_keeps base s s' :
  returns (App.sendToTelegram base s) s' -> App.analysisResults s' = App.analysisResults s.
Proof.
  unfold App.sendToTelegram. intros H.
  destruct (truthy (App.analysisResults s)); cbn [negb] in H; [| settle; reflexivity].
  apply returns_Await_inv in H as [resp H]. settle; reflexivity.
Qed.

Lemma executeTrade_keeps base td s x :
  returns (App.executeTrade base td s) x ->
  App.analysisResults (fst x) = App.analysisResults s.
Proof.
  unfold App.executeTrade. intros H.
  apply returns_Await_inv in H as [resp H].
  destruct resp as [data | err]; [| settle; reflexivity].
  destruct (get data "success") as [e | ok]; [settle; reflexivity |].
  destruct (truthy ok); [| settle; reflexivity].
  apply returns_bind_inv in H as (s' & H1 & H2). settle. cbn [fst].
  eapply loadAccountData_keeps, H1.
Qed.

Lemma handleExecute_keeps base a p x :
  returns (TradingPanel.handleExecute (App.executeTrade base) a p) x ->
  App.analysisResults (fst (fst x)) = App.analysisResults a
  /\ TradingPanel.selectedStock (snd (fst x)) = TradingPanel.selectedStock p.
Proof.
  unfold TradingPanel.handleExecute. intros H.
  destruct (truthy (TradingPanel.selectedStock p)); cbn [negb] in H;
    [| settle; split; reflexivity].
  apply returns_bind_inv in H as (y & H1 & H2). settle. cbn [fst snd].
  split; [eapply executeTrade_keeps, H1 | reflexivity].
Qed.

Lemma selection_ok_same s s' :
  App.analysisResults (UI.app s') = App.analysisResults (UI.app s) ->
  TradingPanel.selectedStock (UI.panel s') = TradingPanel.selectedStock (UI.panel s) ->
  UI.selection_ok s -> UI.selection_ok s'.
Proof. unfold UI.selection_ok. intros -> ->. exact id. Qed.

Lemma selection_ok_cleared s :
  nullish (TradingPanel.selectedStock (UI.panel s)) = true -> UI.selection_ok s.
Proof. intros H. left. exact H. Qed.

Lemma selectStock_ok analysis v p :
  let p' := TradingPanel.selectStock analysis v p in
  TradingPanel.selectedStock p' = TradingPanel.selectedStock p
  \/ nullish (TradingPanel.selectedStock p') = true
  \/ exists tr, TradingPanel.tradableRecommendations analysis = Ok tr
                /\ In (TradingPanel.selectedStock p') tr.
Proof.
  unfold TradingPanel.selectStock.
  destruct (TradingPanel.tradableRecommendations analysis) as [e | tr]; cbn [rbind].
  - left. reflexivity.
  - destruct (find _ tr) as [e | stock] eqn:F; cbn.
    + left. reflexivity.
    + destruct (find_In _ _ _ F) as [-> | I].
      * right. left. reflexivity.
      * right. right. exists tr. split; [reflexivity | exact I].
Qed.

(** Every handler leaves the selection among the tradable recommendations. *)
Lemma dispatch_selection_ok base e s s' :
  UI.selection_ok s -> returns (UI.dispatch base e s) s' -> UI.selection_ok s'.
Proof.
  intros Inv H.
  destruct e; unfold UI.dispatch in H; cbv beta iota in H;
    repeat match goal with
    | H : returns (if ?b then _ else _) _ |- _ => destruct b eqn:?
    | H : returns (match ?n with O => _ | S _ => _ end) _ |- _ => destruct n eqn:?
    | H : returns (match ?l with [] => _ | _ :: _ => _ end) _ |- _ => destruct l eqn:?
    | H : returns (Ret _) _ |- _ => apply returns_Ret_inv in H; subst s'
    end;
    try exact Inv;
    try (apply (selection_ok_same s); [reflexivity | reflexivity | exact Inv]).
  - (* Mount *)
    apply returns_bind_inv in H as (a1 & H1 & H).
    apply returns_bind_inv in H as (a2 & H2 & H). settle.
    apply (selection_ok_same s); [| reflexivity | exact Inv]. cbn.
    rewrite (loadConfig_keeps _ _ _ H2). eapply loadAccountData_keeps, H1.
  - (* ClickRunAnalysis *)
    apply returns_bind_inv in H as (a & _ & H). settle.
    apply selection_ok_cleared. reflexivity.
  - (* ClickSendToTelegram *)
    apply returns_bind_inv in H as (a & H1 & H). settle.
    apply (selection_ok_same s); [| reflexivity | exact Inv]. cbn.
    eapply sendToTelegram_keeps, H1.
  - (* SelectStock *)
    destruct (selectStock_ok (prop (App.analysisResults (UI.app s)) "analysis") v (UI.panel s))
      as [E | [N | (tr & T & I)]].
    + apply (selection_ok_same s); [reflexivity | exact E | exact Inv].
    + apply selection_ok_cleared. exact N.
    + right. exists tr. split; [exact T | exact I].
  - (* ClickExecute *)
    apply returns_bind_inv in H as (x & H1 & H).
    destruct x as [[a p] armed]. settle.
    destruct (handleExecute_keeps _ _ _ _ H1) as [Ea Ep]. cbn [fst snd] in Ea, Ep.
    apply (selection_ok_same s); [exact Ea | exact Ep | exact Inv].
  - (* ClickCancel *)
    apply selection_ok_cleared. reflexivity.
  - (* TradeTimer *)
    apply returns_bind_inv in H as (a & H1 & H). settle.
    destruct (n =? UI.panel_instance s)%nat.
    + apply selection_ok_cleared. reflexivity.
    + apply (selection_ok_same s); [| reflexivity | exact Inv]. cbn.
      eapply loadAccountData_keeps, H1.
Qed.

Lemma reachable_selection_ok base s : UI.reachable base s -> UI.selection_ok s.
Proof.
  induction 1 as [| e s s' _ IH H].
  - left. reflexivity.
  - eapply dispatch_selection_ok; eassumption.
Qed.

Lemma session_reachable base es : forall s,
  UI.reachable base s -> UI.reachable base (fst (UI.session base es s)).
Proof.
  induction es as [| [e script] es IH]; cbn [UI.session]; intros s R.
  - exact R.
  - pose proof (run_returns (UI.dispatch base e s) script) as H.
    destruct (run (UI.dispatch base e s) script) as [s1 rs]. cbn [fst] in H.
    specialize (IH s1 (UI.reachable_step base e s s1 R H)).
    destruct (UI.session base es s1) as [s2 log]. exact IH.
Qed.

(** C10. The select of the trading panel offers the elements of
    buy_recommendations followed by those of sell_recommendations, and
    nothing else; in every state of the page the selected stock is one
    of them or nothing, so every request to /execute-trade carries the
    symbol and the action of one of them (never HOLD when the two lists
    hold BUY and SELL recommendations only); with both lists empty the
    panel shows its "no tradable recommendations" message and no
    control. *)
Theorem only_buy_and_sell_are_offered base :
  (forall results p os d,
     TradingPanel.render results p = Ok (TradingPanel.Controls os d) ->
     exists buys sells,
       spread (prop (prop results "analysis") "buy_recommendations") = Ok buys
       /\ spread (prop (prop results "analysis") "sell_recommendations") = Ok sells
       /\ map TradingPanel.opt_rec os = buys ++ sells)
  /\ (forall s, UI.reachable base s -> UI.selection_ok s)
  /\ (forall s e r,
        UI.reachable base s -> emits (UI.dispatch base e s) r ->
        UI.is_execute_trade base r = true ->
        exists buys sells rec,
          let analysis := prop (App.analysisResults (UI.app s)) "analysis" in
          spread (prop analysis "buy_recommendations") = Ok buys
          /\ spread (prop analysis "sell_recommendations") = Ok sells
          /\ In rec (buys ++ sells)
          /\ prop (req_body r) "symbol" = prop rec "symbol"
          /\ prop (req_body r) "action" = prop rec "action"
          /\ ((forall x, In x buys -> prop x "action" = VStr "BUY") ->
              (forall x, In x sells -> prop x "action" = VStr "SELL") ->
              prop (req_body r) "action" <> VStr "HOLD"))
  /\ (forall results p,
        truthy results = true -> truthy (prop results "analysis") = true ->
        spread (prop (prop results "analysis") "buy_recommendations") = Ok [] ->
        spread (prop (prop results "analysis") "sell_recommendations") = Ok [] ->
        TradingPanel.render results p = Ok TradingPanel.NoTrades
        /\ TradingPanel.shows_controls results p = false
        /\ TradingPanel.execute_enabled results p = false).
Proof.
  split; [| split; [| split]].
  - intros results p os d H.
    destruct (render_Controls _ _ _ _ H) as (tr & T & _ & M).
    destruct (tradableRecommendations_inv _ _ T) as (buys & sells & B & S & ->).
    exists buys, sells. auto.
  - apply reachable_selection_ok.
  - intros s e r R H X.
    destruct (dispatch_execute_trade base e s r H X) as (_ & En & ->).
    unfold UI.execute_enabled in En. apply andb_true_iff in En as [_ En].
    apply execute_enabled_inv in En as (_ & T & _).
    destruct (reachable_selection_ok base s R) as [N | (tr & Tr & I)].
    { rewrite (nullish_not_truthy _ N) in T. discriminate. }
    destruct (tradableRecommendations_inv _ _ Tr) as (buys & sells & B & S & ->).
    exists buys, sells, (TradingPanel.selectedStock (UI.panel s)).
    cbn zeta. cbn [req_body].
    destruct (tradeDetails_fields (UI.panel s)) as (Fs & Fa & _).
    repeat split; try assumption.
    intros Hb Hs. rewrite Fa.
    apply in_app_or in I as [I | I]; [rewrite (Hb _ I) | rewrite (Hs _ I)]; discriminate.
  - intros results p Tr Ta B S.
    assert (E : TradingPanel.render results p = Ok TradingPanel.NoTrades).
    { unfold TradingPanel.render, TradingPanel.tradableRecommendations.
      rewrite Tr, Ta, B, S. reflexivity. }
    unfold TradingPanel.shows_controls, TradingPanel.execute_enabled.
    rewrite E. repeat split.
Qed.

Lemma only_buy_and_sell_are_offered_witness :
  let s := fst (UI.session Sample.base
                  [(UI.ClickRunAnalysis, [Resolved Sample.results]);
                   (UI.SelectStock "NVDA", [])] UI.initial) in
  TradingPanel.selectedStock (UI.panel s) = Sample.nvda
  /\ UI.reachable Sample.base s
  /\ exists buys sells rec,
       spread (prop (prop Sample.results "analysis") "buy_recommendations") = Ok buys
       /\ spread (prop (prop Sample.results "analysis") "sell_recommendations") = Ok sells
       /\ In rec (buys ++ sells)
       /\ VStr "NVDA" = prop rec "symbol".
Proof.
  intros s.
  assert (R : UI.reachable Sample.base s).
  { apply session_reachable. constructor. }
  split; [reflexivity | split; [exact R |]].
  destruct (proj1 (proj2 (proj2 (only_buy_and_sell_are_offered Sample.base)))
              s UI.ClickExecute _ R (emits_now _ _) eq_refl)
    as (buys & sells & rec & B & S & I & Es & _).
  exists buys, sells, rec. repeat split; assumption.
Defined.

(* ===================================================================== *)
(** * The shape of the analysis the components consume *)
(* ===================================================================== *)

(** Whatever the mapping holds, the components cannot render the
    result of analyze in the shape of its contract. *)
Lemma mapping_shape_throws a p s :
  TradingPanel.render (Core.Wire.analyze_response a) p
    = Throw (TypeError "value is not iterable")
  /\ AnalysisResults.render (Core.Wire.analyze_response a) s
     = Throw (TypeError "Cannot read properties of undefined: length").
Proof. split; reflexivity. Qed.

(** C6, as the claim states it, fails: in the symbol-keyed mapping of
    the contract NVDA is found under its key, and neither the trading
    panel nor the results view can render that analysis. *)
Lemma mapping_keyed_by_symbol_is_not_consumed :
  prop (prop (Core.Wire.analysis Sample.analysis) "recommendations") "NVDA"
    = Core.Wire.recommendation Sample.recommendation
  /\ TradingPanel.render (Core.Wire.analyze_response Sample.analysis) TradingPanel.initial
     = Throw (TypeError "value is not iterable")
  /\ AnalysisResults.render (Core.Wire.analyze_response Sample.analysis)
       AnalysisResults.initial
     = Throw (TypeError "Cannot read properties of undefined: length").
Proof.
  split; [vm_compute; reflexivity |].
  apply (mapping_shape_throws Sample.analysis).
Qed.

Lemma render_iterables results p v :
  TradingPanel.render results p = Ok v ->
  v = TradingPanel.Nothing
  \/ exists buys sells,
       spread (prop (prop results "analysis") "buy_recommendations") = Ok buys
       /\ spread (prop (prop results "analysis") "sell_recommendations") = Ok sells.
Proof.
  unfold TradingPanel.render.
  destruct (negb (truthy results) || negb (truthy (prop results "analysis"))).
  - intros H. injection H as <-. left. reflexivity.
  - destruct (TradingPanel.tradableRecommendations (prop results "analysis"))
      as [e | tr] eqn:T; [discriminate |].
    intros _. right.
    destruct (tradableRecommendations_inv _ _ T) as (buys & sells & B & S & _). eauto.
Qed.

(** C6, amended. The analysis reaches the components as three
    arrays grouped by action, buy_recommendations, sell_recommendations
    and hold_recommendations, next to the summary: the trading panel
    offers the first two in this order, the results view lists all
    three in this order, both need the arrays to render anything, and a
    [recommendations] field is never read. *)
Theorem analysis_is_three_arrays_by_action :
  forall buys sells holds summary rest,
    let analysis :=
      VObj (("buy_recommendations", VArr buys) :: ("sell_recommendations", VArr sells)
            :: ("hold_recommendations", VArr holds) :: ("summary", summary) :: rest) in
    let results := VObj [("success", VBool true); ("analysis", analysis)] in
    TradingPanel.tradableRecommendations analysis = Ok (buys ++ sells)
    /\ (forall s, nullish summary = false ->
          AnalysisResults.selectedTab s = "recommendations" ->
          AnalysisResults.render results s
          = rbind (AnalysisResults.render_cards s (buys ++ sells ++ holds))
              (fun cs => Ok (AnalysisResults.Results
                               (prop summary "buy_signals", prop summary "sell_signals",
                                prop summary "hold_signals") cs)))
    /\ (forall any p v, TradingPanel.render any p = Ok v ->
          v = TradingPanel.Nothing
          \/ exists bs ss,
               spread (prop (prop any "analysis") "buy_recommendations") = Ok bs
               /\ spread (prop (prop any "analysis") "sell_recommendations") = Ok ss)
    /\ (forall mapping fields,
          TradingPanel.tradableRecommendations (VObj (("recommendations", mapping) :: fields))
          = TradingPanel.tradableRecommendations (VObj fields)).
Proof.
  intros buys sells holds summary rest analysis results.
  split; [reflexivity |]. split; [| split].
  - intros s N T. unfold AnalysisResults.render.
    change (prop results "analysis") with analysis.
    change (truthy results) with true. change (truthy analysis) with true.
    cbn [negb orb].
    change (prop analysis "summary") with summary.
    change (prop analysis "buy_recommendations") with (VArr buys).
    change (prop analysis "sell_recommendations") with (VArr sells).
    change (prop analysis "hold_recommendations") with (VArr holds).
    unfold get. rewrite N, T. reflexivity.
  - apply render_iterables.
  - intros mapping fields. reflexivity.
Qed.

Lemma analysis_is_three_arrays_by_action_witness :
  AnalysisResults.render Sample.results AnalysisResults.initial
  = rbind (AnalysisResults.render_cards AnalysisResults.initial [Sample.nvda])
      (fun cs => Ok (AnalysisResults.Results (num 1, num 0, num 0) cs))
  /\ exists cs, AnalysisResults.render_cards AnalysisResults.initial [Sample.nvda] = Ok cs.
Proof.
  split.
  - exact (proj1 (proj2 (analysis_is_three_arrays_by_action
                           [Sample.nvda] [] []
                           (VObj [("buy_signals", num 1); ("sell_signals", num 0);
                                  ("hold_signals", num 0)]) []))
             AnalysisResults.initial eq_refl eq_refl).
  - eexists. reflexivity.
Defined.

(** C7, as the claim states it, fails: a recommendation laid out as
    in the data model, with its regime classification under [regime],
    gets a breakdown without any regime line. *)
Lemma regime_key_is_not_displayed :
  prop (prop (prop (Core.Wire.recommendation Sample.recommendation) "analysis_breakdown")
          "regime") "regime" = VStr "Bullish"
  /\ AnalysisResults.render_breakdown (Core.Wire.recommendation Sample.recommendation)
     = Ok [AnalysisResults.WalkForward (Fin ((1 # 100) * 100)) (Fin (3 # 2))].
Proof. split; reflexivity. Qed.

(** C7, amended. The breakdown of a card shows the regime
    classification stored under [regime_switching] (its [regime] and
    [confidence]) and the backtest stored under [walk_forward]; a
    [regime] field of the breakdown is not read. *)
Theorem breakdown_reads_regime_switching rec items :
  AnalysisResults.render_breakdown rec = Ok items ->
  let ab := prop rec "analysis_breakdown" in
  let rs := prop ab "regime_switching" in
  let wf := prop ab "walk_forward" in
  items
  = (if truthy ab && truthy rs
     then [AnalysisResults.RegimeAnalysis (prop rs "regime")
             (times (prop rs "confidence") (num 100))]
     else [])
    ++ (if truthy ab && truthy wf
        then [AnalysisResults.WalkForward (times (prop wf "expected_return") (num 100))
                (to_number (prop wf "sharpe_ratio"))]
        else [])
  /\ forall other x fields,
       AnalysisResults.render_breakdown
         (VObj (("analysis_breakdown", VObj (("regime", x) :: fields)) :: other))
       = AnalysisResults.render_breakdown
           (VObj (("analysis_breakdown", VObj fields) :: other)).
Proof.
  intros H ab rs wf. split; [| reflexivity].
  unfold AnalysisResults.render_breakdown in H. fold ab rs wf in H.
  destruct (truthy ab); cbn [andb].
  - destruct (truthy wf).
    + destruct (prop wf "sharpe_ratio"); try discriminate.
      injection H as <-. reflexivity.
    + injection H as <-. rewrite app_nil_r. reflexivity.
  - injection H as <-. reflexivity.
Qed.

Lemma breakdown_reads_regime_switching_witness :
  AnalysisResults.render_breakdown Sample.nvda_card
  = Ok [AnalysisResults.RegimeAnalysis (VStr "Bullish") (Fin ((2 # 3) * 100));
        AnalysisResults.WalkForward (Fin ((1 # 100) * 100)) (Fin (3 # 2))]
  /\ [AnalysisResults.RegimeAnalysis (VStr "Bullish") (Fin ((2 # 3) * 100));
      AnalysisResults.WalkForward (Fin ((1 # 100) * 100)) (Fin (3 # 2))]
     = [AnalysisResults.RegimeAnalysis (VStr "Bullish") (times (VNum (Fin (2 # 3))) (num 100))]
       ++ [AnalysisResults.WalkForward (times (VNum (Fin (1 # 100))) (num 100)) (Fin (3 # 2))].
Proof.
  split; [reflexivity |].
  exact (proj1 (breakdown_reads_regime_switching Sample.nvda_card _ eq_refl)).
Defined.

(* ===================================================================== *)
(** * The analysis core *)
(* ===================================================================== *)

Section CoreFacts.
Context {ch : Core.Choices}.
Import Core.
Local Open Scope Q_scope.

(** ** Walk-forward windows *)

Lemma windows_from_complete bars train_days test_days fuel : forall start,
  Forall (fun w =>
            WalkForwardOptimizer.train_end w
              = (WalkForwardOptimizer.train_start w + train_days)%nat
            /\ WalkForwardOptimizer.test_start w = WalkForwardOptimizer.train_end w
            /\ WalkForwardOptimizer.test_end w
               = (WalkForwardOptimizer.test_start w + test_days)%nat
            /\ (WalkForwardOptimizer.test_end w <= bars)%nat)
         (WalkForwardOptimizer.windows_from fuel start bars train_days test_days).
Proof.
  induction fuel as [| fuel IH]; intros start; cbn [WalkForwardOptimizer.windows_from].
  - constructor.
  - destruct (start + train_days + test_days <=? bars)%nat eqn:E; [| constructor].
    apply Nat.leb_le in E. constructor; [| apply IH].
    cbn. repeat split; lia.
Qed.

(** The list of windows ends because the next window does not fit,
    not because the fuel is spent. *)
Lemma windows_from_fuel bars train_days test_days fuel : forall start,
  (0 < test_days)%nat -> (bars - start <= fuel)%nat ->
  WalkForwardOptimizer.windows_from (S fuel) start bars train_days test_days
  = WalkForwardOptimizer.windows_from fuel start bars train_days test_days.
Proof.
  induction fuel as [| fuel IH]; intros start T F.
  - cbn [WalkForwardOptimizer.windows_from].
    destruct (start + train_days + test_days <=? bars)%nat eqn:E; [| reflexivity].
    apply Nat.leb_le in E. lia.
  - change (WalkForwardOptimizer.windows_from (S (S fuel)) start bars train_days test_days)
      with (if (start + train_days + test_days <=? bars)%nat
            then {| WalkForwardOptimizer.train_start := start;
                    WalkForwardOptimizer.train_end := (start + train_days)%nat;
                    WalkForwardOptimizer.test_start := (start + train_days)%nat;
                    WalkForwardOptimizer.test_end := (start + train_days + test_days)%nat |}
                 :: WalkForwardOptimizer.windows_from (S fuel) (start + test_days) bars
                      train_days test_days
            else []).
    cbn [WalkForwardOptimizer.windows_from].
    destruct (start + train_days + test_days <=? bars)%nat eqn:E; [| reflexivity].
    f_equal. apply IH; lia.
Qed.

Lemma windows_from_more_fuel bars train_days test_days fuel extra start :
  (0 < test_days)%nat -> (bars - start <= fuel)%nat ->
  WalkForwardOptimizer.windows_from (fuel + extra) start bars train_days test_days
  = WalkForwardOptimizer.windows_from fuel start bars train_days test_days.
Proof.
  intros T F. induction extra as [| extra IH].
  - rewrite Nat.add_0_r. reflexivity.
  - rewrite Nat.add_succ_r, windows_from_fuel by lia. exact IH.
Qed.

Lemma run_window_ranges series w :
  train_range (WalkForwardOptimizer.run_window series w)
    = (WalkForwardOptimizer.train_start w, WalkForwardOptimizer.train_end w)
  /\ test_range (WalkForwardOptimizer.run_window series w)
     = (WalkForwardOptimizer.test_start w, WalkForwardOptimizer.test_end w).
Proof.
  unfold WalkForwardOptimizer.run_window.
  destruct (apply_params _ _) as [ret trades]. split; reflexivity.
Qed.

Lemma evaluate_windows series train_days test_days :
  let ws := WalkForwardOptimizer.partition (length series) train_days test_days in
  WalkForwardOptimizer.evaluate series train_days test_days
  = (if (length ws <? 2)%nat then inl InsufficientWindowsError
     else inr (WalkForwardOptimizer.summarize test_days
                 (map (WalkForwardOptimizer.run_window series) ws))).
Proof. reflexivity. Qed.

End CoreFacts.

(** C4. On a series of 65 bars, evaluate with train_days = 30 and
    test_days = 5 succeeds with exactly 7 windows, each a full 30-bar
    train segment followed by a full 5-bar test segment inside the
    series; up to four more bars change nothing, the partial window
    they would start being dropped, and so does a larger bound on the
    number of windows; on a series of 32 bars evaluate fails with
    InsufficientWindowsError. *)
Theorem evaluate_65_bars_gives_7_windows (ch : Core.Choices)
    (series65 series32 : Core.PriceSeries) :
  length series65 = 65%nat -> length series32 = 32%nat ->
  (exists wf,
     Core.WalkForwardOptimizer.evaluate series65 30 5 = inr wf
     /\ length (Core.windows wf) = 7%nat
     /\ map Core.train_range (Core.windows wf)
        = [(0, 30); (5, 35); (10, 40); (15, 45); (20, 50); (25, 55); (30, 60)]%nat
     /\ map Core.test_range (Core.windows wf)
        = [(30, 35); (35, 40); (40, 45); (45, 50); (50, 55); (55, 60); (60, 65)]%nat)
  /\ (forall bars, (65 <= bars < 70)%nat ->
        Core.WalkForwardOptimizer.partition bars 30 5
        = Core.WalkForwardOptimizer.partition 65 30 5)
  /\ (forall extra,
        Core.WalkForwardOptimizer.windows_from (65 + extra) 0 65 30 5
        = Core.WalkForwardOptimizer.partition 65 30 5)
  /\ Core.WalkForwardOptimizer.evaluate series32 30 5 = inl Core.InsufficientWindowsError.
Proof.
  intros L65 L32. split; [| split; [| split]].
  - rewrite evaluate_windows, L65. cbv zeta.
    change (length (Core.WalkForwardOptimizer.partition 65 30 5) <? 2)%nat with false.
    cbv iota. eexists. split; [reflexivity |].
    cbn [Core.windows Core.WalkForwardOptimizer.summarize].
    rewrite !map_map.
    split; [rewrite length_map; reflexivity |].
    split.
    + erewrite map_ext; [| intros w; apply (proj1 (run_window_ranges series65 w))].
      reflexivity.
    + erewrite map_ext; [| intros w; apply (proj2 (run_window_ranges series65 w))].
      reflexivity.
  - intros bars B.
    assert (bars = 65 \/ bars = 66 \/ bars = 67 \/ bars = 68 \/ bars = 69)%nat
      as [-> | [-> | [-> | [-> | ->]]]] by lia; reflexivity.
  - intros extra. apply windows_from_more_fuel; lia.
  - rewrite evaluate_windows, L32. reflexivity.
Qed.

Lemma evaluate_65_bars_gives_7_windows_witness :
  (exists wf,
     Core.WalkForwardOptimizer.evaluate (ch := Sample.choices) (Sample.series 65) 30 5 = inr wf
     /\ length (Core.windows wf) = 7%nat)
  /\ Core.WalkForwardOptimizer.evaluate (ch := Sample.choices) (Sample.series 32) 30 5
     = inl Core.InsufficientWindowsError.
Proof.
  destruct (evaluate_65_bars_gives_7_windows Sample.choices
              (Sample.series 65) (Sample.series 32) eq_refl eq_refl)
    as ((wf & E & L & _) & _ & _ & F).
  split; [exists wf; split; assumption | exact F].
Defined.

Section RiskFacts.
Context {ch : Core.Choices}.
Import Core.
Local Open Scope Q_scope.

Lemma lt_false a b : a <= b -> RiskManager.lt b a = false.
Proof.
  intros H. unfold RiskManager.lt. apply negb_false_iff, Qle_bool_iff, H.
Qed.

Lemma lt_true a b : a < b -> RiskManager.lt a b = true.
Proof.
  intros H. unfold RiskManager.lt. apply negb_true_iff, not_true_is_false.
  intros L. apply Qle_bool_iff in L. apply (Qlt_not_le _ _ H L).
Qed.

Lemma blocked_balance_check account m a :
  m <= equity account -> RiskManager.balance_check account m a = a.
Proof. intros H. unfold RiskManager.balance_check. rewrite (lt_false _ _ H). reflexivity. Qed.

Lemma size_balance_check account m a :
  risk_position_size (RiskManager.balance_check account m a) = risk_position_size a
  /\ risk_position_value (RiskManager.balance_check account m a) = risk_position_value a.
Proof.
  unfold RiskManager.balance_check.
  destruct (RiskManager.lt (equity account) m); split; reflexivity.
Qed.

Lemma size_pdt_check account pdt a :
  risk_position_size (RiskManager.pdt_check account pdt a) = risk_position_size a
  /\ risk_position_value (RiskManager.pdt_check account pdt a) = risk_position_value a.
Proof.
  unfold RiskManager.pdt_check.
  destruct (pdt && RiskManager.lt (equity account) 25000 && (3 <? day_trade_count account + 1)%Z);
    split; reflexivity.
Qed.

(** The sizing step of the scenario. *)
Lemma sizing_scenario account sym proposed a :
  equity account == 10000 -> 1000 <= buying_power account ->
  RiskManager.sizing account sym BUY proposed 100 (1 # 10) a
  = RiskManager.size 10 100 a.
Proof.
  intros E B. unfold RiskManager.sizing.
  assert (M : Qmin ((1 # 10) * equity account) (buying_power account) / 100 == 10).
  { rewrite E. rewrite Q.min_l; [reflexivity |].
    apply Qle_trans with 1000; [apply Qle_lteq; right; reflexivity | exact B]. }
  rewrite (Qfloor_comp _ _ M). reflexivity.
Qed.

Lemma concentration_scenario account sym a :
  equity account == 10000 -> positions account !! sym = None ->
  0 <= concentration_tolerance ->
  risk_position_value a = inject_Z 10 * 100 ->
  RiskManager.concentration account sym BUY 100 (1 # 10) a = a.
Proof.
  intros E P T V. unfold RiskManager.concentration, RiskManager.held_value.
  rewrite P, V. rewrite lt_false; [reflexivity |].
  rewrite E. apply Qle_trans with ((1 # 10) + 0).
  - apply Qle_lteq. right. reflexivity.
  - apply Qplus_le_r. exact T.
Qed.

End RiskFacts.

(** C5. For a BUY on an account with 10,000 of equity and 10,000
    of cash, buying power not below the 1,000 that the fraction allows
    and no position in the symbol yet, with max_position_fraction 0.10
    and a last price of 100, assess returns position_size 10 and
    position_value 1,000; with the minimum balance met and the day-trade
    limit not reached, nothing is blocked and no warning is raised. *)
Theorem buy_sizing_scenario (ch : Core.Choices) (account : Core.AccountSnapshot)
    (sym : string) (proposed_quantity : Z) (min_account_balance : Q) (pdt : bool) :
  (Core.equity account == 10000)%Q -> (Core.cash account == 10000)%Q ->
  (1000 <= Core.buying_power account)%Q ->
  Core.positions account !! sym = None ->
  (0 <= Core.concentration_tolerance)%Q ->
  let a := Core.RiskManager.assess account sym Core.BUY proposed_quantity
             100 (1 # 10) min_account_balance pdt in
  Core.risk_position_size a = 10
  /\ (Core.risk_position_value a == 1000)%Q
  /\ Core.risk_position_size a
     = Qfloor (Qmin ((1 # 10) * Core.equity account) (Core.buying_power account) / 100)
  /\ ((min_account_balance <= 10000)%Q ->
      pdt = false \/ Core.day_trade_count account < 3 ->
      Core.blocked a = false /\ Core.risk_warnings a = []).
Proof.
  intros E _ B P T a. subst a. unfold Core.RiskManager.assess.
  rewrite (sizing_scenario account sym proposed_quantity _ E B).
  rewrite concentration_scenario; [| exact E | exact P | exact T | reflexivity].
  split; [| split; [| split]].
  - rewrite (proj1 (size_pdt_check _ _ _)). reflexivity.
  - rewrite (proj2 (size_pdt_check _ _ _)). reflexivity.
  - rewrite (proj1 (size_pdt_check _ _ _)). cbn [Core.RiskManager.size Core.risk_position_size].
    symmetry. apply Qfloor_comp with (y := 10%Q).
    rewrite E. rewrite Q.min_l; [reflexivity |].
    apply Qle_trans with 1000%Q; [apply Qle_lteq; right; reflexivity | exact B].
  - intros M D. rewrite blocked_balance_check by (rewrite E; exact M).
    unfold Core.RiskManager.pdt_check.
    assert (X : pdt && Core.RiskManager.lt (Core.equity account) 25000
                && (3 <? Core.day_trade_count account + 1) = false).
    { destruct D as [-> | D]; [reflexivity |].
      apply andb_false_iff. right. apply Z.ltb_ge. lia. }
    rewrite X. split; reflexivity.
Qed.

Lemma buy_sizing_scenario_witness :
  let a := Core.RiskManager.assess (ch := Sample.choices) Sample.account "NVDA" Core.BUY 0
             100 (1 # 10) 1000 true in
  Core.risk_position_size a = 10 /\ (Core.risk_position_value a == 1000)%Q
  /\ Core.blocked a = false.
Proof.
  assert (T : (0 <= Core.concentration_tolerance (Choices := Sample.choices))%Q).
  { vm_compute. discriminate. }
  assert (B : (1000 <= Core.buying_power Sample.account)%Q).
  { vm_compute. discriminate. }
  assert (M : (1000 <= 10000)%Q).
  { vm_compute. discriminate. }
  destruct (buy_sizing_scenario Sample.choices Sample.account "NVDA" 0 1000 true
              (Qeq_refl _) (Qeq_refl _) B eq_refl T) as (S & V & _ & K).
  split; [exact S | split; [exact V |]].
  apply K; [exact M | right; reflexivity].
Defined.

Section ConfidenceFacts.
Context {ch : Core.Choices}.
Import Core.
Local Open Scope Q_scope.

Lemma ratio_unit k n : (k <= n)%nat -> unit_interval (ratio k n).
Proof.
  intros H. unfold unit_interval, ratio. destruct n as [| n].
  - assert (k = 0)%nat as -> by lia. split; discriminate.
  - assert (P : 0 < inject_Z (Z.of_nat (S n))).
    { rewrite <- (Zlt_Qlt 0). lia. }
    split.
    + apply Qle_shift_div_l; [exact P |]. rewrite Qmult_0_l.
      rewrite <- (Zle_Qle 0). lia.
    + apply Qle_shift_div_r; [exact P |]. rewrite Qmult_1_l.
      rewrite <- Zle_Qle. lia.
Qed.

Lemma votes_for_le v table : (RegimeClassifier.votes_for v table <= length table)%nat.
Proof.
  unfold RegimeClassifier.votes_for. apply List.filter_length_le.
Qed.

Lemma aggregate_unit table :
  unit_interval (regime_confidence (RegimeClassifier.aggregate table)).
Proof. apply ratio_unit, votes_for_le. Qed.

Lemma classify_unit series periods rs :
  RegimeClassifier.classify series periods = inr rs -> unit_interval (regime_confidence rs).
Proof.
  unfold RegimeClassifier.classify.
  destruct (length series <? list_max periods + indicator_warmup)%nat; [discriminate |].
  intros H. injection H as <-. apply aggregate_unit.
Qed.

Lemma clip01_unit x : unit_interval (DecisionEngine.clip01 x).
Proof.
  unfold unit_interval, DecisionEngine.clip01. split.
  - apply Q.le_max_l.
  - apply Q.max_lub; [discriminate | apply Q.le_min_l].
Qed.

Lemma score_unit wf : unit_interval (DecisionEngine.walk_forward_score wf).
Proof.
  unfold DecisionEngine.walk_forward_score.
  destruct (clip01_unit (sharpe_ratio wf)) as [A1 A2].
  destruct (clip01_unit (win_rate wf)) as [B1 B2].
  unfold unit_interval. split.
  - apply Qle_shift_div_l; [reflexivity |]. lra.
  - apply Qle_shift_div_r; [reflexivity |]. lra.
Qed.

Lemma weighted_average_unit a b :
  weights_ok ch -> unit_interval a -> unit_interval b ->
  unit_interval (DecisionEngine.weighted_average a b).
Proof.
  intros (W1 & W2 & W) [A1 A2] [B1 B2]. unfold unit_interval, DecisionEngine.weighted_average.
  split.
  - apply Qle_shift_div_l; [exact W |]. nra.
  - apply Qle_shift_div_r; [exact W |]. nra.
Qed.

Lemma min_unit a b : unit_interval a -> unit_interval b -> unit_interval (Qmin a b).
Proof.
  intros [A1 A2] [B1 B2]. split.
  - apply Q.min_glb; assumption.
  - apply Qle_trans with a; [apply Q.le_min_l | exact A2].
Qed.

Lemma fuse_unit held rs wf :
  weights_ok ch -> unit_interval (regime_confidence rs) ->
  unit_interval (snd (fst (DecisionEngine.fuse held rs wf))).
Proof.
  intros W R. unfold DecisionEngine.fuse.
  destruct (_ && _ && _); cbn [fst snd].
  - apply weighted_average_unit; [exact W | exact R | apply score_unit].
  - apply min_unit; [exact R | apply score_unit].
Qed.

Lemma analyze_symbol_unit account config sym series :
  weights_ok ch ->
  unit_interval (confidence (DecisionEngine.analyze_symbol account config sym series)).
Proof.
  intros W. unfold DecisionEngine.analyze_symbol.
  destruct (RegimeClassifier.classify series (regime_periods config)) as [e | rs] eqn:C.
  { split; discriminate. }
  destruct (WalkForwardOptimizer.evaluate series _ _) as [e | wf].
  { split; discriminate. }
  pose proof (fuse_unit (bool_decide (is_Some (positions account !! sym))) rs wf W
                (classify_unit _ _ _ C)) as F.
  destruct (DecisionEngine.fuse _ rs wf) as [[act conf] why]. cbn [fst snd] in F.
  destruct act; [destruct (blocked _) | destruct (blocked _) |]; exact F.
Qed.

(** The results of a whole batch. *)
Lemma analyze_unit symbols series_by_symbol account config a sym r :
  weights_ok ch ->
  DecisionEngine.analyze symbols series_by_symbol account config = inr a ->
  DecisionEngine.recommendations a !! sym = Some r ->
  unit_interval (confidence r).
Proof.
  intros W. unfold DecisionEngine.analyze.
  destruct (DecisionEngine.config_ok config); [| discriminate].
  set (step := fun (acc : gmap string Recommendation * gmap string Failure) (s : string) => _).
  assert (G : forall l acc,
             (forall k x, fst acc !! k = Some x -> unit_interval (confidence x)) ->
             forall k x, fst (fold_left step l acc) !! k = Some x ->
                         unit_interval (confidence x)).
  { induction l as [| s l IH]; intros acc Hacc; cbn [fold_left]; [exact Hacc |].
    apply IH. intros k x. subst step. cbn beta.
    destruct (series_by_symbol !! s) as [series |]; cbn [fst]; [| apply Hacc].
    destruct (decide (s = k)) as [-> | N].
    - rewrite lookup_insert_eq. intros H. injection H as <-.
      apply analyze_symbol_unit, W.
    - rewrite lookup_insert_ne by exact N. apply Hacc. }
  specialize (G symbols (∅, ∅)).
  destruct (fold_left step symbols (∅, ∅)) as [recs failed]. cbn [fst] in G.
  intros H. injection H as <-. cbn [DecisionEngine.recommendations].
  apply G. intros k x. cbn [fst]. rewrite lookup_empty. discriminate.
Qed.

End ConfidenceFacts.

Lemma card_bar_width s (r : Core.Recommendation) c :
  AnalysisResults.renderRecommendationCard s (Core.Wire.recommendation r) = Ok c ->
  AnalysisResults.bar_width c = Fin (Core.confidence r * 100)
  /\ AnalysisResults.confidence_text c = Fin (Core.confidence r * 100).
Proof.
  unfold AnalysisResults.renderRecommendationCard.
  change (get (Core.Wire.recommendation r) "symbol") with (Ok (VStr (Core.symbol r))).
  cbn [rbind Ok].
  destruct (if strict_eq _ _ then _ else _) as [e | d]; [discriminate |].
  cbn [rbind]. intros H. injection H as <-. split; reflexivity.
Qed.

(** C1. Every recommendation that an analysis run assembles has a
    confidence between 0 and 1, whatever the account, the configuration
    and the price series, for one symbol and for a whole batch; the
    card and the option that show it unguarded therefore show a bar and
    a percentage between 0 and 100. *)
Theorem recommendation_confidence_in_unit_interval (ch : Core.Choices) :
  Core.weights_ok ch ->
  (forall account config sym series,
     let r := Core.DecisionEngine.analyze_symbol account config sym series in
     (0 <= Core.confidence r <= 1)%Q
     /\ (forall s c,
           AnalysisResults.renderRecommendationCard s (Core.Wire.recommendation r) = Ok c ->
           exists w, AnalysisResults.bar_width c = Fin w
                     /\ AnalysisResults.confidence_text c = Fin w
                     /\ (0 <= w <= 100)%Q)
     /\ (forall o,
           TradingPanel.render_option (Core.Wire.recommendation r) = Ok o ->
           exists w, TradingPanel.opt_confidence o = Fin w /\ (0 <= w <= 100)%Q))
  /\ (forall symbols series_by_symbol account config a sym r,
        Core.DecisionEngine.analyze symbols series_by_symbol account config = inr a ->
        Core.DecisionEngine.recommendations a !! sym = Some r ->
        (0 <= Core.confidence r <= 1)%Q).
Proof.
  intros W. split.
  - intros account config sym series r.
    destruct (analyze_symbol_unit account config sym series W) as [L U]. fold r in L, U.
    assert (P : (0 <= Core.confidence r * 100 <= 100)%Q) by (split; lra).
    split; [split; assumption |]. split.
    + intros s c H. destruct (card_bar_width s r c H) as [B T].
      exists (Core.confidence r * 100)%Q. auto.
    + intros o H. injection H as <-.
      exists (Core.confidence r * 100)%Q. split; [reflexivity | exact P].
  - intros symbols series_by_symbol account config a sym r A L.
    apply (analyze_unit symbols series_by_symbol account config a sym r W A L).
Qed.

Lemma recommendation_confidence_in_unit_interval_witness :
  Core.weights_ok Sample.choices
  /\ let r := Core.DecisionEngine.analyze_symbol (ch := Sample.choices) Sample.account
                Core.default_config "NVDA" (Sample.series 260) in
     Core.action r = Core.BUY /\ (0 <= Core.confidence r <= 1)%Q.
Proof.
  assert (W : Core.weights_ok Sample.choices).
  { repeat split; vm_compute; discriminate. }
  split; [exact W |]. intros r. split; [vm_compute; reflexivity |].
  exact (proj1 (proj1 (recommendation_confidence_in_unit_interval Sample.choices W)
                  Sample.account Core.default_config "NVDA" (Sample.series 260))).
Defined.

(* ===================================================================== *)
(** * How the handlers of App.js end *)
(* ===================================================================== *)

Lemma run_bind {A B} (m : Prog A) (f : A -> Prog B) script :
  run (bind m f) script
  = (fst (run (f (fst (run m script))) (drop (length (snd (run m script))) script)),
     snd (run m script)
     ++ snd (run (f (fst (run m script))) (drop (length (snd (run m script))) script))).
Proof.
  revert script. induction m as [a | q k IH]; intros script.
  - cbn [bind run fst snd length app]. rewrite drop_0.
    destruct (run (f a) script). reflexivity.
  - cbn [bind run]. rewrite IH.
    destruct (run (k _) (tail script)) as [a rs]. cbn [fst snd length].
    destruct script; cbn [tail drop]; [rewrite drop_nil |]; reflexivity.
Qed.


(** The answers of a script, case by case. *)
Ltac answers script :=
  let resp := fresh "resp" in
  let data := fresh "data" in
  let err := fresh "err" in
  destruct script as [| resp script]; [| destruct resp as [data | err]];
  cbn [Answer.first Answer.accepted Answer.data_of];
  try match goal with
      | data : value |- _ =>
          destruct (get data "success") as [? | ?] eqn:?;
          try match goal with
              | ok : value |- _ => destruct (truthy ok) eqn:?
              end
      end.


(** X2. Refreshing the account makes one request, the GET of
    /account, and never touches the analysis results, the
    configuration, the selection or the loading flag.  An accepted
    answer replaces the account, the positions and the risk summary and
    leaves the error banner as it was; an answer that says
    [success: false] changes nothing at all; a failed request keeps the
    account data and sets the error. *)
Theorem loadAccountData_outcome base s script :
  let s' := fst (run (App.loadAccountData base s) script) in
  snd (run (App.loadAccountData base s) script)
    = [Request GET (App.endpoint base "/account") VUndefined]
  /\ App.analysisResults s' = App.analysisResults s
  /\ App.config s' = App.config s
  /\ App.selectedSymbols s' = App.selectedSymbols s
  /\ App.loading s' = App.loading s
  /\ App.telegramStatus s' = App.telegramStatus s
  /\ (if Answer.accepted (Answer.first script)
      then App.account s' = prop (Answer.data_of (Answer.first script)) "account"
           /\ App.positions s' = prop (Answer.data_of (Answer.first script)) "positions"
           /\ App.riskSummary s' = prop (Answer.data_of (Answer.first script)) "risk_summary"
           /\ App.error s' = App.error s
      else App.account s' = App.account s
           /\ App.positions s' = App.positions s
           /\ App.riskSummary s' = App.riskSummary s
           /\ match Answer.first script with
              | Resolved data => if nullish data then truthy (App.error s') = true else s' = s
              | Rejected _ => truthy (App.error s') = true
              end).
Proof.
  unfold App.loadAccountData. cbn [run fst snd].
  answers script; cbn; repeat split; try reflexivity;
    match goal with
    | H : get ?d _ = _ |- _ => unfold get in H; destruct (nullish d); try discriminate
    end; reflexivity.
Qed.

(** X3. Loading the configuration makes one request, the GET of
    /config, and changes nothing but the configuration: a refused or
    failed request leaves the whole state as it was, without any error
    message, so that an analysis then asks for the default 60 days. *)
Theorem loadConfig_outcome base s script :
  let s' := fst (run (App.loadConfig base s) script) in
  snd (run (App.loadConfig base s) script)
    = [Request GET (App.endpoint base "/config") VUndefined]
  /\ (if Answer.accepted (Answer.first script)
      then s' = App.setConfig (prop (Answer.data_of (Answer.first script)) "config") s
      else s' = s)
  /\ (Answer.accepted (Answer.first script) = false ->
      prop (App.analyze_body s') "lookback_days"
      = prop (App.analyze_body s) "lookback_days")
  /\ (App.config s = VNull -> Answer.accepted (Answer.first script) = false ->
      prop (App.analyze_body s') "lookback_days" = num 60).
Proof.
  unfold App.loadConfig. cbn [run fst snd].
  answers script; cbn; repeat split; try reflexivity; try discriminate;
    intros C; try intros _; unfold App.analyze_body; cbn; rewrite C; reflexivity.
Qed.

Lemma loadConfig_outcome_witness :
  prop (App.analyze_body
          (fst (run (App.loadConfig Sample.base App.initial)
                  [Resolved (VObj [("success", VBool false)])])))
       "lookback_days" = num 60.
Proof.
  exact (proj2 (proj2 (proj2 (loadConfig_outcome Sample.base App.initial
                                [Resolved (VObj [("success", VBool false)])])))
           eq_refl eq_refl).
Defined.


Lemma run_loadAccountData base s script :
  snd (run (App.loadAccountData base s) script)
    = [Request GET (App.endpoint base "/account") VUndefined]
  /\ App.analysisResults (fst (run (App.loadAccountData base s) script))
     = App.analysisResults s.
Proof.
  unfold App.loadAccountData. cbn [run fst snd].
  answers script; split; reflexivity.
Qed.


Lemma run_executeTrade base tradeDetails s script :
  prop (snd (fst (run (App.executeTrade base tradeDetails s) script))) "success"
    = VBool (Answer.accepted (Answer.first script))
  /\ snd (run (App.executeTrade base tradeDetails s) script)
     = Request POST (App.endpoint base "/execute-trade") tradeDetails
       :: (if Answer.accepted (Answer.first script)
           then [Request GET (App.endpoint base "/account") VUndefined]
           else [])
  /\ App.analysisResults (fst (fst (run (App.executeTrade base tradeDetails s) script)))
     = App.analysisResults s.
Proof.
  unfold App.executeTrade. cbn [run].
  answers script; cbn [fst snd tail];
    try (cbn; repeat split; reflexivity).
  rewrite run_bind. destruct (run_loadAccountData base s script) as (R & A).
  rewrite R. cbn [fst snd run app length]. repeat split. exact A.
Qed.

(* ===================================================================== *)
(** * The trading panel, step by step *)
(* ===================================================================== *)


Lemma filter_none {A} (f : A -> bool) l :
  (forall x, In x l -> f x = false) -> List.filter f l = [].
Proof.
  induction l as [| x l IH]; intros H; cbn [List.filter]; [reflexivity |].
  rewrite (H x (or_introl eq_refl)). apply IH. intros y I. apply H. right. exact I.
Qed.

Lemma run_handleExecute_requests base a p script :
  snd (run (TradingPanel.handleExecute (App.executeTrade base) a p) script)
  = if truthy (TradingPanel.selectedStock p)
    then Request POST (App.endpoint base "/execute-trade") (TradingPanel.tradeDetails p)
         :: (if Answer.accepted (Answer.first script)
             then [Request GET (App.endpoint base "/account") VUndefined]
             else [])
    else [].
Proof.
  unfold TradingPanel.handleExecute.
  destruct (truthy (TradingPanel.selectedStock p)); cbn [negb]; [| reflexivity].
  rewrite run_bind. destruct (run_executeTrade base (TradingPanel.tradeDetails p) a script)
    as (_ & R & _).
  rewrite R. cbn [run snd]. apply app_nil_r.
Qed.

Lemma dispatch_orders base e s script :
  (length (List.filter (UI.is_execute_trade base) (snd (run (UI.dispatch base e s) script)))
   <= match e with UI.ClickExecute => 1 | _ => 0 end)%nat.
Proof.
  destruct e;
    try (match goal with
         | |- (length ?l <= 0)%nat =>
             assert (E : l = []); [| rewrite E; reflexivity]
         end;
         apply filter_none;
         intros r I; apply not_true_is_false; intros X;
         apply run_emits in I;
         destruct (dispatch_execute_trade base _ s r I X) as (E & _); discriminate).
  unfold UI.dispatch. destruct (UI.execute_enabled s); [| cbn; lia].
  rewrite run_bind.
  pose proof (run_handleExecute_requests base (UI.app s) (UI.panel s) script) as H.
  destruct (run (TradingPanel.handleExecute _ (UI.app s) (UI.panel s)) script) as [[[a p] armed] rs].
  cbn [fst snd] in *. cbn [run snd]. rewrite app_nil_r. subst rs.
  destruct (truthy (TradingPanel.selectedStock (UI.panel s))).
  - cbn [List.filter].
    destruct (UI.is_execute_trade base _);
      destruct (Answer.accepted _); cbn [List.filter length];
      try rewrite is_execute_trade_account; cbn; lia.
  - cbn. lia.
Qed.

(** X7. One click, at most one order: along any session, with any
    answers of the server, the requests to /execute-trade are at most
    as many as the clicks on Execute. *)
Theorem session_orders_bounded_by_clicks base es : forall s,
  (length (List.filter (UI.is_execute_trade base)
             (concat (map snd (snd (UI.session base es s)))))
   <= length (List.filter (fun x => match fst x with UI.ClickExecute => true | _ => false end)
                es))%nat.
Proof.
  induction es as [| [e script] es IH]; intros s; cbn [UI.session].
  - reflexivity.
  - pose proof (dispatch_orders base e s script) as D.
    destruct (run (UI.dispatch base e s) script) as [s1 rs]. cbn [snd] in D.
    specialize (IH s1). destruct (UI.session base es s1) as [s2 log].
    cbn [snd map concat fst List.filter] in *.
    rewrite List.filter_app, length_app.
    destruct e; cbn [length] in *; lia.
Qed.

Lemma no_selection_no_execute results p :
  truthy (TradingPanel.selectedStock p) = false ->
  TradingPanel.execute_enabled results p = false.
Proof.
  intros T. destruct (TradingPanel.execute_enabled results p) eqn:E; [| reflexivity].
  apply execute_enabled_inv in E as (_ & T' & _). congruence.
Qed.

Lemma ui_no_selection_no_execute s :
  truthy (TradingPanel.selectedStock (UI.panel s)) = false -> UI.execute_enabled s = false.
Proof.
  intros T. unfold UI.execute_enabled.
  rewrite (no_selection_no_execute _ _ T). apply andb_false_r.
Qed.

(** X8. After an analysis run, after Cancel and after the timer of
    an accepted trade has fired for the panel on display, no stock is
    selected: the Execute button is not available, and a click on it
    requests nothing, until the user selects a stock again. *)
Theorem fresh_selection_needed base e s s' :
  returns (UI.dispatch base e s) s' ->
  match e with
  | UI.ClickRunAnalysis => App.run_analysis_disabled (UI.app s) = false
  | UI.ClickCancel => UI.cancel_enabled s = true
  | UI.TradeTimer => head (UI.trade_timers s) = Some (UI.panel_instance s)
  | _ => False
  end ->
  TradingPanel.selectedStock (UI.panel s') = VNull
  /\ UI.execute_enabled s' = false
  /\ forall r, ~ emits (UI.dispatch base UI.ClickExecute s') r.
Proof.
  intros H G.
  assert (N : TradingPanel.selectedStock (UI.panel s') = VNull).
  { destruct e; try contradiction; unfold UI.dispatch in H.
    - rewrite G in H. apply returns_bind_inv in H as (a & _ & H). settle. reflexivity.
    - rewrite G in H. settle. reflexivity.
    - destruct (UI.trade_timers s) as [| i rest]; [discriminate |].
      injection G as ->. apply returns_bind_inv in H as (a & _ & H). settle.
      cbn. rewrite Nat.eqb_refl. reflexivity. }
  assert (X : UI.execute_enabled s' = false).
  { apply ui_no_selection_no_execute. rewrite N. reflexivity. }
  repeat split; [exact N | exact X |].
  intros r E. unfold UI.dispatch in E. rewrite X in E. settle.
Qed.

Lemma fresh_selection_needed_witness :
  let s' := fst (run (UI.dispatch Sample.base UI.ClickCancel Sample.page) []) in
  UI.execute_enabled Sample.page = true /\ UI.execute_enabled s' = false.
Proof.
  intros s'. split; [reflexivity |].
  exact (proj1 (proj2 (fresh_selection_needed Sample.base UI.ClickCancel Sample.page s'
                         (run_returns _ _) eq_refl))).
Defined.

Lemma render_options_nonnull recs : forall os,
  TradingPanel.render_options recs = Ok os -> Forall (fun r => nullish r = false) recs.
Proof.
  induction recs as [| x recs IH]; cbn [TradingPanel.render_options]; intros os H.
  - constructor.
  - unfold TradingPanel.render_option, get in H.
    destruct (nullish x) eqn:N; [discriminate |]. cbn [rbind Ok] in H.
    destruct (TradingPanel.render_options recs) as [e | os']; [discriminate |].
    constructor; [exact N | eapply IH; reflexivity].
Qed.

Lemma find_first v l1 x l2 :
  Forall (fun y => nullish y = false /\ strict_eq_str (prop y "symbol") v = false) l1 ->
  nullish x = false -> strict_eq_str (prop x "symbol") v = true ->
  find (has_symbol v) (l1 ++ x :: l2) = Ok x.
Proof.
  intros F N M. induction F as [| y l1 [Ny My] _ IH]; cbn [app find].
  - unfold has_symbol, get. rewrite N. cbn [rbind Ok]. rewrite M. reflexivity.
  - unfold has_symbol at 1. unfold get. rewrite Ny. cbn [rbind Ok]. rewrite My. exact IH.
Qed.

Lemma find_none v l :
  Forall (fun y => nullish y = false /\ strict_eq_str (prop y "symbol") v = false) l ->
  find (has_symbol v) l = Ok VUndefined.
Proof.
  induction 1 as [| y l [Ny My] _ IH]; cbn [find]; [reflexivity |].
  unfold has_symbol at 1. unfold get. rewrite Ny. cbn [rbind Ok]. rewrite My. exact IH.
Qed.

Lemma find_total v l :
  Forall (fun y => nullish y = false) l -> exists x, find (has_symbol v) l = Ok x.
Proof.
  induction 1 as [| y l Ny _ [x IH]]; cbn [find]; [eauto |].
  unfold has_symbol at 1. unfold get. rewrite Ny. cbn [rbind Ok].
  destruct (strict_eq_str (prop y "symbol") v); eauto.
Qed.

(** X9. The select picks the first recommendation, buys before
    sells, whose symbol is the chosen one, so a symbol listed twice
    always selects its first entry; a value that matches no symbol
    (the placeholder option) selects nothing.  Either way the typed
    quantity, the limit price and the last trade result are reset, and
    the order type is kept. *)
Theorem selectStock_first_match analysis v p tr :
  TradingPanel.tradableRecommendations analysis = Ok tr ->
  let p' := TradingPanel.selectStock analysis v p in
  (forall l1 x l2,
     tr = l1 ++ x :: l2 ->
     Forall (fun y => nullish y = false /\ strict_eq_str (prop y "symbol") v = false) l1 ->
     nullish x = false -> strict_eq_str (prop x "symbol") v = true ->
     TradingPanel.selectedStock p' = x)
  /\ (Forall (fun y => nullish y = false /\ strict_eq_str (prop y "symbol") v = false) tr ->
      TradingPanel.selectedStock p' = VUndefined)
  /\ (Forall (fun y => nullish y = false) tr ->
      TradingPanel.customQuantity p' = EmptyString
      /\ TradingPanel.limitPrice p' = EmptyString
      /\ TradingPanel.tradeResult p' = VNull
      /\ TradingPanel.orderType p' = TradingPanel.orderType p
      /\ TradingPanel.executing p' = TradingPanel.executing p).
Proof.
  intros T p'. subst p'. unfold TradingPanel.selectStock. rewrite T. cbn [rbind Ok].
  change (fun r : value => rbind (get r "symbol") (fun sym => Ok (strict_eq_str sym v)))
    with (has_symbol v).
  split; [| split].
  - intros l1 x l2 -> F N M. rewrite (find_first v l1 x l2 F N M). reflexivity.
  - intros F. rewrite (find_none v tr F). reflexivity.
  - intros F. destruct (find_total v tr F) as [x ->]. repeat split.
Qed.

Lemma selectStock_first_match_witness :
  let buy := VObj [("symbol", VStr "NVDA"); ("action", VStr "BUY")] in
  let sell := VObj [("symbol", VStr "NVDA"); ("action", VStr "SELL")] in
  let analysis := VObj [("buy_recommendations", VArr [Sample.nvda_card; buy]);
                        ("sell_recommendations", VArr [sell])] in
  TradingPanel.selectedStock
    (TradingPanel.selectStock analysis "NVDA" Sample.limit_order) = Sample.nvda_card
  /\ TradingPanel.limitPrice
       (TradingPanel.selectStock analysis "NVDA" Sample.limit_order) = EmptyString.
Proof.
  intros buy sell analysis.
  destruct (selectStock_first_match analysis "NVDA" Sample.limit_order
              [Sample.nvda_card; buy; sell] eq_refl) as (F & _ & R).
  split.
  - apply (F [] Sample.nvda_card [buy; sell] eq_refl); [constructor | reflexivity | reflexivity].
  - apply R. repeat constructor.
Defined.

Lemma selectStock_resets analysis v p tr :
  TradingPanel.tradableRecommendations analysis = Ok tr ->
  Forall (fun y => nullish y = false) tr ->
  TradingPanel.limitPrice (TradingPanel.selectStock analysis v p) = EmptyString
  /\ TradingPanel.orderType (TradingPanel.selectStock analysis v p) = TradingPanel.orderType p.
Proof.
  intros T F. unfold TradingPanel.selectStock. rewrite T. cbn [rbind Ok].
  change (fun r : value => rbind (get r "symbol") (fun sym => Ok (strict_eq_str sym v)))
    with (has_symbol v).
  destruct (find_total v tr F) as [x ->]. split; reflexivity.
Qed.

Lemma execute_needs_controls s : UI.execute_enabled s = true -> UI.panel_controls s = true.
Proof.
  unfold UI.execute_enabled, UI.panel_controls. intros H.
  apply andb_true_iff in H as [P E]. rewrite P. cbn [andb].
  unfold TradingPanel.execute_enabled in E. unfold TradingPanel.shows_controls.
  destruct (TradingPanel.render _ _) as [e | [| | os d]]; try discriminate. reflexivity.
Qed.

Lemma panel_controls_inv s :
  UI.panel_controls s = true ->
  exists tr,
    TradingPanel.tradableRecommendations (prop (App.analysisResults (UI.app s)) "analysis")
      = Ok tr
    /\ Forall (fun r => nullish r = false) tr.
Proof.
  unfold UI.panel_controls, TradingPanel.shows_controls, TradingPanel.render.
  intros H. apply andb_true_iff in H as [_ H].
  destruct (negb _ || negb _); [discriminate |].
  destruct (TradingPanel.tradableRecommendations _) as [e | tr]; [discriminate |].
  exists tr. split; [reflexivity |].
  destruct tr as [| x tr]; [constructor |]. cbn [rbind] in H.
  destruct (TradingPanel.render_options (x :: tr)) as [e | os] eqn:E; [discriminate |].
  eapply render_options_nonnull, E.
Qed.

(** X10. Choosing a stock while 'Limit Order' is the order type
    empties the limit price and keeps the order type, so the Execute
    button is not available right after the choice: a limit order can
    only be sent with a price typed for the stock on display. *)
Theorem select_with_limit_disables_execute base v s s' :
  returns (UI.dispatch base (UI.SelectStock v) s) s' ->
  TradingPanel.is_limit (UI.panel s) = true ->
  UI.execute_enabled s' = false
  /\ forall r, ~ emits (UI.dispatch base UI.ClickExecute s') r.
Proof.
  intros H L.
  assert (X : UI.execute_enabled s' = false).
  { unfold UI.dispatch in H. destruct (UI.panel_controls s) eqn:PC.
    - settle. destruct (panel_controls_inv s PC) as (tr & T & F).
      destruct (selectStock_resets _ v (UI.panel s) tr T F) as (Lp & Ot).
      destruct (UI.execute_enabled _) eqn:E; [| reflexivity].
      unfold UI.execute_enabled in E. apply andb_true_iff in E as [_ E].
      apply execute_enabled_inv in E as (D & _).
      unfold TradingPanel.executeDisabled, TradingPanel.is_limit in D.
      cbn [UI.panel UI.with_panel] in D. rewrite Lp, Ot in D.
      unfold TradingPanel.is_limit in L. rewrite L in D.
      cbn in D. rewrite orb_true_r in D. discriminate.
    - settle. destruct (UI.execute_enabled s) eqn:E; [| reflexivity].
      rewrite (execute_needs_controls s E) in PC. discriminate. }
  split; [exact X |].
  intros r E. unfold UI.dispatch in E. rewrite X in E. settle.
Qed.

Lemma select_with_limit_disables_execute_witness :
  UI.execute_enabled Sample.page = true
  /\ UI.execute_enabled
       (fst (run (UI.dispatch Sample.base (UI.SelectStock "NVDA") Sample.page) [])) = false.
Proof.
  split; [reflexivity |].
  exact (proj1 (select_with_limit_disables_execute Sample.base "NVDA" Sample.page _
                  (run_returns _ _) eq_refl)).
Defined.

(* ===================================================================== *)
(** * The quantity of a trade *)
(* ===================================================================== *)










(* ===================================================================== *)
(** * The cards of the results view *)
(* ===================================================================== *)

Lemma renderRecommendationCard_inv st r c :
  AnalysisResults.renderRecommendationCard st r = Ok c ->
  nullish r = false
  /\ AnalysisResults.card_symbol c = prop r "symbol"
  /\ AnalysisResults.card_action c = prop r "action"
  /\ AnalysisResults.bar_width c = times (prop r "confidence") (num 100)
  /\ (is_Some (AnalysisResults.card_details c)
      <-> strict_eq (AnalysisResults.expandedStock st) (prop r "symbol") = true).
Proof.
  unfold AnalysisResults.renderRecommendationCard, get.
  destruct (nullish r); [discriminate |]. cbn [rbind Ok].
  destruct (strict_eq (AnalysisResults.expandedStock st) (prop r "symbol")).
  - destruct (AnalysisResults.render_details r) as [e | d]; [discriminate |].
    cbn. intros H. injection H as <-. cbn. repeat split; eauto.
  - cbn. intros H. injection H as <-. cbn. repeat split; try discriminate.
    intros [x X]. discriminate.
Qed.

(** X12. When the list of cards renders, there is one card per
    recommendation, in the order of the list, with the symbol, the
    action and the confidence bar of its recommendation; a card shows
    its details exactly when its symbol is the expanded one, so cards
    that share a symbol open and close together. *)
Theorem cards_follow_recommendations st recs : forall cs,
  AnalysisResults.render_cards st recs = Ok cs ->
  Forall2 (fun r c =>
             nullish r = false
             /\ AnalysisResults.card_symbol c = prop r "symbol"
             /\ AnalysisResults.card_action c = prop r "action"
             /\ AnalysisResults.bar_width c = times (prop r "confidence") (num 100)
             /\ (is_Some (AnalysisResults.card_details c)
                 <-> strict_eq (AnalysisResults.expandedStock st) (prop r "symbol") = true))
          recs cs.
Proof.
  induction recs as [| r recs IH]; cbn [AnalysisResults.render_cards]; intros cs H.
  - injection H as <-. constructor.
  - destruct (AnalysisResults.renderRecommendationCard st r) as [e | c] eqn:C;
      [discriminate |]. cbn [rbind] in H.
    destruct (AnalysisResults.render_cards st recs) as [e | cs']; [discriminate |].
    cbn in H. injection H as <-.
    constructor; [apply renderRecommendationCard_inv, C | apply IH; reflexivity].
Qed.

Lemma cards_follow_recommendations_witness :
  exists cs,
    AnalysisResults.render_cards AnalysisResults.initial [Sample.nvda; Sample.nvda_card] = Ok cs
    /\ length cs = 2%nat.
Proof.
  eexists. split; [reflexivity |].
  apply eq_sym, (Forall2_length _ _ _
    (cards_follow_recommendations AnalysisResults.initial [Sample.nvda; Sample.nvda_card]
       _ eq_refl)).
Defined.










Lemma strict_eq_string v s : strict_eq v (VStr s) = true <-> v = VStr s.
Proof.
  destruct v as [| | b | [| n | q] | t | xs | fs]; cbn; split;
    try discriminate; try (intros H; apply String.eqb_eq in H; congruence).
  intros H. injection H as ->. apply String.eqb_refl.
Qed.

(** X15. A click on the header of a card whose symbol is a string
    opens the cards of that symbol and closes every other card, or
    closes them all when that symbol was the open one: among cards with
    string symbols at most one symbol is open at a time, and a second
    click on the same header closes it again.  The tab is not changed. *)
Theorem click_opens_one_symbol st s recs : forall cs,
  Forall (fun r => exists t, prop r "symbol" = VStr t) recs ->
  AnalysisResults.render_cards (AnalysisResults.toggleExpanded (VStr s) st) recs = Ok cs ->
  Forall2 (fun r c =>
             is_Some (AnalysisResults.card_details c)
             <-> prop r "symbol" = VStr s /\ AnalysisResults.expandedStock st <> VStr s)
          recs cs
  /\ AnalysisResults.selectedTab (AnalysisResults.toggleExpanded (VStr s) st)
     = AnalysisResults.selectedTab st
  /\ (AnalysisResults.expandedStock st <> VStr s ->
      AnalysisResults.expandedStock
        (AnalysisResults.toggleExpanded (VStr s)
           (AnalysisResults.toggleExpanded (VStr s) st)) = VNull).
Proof.
  intros cs F H. split; [| split; [reflexivity |]].
  - revert cs H. induction F as [| r recs [t E] _ IH]; intros cs H;
      cbn [AnalysisResults.render_cards] in H.
    + injection H as <-. constructor.
    + destruct (AnalysisResults.renderRecommendationCard _ r) as [e | c] eqn:C;
        [discriminate |]. cbn [rbind] in H.
      destruct (AnalysisResults.render_cards _ recs) as [e | cs']; [discriminate |].
      cbn in H. injection H as <-. constructor; [| apply IH; reflexivity].
      destruct (renderRecommendationCard_inv _ _ _ C) as (_ & _ & _ & _ & D).
      rewrite D, E. unfold AnalysisResults.toggleExpanded. cbn [AnalysisResults.expandedStock].
      destruct (strict_eq (AnalysisResults.expandedStock st) (VStr s)) eqn:X.
      * apply strict_eq_string in X. cbn. split; [discriminate | intros [_ A]; contradiction].
      * rewrite strict_eq_string. split.
        -- intros Y. injection Y as ->. split; [reflexivity |].
           intros Z. apply strict_eq_string in Z. congruence.
        -- intros [Y _]. injection Y as ->. reflexivity.
  - intros A. unfold AnalysisResults.toggleExpanded. cbn [AnalysisResults.expandedStock].
    destruct (strict_eq (AnalysisResults.expandedStock st) (VStr s)) eqn:X.
    + apply strict_eq_string in X. contradiction.
    + cbn [strict_eq]. rewrite String.eqb_refl. reflexivity.
Qed.

Lemma click_opens_one_symbol_witness :
  exists cs,
    AnalysisResults.render_cards
      (AnalysisResults.toggleExpanded (VStr "NVDA") AnalysisResults.initial)
      [Sample.nvda] = Ok cs
    /\ Forall2 (fun r c =>
                  is_Some (AnalysisResults.card_details c)
                  <-> prop r "symbol" = VStr "NVDA"
                      /\ AnalysisResults.expandedStock AnalysisResults.initial <> VStr "NVDA")
               [Sample.nvda] cs.
Proof.
  eexists. split; [reflexivity |].
  refine (proj1 (click_opens_one_symbol AnalysisResults.initial "NVDA" [Sample.nvda]
                   _ _ eq_refl)).
  repeat constructor. exists "NVDA". reflexivity.
Defined.

(* ===================================================================== *)
(** * The stock selector *)
(* ===================================================================== *)

Lemma includes_In l s : StockSelector.includes l s = true <-> In s l.
Proof.
  unfold StockSelector.includes. rewrite existsb_exists. split.
  - intros (x & I & E). apply String.eqb_eq in E. subst. exact I.
  - intros I. exists s. split; [exact I | apply String.eqb_refl].
Qed.

Lemma includes_false l s : StockSelector.includes l s = false <-> ~ In s l.
Proof.
  rewrite <- includes_In. destruct (StockSelector.includes l s); split; congruence.
Qed.

Lemma toggleSymbol_In l s t :
  In t (StockSelector.toggleSymbol l s) <-> (t = s /\ ~ In s l) \/ (t <> s /\ In t l).
Proof.
  unfold StockSelector.toggleSymbol. destruct (StockSelector.includes l s) eqn:E.
  - apply includes_In in E. rewrite List.filter_In, negb_true_iff, String.eqb_neq.
    split; [intros [I N]; right; auto | intros [[-> N] | [N I]]; [contradiction | auto]].
  - apply includes_false in E. rewrite in_app_iff. cbn [In]. split.
    + intros [I | [<- | []]]; [right | left; auto].
      split; [intros -> | exact I]. contradiction.
    + intros [[-> _] | [_ I]]; auto.
Qed.

Lemma toggleSymbol_NoDup l s : List.NoDup l -> List.NoDup (StockSelector.toggleSymbol l s).
Proof.
  intros N. unfold StockSelector.toggleSymbol. destruct (StockSelector.includes l s) eqn:E.
  - apply List.NoDup_filter, N.
  - apply includes_false in E. apply List.NoDup_app; [exact N | repeat constructor; intros [] |].
    intros x I [<- | []]. contradiction.
Qed.

(** X16. A click on a chip flips the membership of its symbol in
    the selection and of no other symbol, and never creates a
    duplicate.  Switching a symbol on and off again gives back the
    selection; switching it off and on again moves it to the end of the
    selection, which is the order of the symbols in the analyze request. *)
Theorem toggleSymbol_flips_one l s :
  (forall t, StockSelector.includes (StockSelector.toggleSymbol l s) t
             = if String.eqb t s then negb (StockSelector.includes l s)
               else StockSelector.includes l t)
  /\ (List.NoDup l -> List.NoDup (StockSelector.toggleSymbol l s))
  /\ (~ In s l ->
      StockSelector.toggleSymbol (StockSelector.toggleSymbol l s) s = l)
  /\ (In s l ->
      StockSelector.toggleSymbol (StockSelector.toggleSymbol l s) s
      = List.filter (fun x => negb (String.eqb x s)) l ++ [s]).
Proof.
  split; [| split; [apply toggleSymbol_NoDup | split]].
  - intros t. destruct (String.eqb_spec t s) as [-> | N].
    + destruct (StockSelector.includes l s) eqn:E; cbn [negb].
      * apply includes_false. rewrite toggleSymbol_In. apply includes_In in E. tauto.
      * apply includes_In. rewrite toggleSymbol_In. apply includes_false in E. tauto.
    + destruct (StockSelector.includes l t) eqn:E.
      * apply includes_In. rewrite toggleSymbol_In. apply includes_In in E. tauto.
      * apply includes_false. rewrite toggleSymbol_In. apply includes_false in E. tauto.
  - intros N. unfold StockSelector.toggleSymbol at 2.
    rewrite (proj2 (includes_false l s) N).
    unfold StockSelector.toggleSymbol.
    rewrite (proj2 (includes_In (l ++ [s]) s)) by (apply in_app_iff; right; left; reflexivity).
    rewrite List.filter_app. cbn [List.filter]. rewrite String.eqb_refl. cbn [negb].
    rewrite app_nil_r. clear - N. induction l as [| x l IH]; [reflexivity |].
    cbn [List.filter]. destruct (String.eqb_spec x s) as [-> | D].
    + destruct N. left. reflexivity.
    + cbn [negb]. f_equal. apply IH. intros I. apply N. right. exact I.
  - intros I. unfold StockSelector.toggleSymbol at 2.
    rewrite (proj2 (includes_In l s) I).
    unfold StockSelector.toggleSymbol.
    rewrite (proj2 (includes_false _ s)); [reflexivity |].
    rewrite List.filter_In, String.eqb_refl. intros [_ X]. discriminate.
Qed.

Lemma toggleSymbol_flips_one_witness :
  StockSelector.toggleSymbol
    (StockSelector.toggleSymbol StockSelector.DEFAULT_STOCKS "MSFT") "MSFT"
  = ["NVDA"; "AMZN"; "GOOGL"; "TSLA"; "UNH"; "CRWD"; "V"; "ASML"; "PLTR"; "MSFT"].
Proof.
  refine (proj2 (proj2 (proj2 (toggleSymbol_flips_one StockSelector.DEFAULT_STOCKS "MSFT")))
            _).
  cbn. tauto.
Defined.

Lemma step_NoDup e x : List.NoDup (fst x) -> List.NoDup (fst (StockSelector.step e x)).
Proof.
  destruct x as [l s]. cbn [fst]. intros N.
  destruct e; cbn [StockSelector.step].
  - destruct (StockSelector.includes StockSelector.DEFAULT_STOCKS symbol); cbn [fst];
      [apply toggleSymbol_NoDup, N | exact N].
  - exact N.
  - unfold StockSelector.addCustomSymbol.
    destruct (truthy _ && negb (StockSelector.includes l _)) eqn:E; cbn [fst]; [| exact N].
    apply andb_true_iff in E as [_ E]. apply negb_true_iff, includes_false in E.
    apply List.NoDup_app; [exact N | repeat constructor; intros [] |].
    intros x I [<- | []]. contradiction.
  - unfold StockSelector.addCustomSymbol.
    destruct (truthy _ && negb (StockSelector.includes l _)) eqn:E; cbn [fst]; [| exact N].
    apply andb_true_iff in E as [_ E]. apply negb_true_iff, includes_false in E.
    apply List.NoDup_app; [exact N | repeat constructor; intros [] |].
    intros x I [<- | []]. contradiction.
  - cbn [fst]. unfold StockSelector.selectAll, StockSelector.DEFAULT_STOCKS.
    repeat (constructor; [cbn; intuition discriminate |]). constructor.
  - constructor.
Qed.

(** X17. Whatever the user does in the selector, starting from the
    default selection, no symbol is ever selected twice and the empty
    symbol is never selected: an analyze request lists each chosen
    symbol once. *)
Theorem selection_has_no_duplicates es base s :
  let l := fst (StockSelector.steps es (App.selectedSymbols App.initial, StockSelector.initial)) in
  List.NoDup l
  /\ ~ In EmptyString l
  /\ prop (App.analyze_body (App.setSelectedSymbols l s)) "symbols" = VArr (map VStr l)
  /\ forall r, emits (App.runAnalysis base (App.setSelectedSymbols l s)) r ->
               prop (req_body r) "symbols" = VArr (map VStr l).
Proof.
  intros l.
  assert (G : forall es x, List.NoDup (fst x) /\ ~ In EmptyString (fst x) ->
              List.NoDup (fst (StockSelector.steps es x))
              /\ ~ In EmptyString (fst (StockSelector.steps es x))).
  { clear. induction es as [| e es IH]; intros x [N E]; cbn [StockSelector.steps fold_left].
    - split; assumption.
    - apply IH. split; [apply step_NoDup, N |].
      destruct x as [l s]. cbn [fst] in *. destruct e; cbn [StockSelector.step].
      + destruct (StockSelector.includes StockSelector.DEFAULT_STOCKS symbol) eqn:D;
          cbn [fst]; [| exact E].
        rewrite toggleSymbol_In. intros [[<- _] | [_ I]]; [discriminate | contradiction].
      + exact E.
      + unfold StockSelector.addCustomSymbol.
        destruct (truthy (VStr _)) eqn:T; cbn [andb]; [| exact E].
        destruct (negb _); cbn [fst]; [| exact E].
        rewrite in_app_iff. cbn [In]. intros [I | [X | []]]; [contradiction |].
        rewrite X in T. discriminate.
      + unfold StockSelector.addCustomSymbol.
        destruct (truthy (VStr _)) eqn:T; cbn [andb]; [| exact E].
        destruct (negb _); cbn [fst]; [| exact E].
        rewrite in_app_iff. cbn [In]. intros [I | [X | []]]; [contradiction |].
        rewrite X in T. discriminate.
      + cbn. intuition discriminate.
      + intros []. }
  destruct (G es (App.selectedSymbols App.initial, StockSelector.initial)) as [N E].
  { split; [| cbn; intuition discriminate].
    cbn. repeat (constructor; [cbn; intuition discriminate |]). constructor. }
  split; [exact N | split; [exact E | split; [reflexivity |]]].
  intros r H. apply runAnalysis_emits in H. subst r. reflexivity.
Qed.

Lemma selection_has_no_duplicates_witness :
  let es := [StockSelector.TypeSymbol "nvda"; StockSelector.ClickAdd;
             StockSelector.TypeSymbol " aapl"; StockSelector.PressEnter;
             StockSelector.ClickChip "MSFT"] in
  let l := fst (StockSelector.steps es
                  (App.selectedSymbols App.initial, StockSelector.initial)) in
  l = ["NVDA"; "AMZN"; "GOOGL"; "TSLA"; "UNH"; "CRWD"; "V"; "ASML"; "PLTR"; "AAPL"]
  /\ prop (App.analyze_body (App.setSelectedSymbols l App.initial)) "symbols"
     = VArr (map VStr l).
Proof.
  intros es l. split; [reflexivity |].
  exact (proj2 (proj2 (proj2 (selection_has_no_duplicates es Sample.base App.initial)))
           _ (emits_now _ _)).
Defined.

(** X18. A symbol that is not one of the ten default stocks has no
    chip: once added it stays selected through every click on a chip
    and every further addition, and only Select All or Clear All
    removes it. *)
Theorem custom_symbol_stays e l s t :
  In t l -> ~ In t StockSelector.DEFAULT_STOCKS ->
  match e with
  | StockSelector.ClickSelectAll | StockSelector.ClickClearAll => False
  | _ => True
  end ->
  In t (fst (StockSelector.step e (l, s))).
Proof.
  intros I D G. destruct e; try contradiction; cbn [StockSelector.step].
  - destruct (StockSelector.includes StockSelector.DEFAULT_STOCKS symbol) eqn:X;
      cbn [fst]; [| exact I].
    apply toggleSymbol_In. right. split; [| exact I].
    intros ->. apply includes_In in X. contradiction.
  - exact I.
  - unfold StockSelector.addCustomSymbol. destruct (_ && _); cbn [fst]; [| exact I].
    apply in_app_iff. left. exact I.
  - unfold StockSelector.addCustomSymbol. destruct (_ && _); cbn [fst]; [| exact I].
    apply in_app_iff. left. exact I.
Qed.

Lemma custom_symbol_stays_witness :
  In "AAPL" (fst (StockSelector.step (StockSelector.ClickChip "NVDA")
                    (StockSelector.DEFAULT_STOCKS ++ ["AAPL"], StockSelector.initial))).
Proof.
  apply custom_symbol_stays; [| | exact I].
  - apply in_app_iff. right. left. reflexivity.
  - cbn. intuition discriminate.
Defined.

(** X19. With no symbol selected, or while an analysis is loading,
    the Run Analysis button is disabled: a click requests nothing and
    changes nothing.  So after Clear All no analysis can be started
    until a symbol is selected again. *)
Theorem no_symbols_no_analysis base s :
  App.selectedSymbols (UI.app s) = StockSelector.clearAll \/ App.loading (UI.app s) = true ->
  (forall r, ~ emits (UI.dispatch base UI.ClickRunAnalysis s) r)
  /\ forall s', returns (UI.dispatch base UI.ClickRunAnalysis s) s' -> s' = s.
Proof.
  intros H.
  assert (D : App.run_analysis_disabled (UI.app s) = true).
  { unfold App.run_analysis_disabled. destruct H as [-> | ->]; [apply orb_true_r | reflexivity]. }
  unfold UI.dispatch. rewrite D. split.
  - intros r E. settle.
  - intros s' R. settle. reflexivity.
Qed.

Lemma no_symbols_no_analysis_witness :
  let s := fst (run (UI.dispatch Sample.base (UI.SymbolsChange StockSelector.clearAll)
                       UI.initial) []) in
  App.selectedSymbols (UI.app s) = []
  /\ fst (run (UI.dispatch Sample.base UI.ClickRunAnalysis s) []) = s.
Proof.
  intros s. split; [reflexivity |].
  exact (proj2 (no_symbols_no_analysis Sample.base s (or_introl eq_refl))
           _ (run_returns _ _)).
Defined.

Lemma trim_start_idem l : trim_start (trim_start l) = trim_start l.
Proof.
  induction l as [| c l IH]; [reflexivity |]. cbn [trim_start].
  destruct (is_white c) eqn:W; [exact IH |]. cbn [trim_start]. rewrite W. reflexivity.
Qed.

Lemma trim_start_snoc l c :
  is_white c = false -> trim_start (l ++ [c]) = trim_start l ++ [c].
Proof.
  intros W. induction l as [| x l IH]; cbn [app trim_start].
  - rewrite W. reflexivity.
  - destruct (is_white x); [exact IH | reflexivity].
Qed.

(** What is left of a text trimmed at both ends starts and ends
    with a character that is not white space. *)
Lemma trim_both_ends l :
  let t := rev (trim_start (rev (trim_start l))) in
  trim_start t = t /\ trim_start (rev t) = rev t.
Proof.
  intros t. subst t. split.
  - pose proof (trim_start_idem l) as I.
    destruct (trim_start l) as [| c y]; [reflexivity |].
    cbn [trim_start] in I. destruct (is_white c) eqn:W.
    + exfalso. assert (L : (length (trim_start y) <= length y)%nat).
      { clear. induction y as [| a y IH]; cbn [trim_start]; [lia |].
        destruct (is_white a); cbn [length]; lia. }
      rewrite I in L. cbn [length] in L. lia.
    + cbn [rev]. rewrite (trim_start_snoc _ _ W), rev_app_distr. cbn [rev app trim_start].
      rewrite W. reflexivity.
  - rewrite rev_involutive. apply trim_start_idem.
Qed.

Lemma upper_not_lower c :
  let n := N_of_ascii (StockSelector.upper c) in ((97 <=? n) && (n <=? 122))%N = false.
Proof.
  unfold StockSelector.upper.
  destruct ((97 <=? N_of_ascii c) && (N_of_ascii c <=? 122))%N eqn:E; [| exact E].
  apply andb_true_iff in E as [A B]. apply N.leb_le in A, B. cbv zeta.
  rewrite N_ascii_embedding by lia.
  apply andb_false_iff. left. apply N.leb_gt. lia.
Qed.

Lemma upper_white c : is_white (StockSelector.upper c) = is_white c.
Proof.
  unfold StockSelector.upper.
  destruct ((97 <=? N_of_ascii c) && (N_of_ascii c <=? 122))%N eqn:E; [| reflexivity].
  apply andb_true_iff in E as [A B]. apply N.leb_le in A, B.
  unfold is_white. rewrite N_ascii_embedding by lia.
  repeat match goal with
         | |- context [(?a =? ?b)%N] =>
             let H := fresh in destruct (N.eqb_spec a b) as [H | H]; [lia |]
         end.
  reflexivity.
Qed.

Lemma trim_start_upper l :
  trim_start l = l -> trim_start (map StockSelector.upper l) = map StockSelector.upper l.
Proof.
  destruct l as [| c l]; [reflexivity |]. cbn [trim_start map]. rewrite upper_white.
  destruct (is_white c) eqn:W; [| reflexivity].
  intros H. exfalso. assert (L : (length (trim_start l) <= length l)%nat).
  { clear. induction l as [| a y IH]; cbn [trim_start]; [lia |].
    destruct (is_white a); cbn [length]; lia. }
  rewrite H in L. cbn [length] in L. lia.
Qed.

Lemma normalised_symbol text :
  let sym := list_ascii_of_string (StockSelector.toUpperCase (StockSelector.trim text)) in
  Forall (fun c => ((97 <=? N_of_ascii c) && (N_of_ascii c <=? 122))%N = false) sym
  /\ trim_start sym = sym /\ trim_start (rev sym) = rev sym.
Proof.
  unfold StockSelector.toUpperCase, StockSelector.trim.
  rewrite !list_ascii_of_string_of_list_ascii.
  destruct (trim_both_ends (list_ascii_of_string text)) as [A B]. cbv zeta in A, B.
  set (t := rev (trim_start (rev (trim_start (list_ascii_of_string text))))) in *.
  cbv zeta. split; [| split].
  - apply List.Forall_forall. intros c I. apply in_map_iff in I as (x & <- & _).
    apply upper_not_lower.
  - apply trim_start_upper, A.
  - rewrite <- map_rev. apply trim_start_upper, B.
Qed.

(** X20. A custom symbol is added trimmed and in upper case: what
    joins the selection has no lower-case letter and no white space at
    either end, is not empty and was not selected before, goes to the
    end of the selection, and the input is emptied.  A text that is
    blank, or that names a symbol already selected in any letter case,
    adds nothing and stays in the input. *)
Theorem addCustomSymbol_normalises selectedSymbols st :
  StockSelector.ascii_only (StockSelector.customSymbol st) ->
  let symbol := StockSelector.toUpperCase (StockSelector.trim (StockSelector.customSymbol st)) in
  match StockSelector.addCustomSymbol selectedSymbols st with
  | (Some l, st') =>
      l = selectedSymbols ++ [symbol]
      /\ StockSelector.customSymbol st' = EmptyString
      /\ symbol <> EmptyString /\ ~ In symbol selectedSymbols
      /\ Forall (fun c => ((97 <=? N_of_ascii c) && (N_of_ascii c <=? 122))%N = false)
                (list_ascii_of_string symbol)
      /\ trim_start (list_ascii_of_string symbol) = list_ascii_of_string symbol
      /\ trim_start (rev (list_ascii_of_string symbol)) = rev (list_ascii_of_string symbol)
      /\ fst (StockSelector.addCustomSymbol l st) = None
  | (None, st') =>
      st' = st /\ (symbol = EmptyString \/ In symbol selectedSymbols)
  end.
Proof.
  intros _ symbol. unfold StockSelector.addCustomSymbol. fold symbol.
  destruct (normalised_symbol (StockSelector.customSymbol st)) as (U & T & R).
  cbv zeta in U, T, R. fold symbol in U, T, R.
  cbn [truthy]. destruct (String.eqb_spec symbol EmptyString) as [E | E]; cbn [negb andb].
  - split; [reflexivity | left; exact E].
  - destruct (StockSelector.includes selectedSymbols symbol) eqn:I; cbn [negb].
    + split; [reflexivity | right; apply includes_In, I].
    + apply includes_false in I. repeat split; try assumption.
      rewrite (proj2 (includes_In (selectedSymbols ++ [symbol]) symbol))
        by (apply in_app_iff; right; left; reflexivity).
      reflexivity.
Qed.

Lemma addCustomSymbol_normalises_witness :
  StockSelector.addCustomSymbol ["NVDA"] {| StockSelector.customSymbol := "  aapl " |}
  = (Some ["NVDA"; "AAPL"], StockSelector.initial)
  /\ fst (StockSelector.addCustomSymbol ["NVDA"] {| StockSelector.customSymbol := " nvda" |})
     = None.
Proof.
  assert (A : forall text, StockSelector.ascii_only text ->
                match StockSelector.addCustomSymbol ["NVDA"]
                        {| StockSelector.customSymbol := text |} with
                | (Some l, st') =>
                    l = ["NVDA"] ++ [StockSelector.toUpperCase (StockSelector.trim text)]
                    /\ StockSelector.customSymbol st' = EmptyString
                | (None, _) => True
                end).
  { intros text H.
    pose proof (addCustomSymbol_normalises ["NVDA"]
                  {| StockSelector.customSymbol := text |} H) as P.
    cbv zeta in P. cbn [StockSelector.customSymbol] in P.
    destruct (StockSelector.addCustomSymbol _ _) as [[l |] st']; [| exact I].
    destruct P as (P1 & P2 & _). split; assumption. }
  split; [| reflexivity].
  specialize (A "  aapl ").
  assert (H : StockSelector.ascii_only "  aapl ").
  { unfold StockSelector.ascii_only. repeat constructor. }
  specialize (A H).
  destruct (StockSelector.addCustomSymbol ["NVDA"] _) as [[l |] [c]] eqn:E.
  - destruct A as [-> C]. cbn [StockSelector.customSymbol] in C. subst c. reflexivity.
  - vm_compute in E. discriminate.
Defined.

(* ===================================================================== *)
(** * The account summary, and the details of a card *)
(* ===================================================================== *)





(* ===================================================================== *)
(** * Mounting the page, and the Telegram button *)
(* ===================================================================== *)

Lemma run_loadConfig base s script :
  snd (run (App.loadConfig base s) script)
    = [Request GET (App.endpoint base "/config") VUndefined]
  /\ App.analysisResults (fst (run (App.loadConfig base s) script)) = App.analysisResults s
  /\ App.selectedSymbols (fst (run (App.loadConfig base s) script)) = App.selectedSymbols s.
Proof.
  unfold App.loadConfig. cbn [run fst snd]. answers script; repeat split.
Qed.

(** X23. Mounting the page makes two requests whatever the server
    answers, the GET of /account and then the GET of /config: it starts
    no analysis and no trade, and leaves the analysis results, the
    selection of symbols and the state of the two components as they
    were. *)
Theorem mount_requests base s script :
  let s' := fst (run (UI.dispatch base UI.Mount s) script) in
  snd (run (UI.dispatch base UI.Mount s) script)
    = [Request GET (App.endpoint base "/account") VUndefined;
       Request GET (App.endpoint base "/config") VUndefined]
  /\ App.analysisResults (UI.app s') = App.analysisResults (UI.app s)
  /\ App.selectedSymbols (UI.app s') = App.selectedSymbols (UI.app s)
  /\ UI.panel s' = UI.panel s
  /\ UI.results s' = UI.results s.
Proof.
  unfold UI.dispatch. rewrite !run_bind.
  destruct (run_loadAccountData base (UI.app s) script) as (R1 & A1).
  set (a1 := fst (run (App.loadAccountData base (UI.app s)) script)) in *.
  rewrite R1. cbn [length drop fst snd app].
  destruct (run_loadConfig base a1 (drop 1 script)) as (R2 & A2 & S2).
  rewrite R2. cbn [length drop fst snd app run UI.app UI.with_app UI.panel UI.results].
  rewrite A2, A1, S2. repeat split.
  subst a1. unfold App.loadAccountData. cbn [run fst]. answers script; reflexivity.
Qed.

(** X24. A report goes to Telegram only on a click made while
    analysis results are on display, the configuration says that
    Telegram is configured and no sending is under way; the request is
    then the POST of [analysis] to /send-telegram.  Before the
    configuration is loaded the button does nothing. *)
Theorem telegram_needs_configuration base s r :
  emits (UI.dispatch base UI.ClickSendToTelegram s) r ->
  truthy (App.analysisResults (UI.app s)) = true
  /\ truthy (get_opt (App.config (UI.app s)) "telegram_configured") = true
  /\ App.telegramStatus (UI.app s) <> App.Sending
  /\ nullish (App.config (UI.app s)) = false
  /\ r = Request POST (App.endpoint base "/send-telegram")
           (VObj [("analysis", prop (App.analysisResults (UI.app s)) "analysis")]).
Proof.
  unfold UI.dispatch. destruct (App.telegram_enabled (UI.app s)) eqn:E; [| intros H; settle].
  unfold App.telegram_enabled in E.
  apply andb_true_iff in E as [E S]. apply andb_true_iff in E as [A C].
  intros H. apply emits_bind_inv in H as [H | (a & _ & H)].
  - repeat split; try assumption.
    + intros X. rewrite X in S. discriminate.
    + unfold get_opt in C. destruct (nullish (App.config (UI.app s))); [discriminate | reflexivity].
    + unfold App.sendToTelegram in H. rewrite A in H. cbn [negb] in H.
      apply emits_Await_inv in H as [-> | [resp H]]; [reflexivity | settle].
  - destruct (App.telegramStatus a); settle.
Qed.

Lemma telegram_needs_configuration_witness :
  let s := UI.with_app
             (App.setConfig (VObj [("telegram_configured", VBool true)])
                (App.setAnalysis Sample.results App.initial)) UI.initial in
  emits (UI.dispatch Sample.base UI.ClickSendToTelegram s)
        (Request POST "/api/send-telegram"
           (VObj [("analysis", prop Sample.results "analysis")]))
  /\ nullish (App.config (UI.app s)) = false.
Proof.
  intros s.
  assert (E : emits (UI.dispatch Sample.base UI.ClickSendToTelegram s)
                (Request POST "/api/send-telegram"
                   (VObj [("analysis", prop Sample.results "analysis")]))).
  { apply emits_now. }
  split; [exact E |].
  exact (proj1 (proj2 (proj2 (proj2 (telegram_needs_configuration Sample.base s _ E))))).
Defined.
